(** * Monitor Mate: the report aggregation and rendering engine

    A shallow embedding of [src/services/PDFReportService.js] and the
    properties of its aggregation, ranking, analysis and rendering
    functions.

    Conventions of the embedding.
    - A JavaScript string is a [string] (a sequence of bytes; the text of
      the templates is in UTF-8); an optional property is an [option],
      [None] being [undefined].
    - Counters and lengths are [nat], byte counts are [N], scores are [Z],
      a truncation limit is a count.  Where the source divides, the
      operands become IEEE-754 doubles ([float], the kernel's binary64):
      division, scaling, [Math.round] and the printing of a number are
      those of doubles.  [Math.log] alone is taken exactly.
    - A function that can throw, or an async function that can reject,
      returns [Exn + A]; the message of an error raised by the engine is
      engine-specific and stands here as a representative text.
    - A plain object used as a dictionary is an association list in
      insertion order, the order in which [Object.entries] enumerates
      identifier-like keys such as permission names.
    - What the service asks of the platform (storage, clock, permission
      dialog, PDF generation, file copy) is a [Host] record of outcomes. *)

From Stdlib Require Import List String Ascii Bool Arith ZArith NArith Lia.
From Stdlib Require Import Permutation Sorted DecimalString.
From Stdlib Require Import Floats.
Import ListNotations.

Local Open Scope string_scope.
Local Open Scope list_scope.

(* ================================================================== *)
(** * The JavaScript operations the service relies on *)
(* ================================================================== *)

Module JS.

(** ** Errors *)

Inductive Exn : Type :=
| SyntaxError (message : string)
| TypeError (message : string)
| Error (message : string).

Definition message (e : Exn) : string :=
  match e with
  | SyntaxError m | TypeError m | Error m => m
  end.

Definition Result (A : Type) : Type := (Exn + A)%type.

Definition ret {A} (a : A) : Result A := inr a.
Definition throw {A} (e : Exn) : Result A := inl e.

Definition bind {A B} (r : Result A) (k : A -> Result B) : Result B :=
  match r with
  | inl e => inl e
  | inr a => k a
  end.

(** [try { body } catch (error) { handler }] *)
Definition try_catch {A} (body : Result A) (handler : Exn -> Result A)
  : Result A :=
  match body with
  | inl e => handler e
  | inr a => inr a
  end.

(** [l.forEach(f)] where [f] updates a state and may throw: the first
    exception ends the loop. *)
Fixpoint forEachM {S A} (f : S -> A -> Result S) (l : list A) (s : S)
  : Result S :=
  match l with
  | [] => ret s
  | x :: l' => bind (f s x) (forEachM f l')
  end.

(** ** Truthiness and defaults *)

(** [x || d] on an optional string: [undefined] and the empty string are
    falsy. *)
Definition or_str (x : option string) (d : string) : string :=
  match x with
  | Some s => if String.eqb s EmptyString then d else s
  | None => d
  end.

(** [x || 0] on an optional number. *)
Definition or_0 (x : option Z) : Z :=
  match x with Some z => z | None => 0%Z end.

Definition or_0N (x : option N) : N :=
  match x with Some n => n | None => 0%N end.

(** [x || []] on an optional array. *)
Definition or_nil {A} (x : option (list A)) : list A :=
  match x with Some l => l | None => [] end.

(** Interpolation of an optional string in a template literal. *)
Definition interp (x : option string) : string :=
  match x with Some s => s | None => "undefined" end.

(** ** Arrays *)

(** [l.includes(x)] *)
Definition includes (x : string) (l : list string) : bool :=
  existsb (String.eqb x) l.

(** The elements of [l] that are not in [seen], each once, in order of
    first occurrence. *)
Fixpoint uniq_from (seen l : list string) : list string :=
  match l with
  | [] => []
  | x :: l' =>
      if includes x seen then uniq_from seen l'
      else x :: uniq_from (x :: seen) l'
  end.

(** [[...new Set(l)]]: a [Set] iterates in insertion order. *)
Definition spread_Set (l : list string) : list string := uniq_from [] l.

(** [l.slice(0, n)] for a count [n]. *)
Definition slice0 {A} (n : nat) (l : list A) : list A := firstn n l.

(** [l.map((x, index) => f(x, index))] *)
Fixpoint mapi_from {A B} (f : A -> nat -> B) (i : nat) (l : list A)
  : list B :=
  match l with
  | [] => []
  | x :: l' => f x i :: mapi_from f (S i) l'
  end.

Definition mapi {A B} (f : A -> nat -> B) (l : list A) : list B :=
  mapi_from f 0 l.

(** [l.join('')] *)
Definition join (l : list string) : string :=
  fold_right String.append EmptyString l.

(** [l.sort(cmp)]: [cmp a b < 0] puts [a] first, [cmp a b > 0] puts [b]
    first, and elements that compare equal keep their order (the sort is
    stable since ES2019).  For a comparator that is a numeric difference
    of keys the result does not depend on the engine's algorithm; it is
    computed here by insertion from the right. *)
Fixpoint insert {A} (cmp : A -> A -> Z) (x : A) (l : list A) : list A :=
  match l with
  | [] => [x]
  | y :: l' =>
      if (cmp x y <=? 0)%Z then x :: y :: l' else y :: insert cmp x l'
  end.

Fixpoint sort {A} (cmp : A -> A -> Z) (l : list A) : list A :=
  match l with
  | [] => []
  | x :: l' => insert cmp x (sort cmp l')
  end.

(** The comparator [(a, b) => key(b) - key(a)] of a descending sort. *)
Definition desc {A} (key : A -> Z) (a b : A) : Z := (key b - key a)%Z.

(** ** Numbers *)

(** The double nearest to a natural number (exact below 2^53). *)
Definition Num (n : N) : float :=
  SF2Prim (binary_normalize prec emax (Z.of_N n) 0 false).

Definition NumNat (n : nat) : float := Num (N.of_nat n).

(** [Math.floor] *)
Definition Math_floor (x : float) : float :=
  match Prim2SF x with
  | S754_finite s m e =>
      if (0 <=? e)%Z then x
      else
        let q := Z.shiftr (Zpos m) (- e) in
        let exact := (Z.shiftl q (- e) =? Zpos m)%Z in
        if s then
          (- Num (Z.to_N (if exact then q else q + 1)))%float
        else Num (Z.to_N q)
  | _ => x
  end.

(** [Math.round]: the nearest integer, a tie going to the larger one. *)
Definition Math_round (x : float) : float :=
  let f := Math_floor x in
  if (x <? 0)%float && (-0.5 <=? x)%float then (-0)%float
  else if (x - f <? 0.5)%float then f
  else (f + 1)%float.

(** Decimal numerals. *)
Definition string_of_nat (n : nat) : string :=
  NilZero.string_of_uint (Nat.to_uint n).

Definition string_of_Z (z : Z) : string :=
  NilZero.string_of_int (Z.to_int z).

(** ** [Number::toString]

    The numeral of a double: the shortest sequence of decimal digits that
    reads back as the same double (the closest to it when several do),
    laid out as ECMAScript prescribes.  A finite double is [m * 2^e];
    the computation is exact, on integers. *)

(** [a * 10^p] compared with [b * 2^q], for [a], [b] >= 0. *)
Definition compare_scaled (a p b q : Z) : comparison :=
  (a * 10 ^ Z.max p 0 * 2 ^ Z.max (- q) 0
     ?= b * 10 ^ Z.max (- p) 0 * 2 ^ Z.max q 0)%Z.

(** [floor (b * 2^q / 10^p)] *)
Definition floor_scaled (b q p : Z) : Z :=
  ((b * 2 ^ Z.max q 0 * 10 ^ Z.max (- p) 0)
     / (10 ^ Z.max p 0 * 2 ^ Z.max (- q) 0))%Z.

(** The [n] with [10^(n-1) <= m * 2^e < 10^n], from an estimate by the
    binary logarithm corrected by at most a few steps. *)
Fixpoint adjust_up (fuel : nat) (m e n : Z) : Z :=
  match fuel with
  | O => n
  | S fuel' =>
      match compare_scaled 1 n m e with
      | Gt => n
      | _ => adjust_up fuel' m e (n + 1)
      end
  end.

Fixpoint adjust_down (fuel : nat) (m e n : Z) : Z :=
  match fuel with
  | O => n
  | S fuel' =>
      match compare_scaled 1 (n - 1) m e with
      | Gt => adjust_down fuel' m e (n - 1)
      | _ => n
      end
  end.

Definition decimal_exponent (m e : Z) : Z :=
  let bits := (Z.log2 m + e)%Z in
  let guess := (bits * 30103 / 100000)%Z in
  adjust_up 4 m e (adjust_down 4 m e guess).

(** A candidate [s * 10^p] reads back as [m * 2^e]: it lies within the
    rounding interval, whose ends count when [m] is even.  With
    [u = 2^(e-2)] the double is [4m u], the interval ends
    [(4m - lower) u] and [(4m + 2) u]. *)
Definition reads_back (m e s p : Z) : bool :=
  let lower :=
    if ((m =? 2 ^ 52) && (-1074 <? e))%Z%bool then 1%Z else 2%Z in
  let inclusive := Z.even m in
  let above_low :=
    match compare_scaled s p (4 * m - lower) (e - 2) with
    | Gt => true | Eq => inclusive | Lt => false
    end in
  let below_high :=
    match compare_scaled s p (4 * m + 2) (e - 2) with
    | Lt => true | Eq => inclusive | Gt => false
    end in
  above_low && below_high.

(** The digits [s] and the exponent [n] of the numeral, trying 1, 2, ...
    digits. *)
Fixpoint shortest (fuel : nat) (m e n k : Z) : Z * Z :=
  let p := (n - k)%Z in
  let lo := floor_scaled m e p in
  let hi := (lo + 1)%Z in
  let ok_lo := (0 <? lo)%Z && reads_back m e lo p in
  let ok_hi := reads_back m e hi p in
  let pick :=
    if ok_lo && ok_hi then
      match compare_scaled (2 * lo + 1) p (2 * m) e with
      | Gt => Some lo        (* the double is nearer to [lo] *)
      | Lt => Some hi
      | Eq => Some (if Z.even lo then lo else hi)
      end
    else if ok_lo then Some lo
    else if ok_hi then Some hi
    else None in
  match pick, fuel with
  | Some s, _ => (s, p)
  | None, O => (lo, p)
  | None, S fuel' => shortest fuel' m e n (k + 1)
  end.

(** Drop the zeros at the end of [s], raising the power of ten. *)
Fixpoint strip_zeros (fuel : nat) (s p : Z) : Z * Z :=
  match fuel with
  | O => (s, p)
  | S fuel' =>
      if ((0 <? s) && (s mod 10 =? 0))%Z%bool
      then strip_zeros fuel' (s / 10) (p + 1) else (s, p)
  end.

Fixpoint zeros (n : nat) : string :=
  match n with O => EmptyString | S n' => String "0" (zeros n') end.

(** Steps 6 to 10 of Number::toString: [digits] stands for
    [digits * 10^(n - k)] where [k] is its length. *)
Definition layout (digits : string) (n : Z) : string :=
  let k := Z.of_nat (String.length digits) in
  if ((k <=? n) && (n <=? 21))%Z%bool then
    digits ++ zeros (Z.to_nat (n - k))
  else if ((0 <? n) && (n <=? 21))%Z%bool then
    substring 0 (Z.to_nat n) digits ++ "."
    ++ substring (Z.to_nat n) (Z.to_nat (k - n)) digits
  else if ((-6 <? n) && (n <=? 0))%Z%bool then
    "0." ++ zeros (Z.to_nat (- n)) ++ digits
  else
    let e := (n - 1)%Z in
    let sign := if (e <? 0)%Z then "-" else "+" in
    let mantissa :=
      (if (k =? 1)%Z then digits
       else substring 0 1 digits ++ "."
            ++ substring 1 (Z.to_nat (k - 1)) digits)%string in
    mantissa ++ "e" ++ sign ++ string_of_Z (Z.abs e).

Definition Number_toString (x : float) : string :=
  match Prim2SF x with
  | S754_nan => "NaN"
  | S754_zero _ => "0"
  | S754_infinity s => if s then "-Infinity" else "Infinity"
  | S754_finite s m e =>
      let n := decimal_exponent (Zpos m) e in
      let '(d, p) := shortest 17 (Zpos m) e n 1 in
      let '(d, p) := strip_zeros 400 d p in
      let digits := string_of_Z d in
      (if s then "-" else EmptyString)
      ++ layout digits (p + Z.of_nat (String.length digits))
  end.

(** ** Strings *)

(** The double-quote character. *)
Definition dq : string := String (ascii_of_nat 34) EmptyString.

(** [s.toUpperCase()], on the letters a to z. *)
Definition upper_char (c : ascii) : ascii :=
  let n := nat_of_ascii c in
  if ((97 <=? n) && (n <=? 122))%nat then ascii_of_nat (n - 32) else c.

Fixpoint toUpperCase (s : string) : string :=
  match s with
  | EmptyString => EmptyString
  | String c s' => String (upper_char c) (toUpperCase s')
  end.

(** [s.slice(n)] *)
Fixpoint drop (n : nat) (s : string) : string :=
  match n, s with
  | O, _ => s
  | S n', String _ s' => drop n' s'
  | S _, EmptyString => EmptyString
  end.

(** [s.replace(pat, rep)] for a string pattern: the first occurrence. *)
Fixpoint replace_first (pat rep s : string) : string :=
  if prefix pat s then rep ++ drop (String.length pat) s
  else
    match s with
    | EmptyString => EmptyString
    | String c s' => String c (replace_first pat rep s')
    end.

(** [s.includes(pat)] *)
Fixpoint contains (pat s : string) : bool :=
  if prefix pat s then true
  else
    match s with
    | EmptyString => false
    | String _ s' => contains pat s'
    end.

(** [s.split(c)[0]] *)
Fixpoint before (c : ascii) (s : string) : string :=
  match s with
  | EmptyString => EmptyString
  | String c' s' =>
      if Ascii.eqb c' c then EmptyString else String c' (before c s')
  end.

(** ** [JSON.parse]

    The grammar of ECMA-404.  The service hands the parsed values on
    without looking inside, so a number is kept as its numeral and a
    string as it is written between its quotes (escape sequences are
    checked, not decoded). *)

#[warnings="-register-all"]
Inductive Json : Type :=
| JNull
| JBool (b : bool)
| JNumber (numeral : string)
| JString (chars : string)
| JArray (elements : list Json)
| JObject (members : list (string * Json)).

(** The object literal [{}]. *)
Definition empty_object : Json := JObject [].

Definition is_ws (c : ascii) : bool :=
  let n := nat_of_ascii c in
  ((n =? 32) || (n =? 9) || (n =? 10) || (n =? 13))%nat.

Definition is_digit (c : ascii) : bool :=
  let n := nat_of_ascii c in ((48 <=? n) && (n <=? 57))%nat.

Definition is_hex (c : ascii) : bool :=
  let n := nat_of_ascii c in
  (((48 <=? n) && (n <=? 57)) || ((65 <=? n) && (n <=? 70))
   || ((97 <=? n) && (n <=? 102)))%nat.

Fixpoint skip_ws (s : string) : string :=
  match s with
  | String c s' => if is_ws c then skip_ws s' else s
  | EmptyString => s
  end.

(** [s] starts with the character [c]. *)
Definition starts (c : ascii) (s : string) : bool :=
  match s with
  | String c' _ => Ascii.eqb c' c
  | EmptyString => false
  end.

(** The longest run of digits at the head of [s], and what follows. *)
Fixpoint digits (s : string) : string * string :=
  match s with
  | String c s' =>
      if is_digit c then let '(d, r) := digits s' in (String c d, r)
      else (EmptyString, s)
  | EmptyString => (EmptyString, s)
  end.

(** [number = [-] int [frac] [exp]], where [int] is 0 or starts with a
    digit from 1 to 9. *)
Definition parse_number (s : string) : option (string * string) :=
  let '(sign, s1) :=
    if starts "-" s then ("-", drop 1 s) else (EmptyString, s) in
  let '(int, s2) := digits s1 in
  if String.eqb int EmptyString
     || (starts "0" int && (1 <? String.length int)%nat)
  then None
  else
    let frac :=
      if starts "." s2 then
        let '(d, r) := digits (drop 1 s2) in
        if String.eqb d EmptyString then None
        else Some (("." ++ d)%string, r)
      else Some (EmptyString, s2) in
    match frac with
    | None => None
    | Some (f, s3) =>
        let exp :=
          if starts "e" s3 || starts "E" s3 then
            let r := drop 1 s3 in
            let '(sg, r1) :=
              if starts "+" r then ("+", drop 1 r)
              else if starts "-" r then ("-", drop 1 r)
              else (EmptyString, r) in
            let '(d, r2) := digits r1 in
            if String.eqb d EmptyString then None
            else Some ((substring 0 1 s3 ++ sg ++ d)%string, r2)
          else Some (EmptyString, s3) in
        match exp with
        | None => None
        | Some (x, s4) => Some ((sign ++ int ++ f ++ x)%string, s4)
        end
    end.

(** The characters of a string after its opening quote, up to the
    closing quote: no control character, and after a backslash one of the
    eight escape letters or [u] and four hexadecimal digits. *)
Fixpoint parse_chars (s : string) : option (string * string) :=
  match s with
  | EmptyString => None
  | String c s' =>
      if (nat_of_ascii c =? 34)%nat then Some (EmptyString, s')
      else if (nat_of_ascii c <? 32)%nat then None
      else if Ascii.eqb c "\" then
        match s' with
        | String e s'' =>
            if Ascii.eqb e "u" then
              match s'' with
              | String h1 (String h2 (String h3 (String h4 r))) =>
                  if is_hex h1 && is_hex h2 && is_hex h3 && is_hex h4 then
                    match parse_chars r with
                    | Some (t, r') =>
                        Some (String c (String e (String h1 (String h2
                                (String h3 (String h4 t))))), r')
                    | None => None
                    end
                  else None
              | _ => None
              end
            else if ((nat_of_ascii e =? 34)%nat || Ascii.eqb e "\"
                     || Ascii.eqb e "/" || Ascii.eqb e "b"
                     || Ascii.eqb e "f" || Ascii.eqb e "n"
                     || Ascii.eqb e "r" || Ascii.eqb e "t")%bool then
              match parse_chars s'' with
              | Some (t, r') => Some (String c (String e t), r')
              | None => None
              end
            else None
        | EmptyString => None
        end
      else
        match parse_chars s' with
        | Some (t, r') => Some (String c t, r')
        | None => None
        end
  end.

(** One value at the head of [s] (after white space), and what follows;
    the elements of an array after its opening bracket; the members of an
    object after its opening brace.  [fuel] bounds the depth of the
    calls. *)
Fixpoint parse_value (fuel : nat) (s : string) : option (Json * string) :=
  match fuel with
  | O => None
  | S fuel' =>
      let s := skip_ws s in
      if starts "{" s then
        let r := skip_ws (drop 1 s) in
        if starts "}" r then Some (JObject [], drop 1 r)
        else
          match parse_members fuel' r with
          | Some (ms, r') => Some (JObject ms, r')
          | None => None
          end
      else if starts "[" s then
        let r := skip_ws (drop 1 s) in
        if starts "]" r then Some (JArray [], drop 1 r)
        else
          match parse_elements fuel' r with
          | Some (es, r') => Some (JArray es, r')
          | None => None
          end
      else if starts (ascii_of_nat 34) s then
        match parse_chars (drop 1 s) with
        | Some (t, r) => Some (JString t, r)
        | None => None
        end
      else if prefix "true" s then Some (JBool true, drop 4 s)
      else if prefix "false" s then Some (JBool false, drop 5 s)
      else if prefix "null" s then Some (JNull, drop 4 s)
      else
        match parse_number s with
        | Some (n, r) => Some (JNumber n, r)
        | None => None
        end
  end

with parse_elements (fuel : nat) (s : string)
  : option (list Json * string) :=
  match fuel with
  | O => None
  | S fuel' =>
      match parse_value fuel' s with
      | Some (v, r) =>
          let r := skip_ws r in
          if starts "]" r then Some ([v], drop 1 r)
          else if starts "," r then
            match parse_elements fuel' (drop 1 r) with
            | Some (vs, r') => Some (v :: vs, r')
            | None => None
            end
          else None
      | None => None
      end
  end

with parse_members (fuel : nat) (s : string)
  : option (list (string * Json) * string) :=
  match fuel with
  | O => None
  | S fuel' =>
      let s := skip_ws s in
      if starts (ascii_of_nat 34) s then
        match parse_chars (drop 1 s) with
        | Some (k, r1) =>
            let r1 := skip_ws r1 in
            if starts ":" r1 then
              match parse_value fuel' (drop 1 r1) with
              | Some (v, r2) =>
                  let r2 := skip_ws r2 in
                  if starts "}" r2 then Some ([(k, v)], drop 1 r2)
                  else if starts "," r2 then
                    match parse_members fuel' (drop 1 r2) with
                    | Some (ms, r3) => Some ((k, v) :: ms, r3)
                    | None => None
                    end
                  else None
              | None => None
              end
            else None
        | None => None
        end
      else None
  end.

(** [JSON.parse(text)]: one value, white space around it, nothing else;
    anything else is a [SyntaxError].  Twice the length of the text is
    fuel enough for any text ([JSON_parse_complete]). *)
Definition JSON_parse (text : string) : Result Json :=
  match parse_value (2 * String.length text) text with
  | Some (v, r) =>
      if String.eqb (skip_ws r) EmptyString then ret v
      else throw (SyntaxError "Unexpected token in JSON")
  | None => throw (SyntaxError "Unexpected token in JSON")
  end.

End JS.

Import JS.

(* ================================================================== *)
(** * The data model: app records *)
(* ================================================================== *)

Record RiskFactor : Type := {
  permission : string;
  level : option string
}.

Record RiskAnalysis : Type := {
  riskLevel : option string;
  riskScore : option Z;
  highRiskCount : option Z;
  riskFactors : option (list RiskFactor)
}.

Record DataUsage : Type := {
  total : option N;
  wifi : option N;
  mobile : option N
}.

Record App : Type := {
  name : option string;
  appName : option string;
  packageName : option string;
  category : option string;
  permissions : option (list string);
  riskAnalysis : option RiskAnalysis;
  dataUsage : option DataUsage
}.

(** [app.riskAnalysis?.riskLevel] *)
Definition riskLevel_of (app : App) : option string :=
  match riskAnalysis app with
  | Some ra => riskLevel ra
  | None => None
  end.

(** [x === 'LITERAL'] on an optional string. *)
Definition is_str (x : option string) (s : string) : bool :=
  match x with
  | Some v => String.eqb v s
  | None => false
  end.

(** [app.permissions || []]: the identifiers as listed, duplicates
    included. *)
Definition listed (app : App) : list string := or_nil (permissions app).

(** [[...new Set(app.permissions || [])]] *)
Definition uniquePermissions (app : App) : list string :=
  spread_Set (listed app).

(* ================================================================== *)
(** * Byte Formatter *)
(* ================================================================== *)

Definition sizes : list string := ["Bytes"; "KB"; "MB"; "GB"; "TB"].

(** [Math.floor(Math.log(bytes) / Math.log(1024))] for [bytes > 0], with
    the logarithm taken exactly: the [i] with
    [1024^i <= bytes < 1024^(i+1)]. *)
Definition floor_log1024 (bytes : N) : nat := N.to_nat (N.log2 bytes / 10).

(** [Math.pow(1024, i)], a power of two. *)
Definition pow1024 (i : nat) : float := Num (2 ^ (10 * N.of_nat i)).

(** [formatBytes], lines 233-241.  [sizes[i]] is [undefined] past the end
    of the table and concatenates as the text "undefined". *)
Definition formatBytes (bytes : N) : string :=
  if (bytes =? 0)%N then "0 Bytes"
  else
    let i := floor_log1024 bytes in
    Number_toString
      (Math_round ((Num bytes / pow1024 i) * 100) / 100)%float
    ++ " " ++ interp (nth_error sizes i).

(* ================================================================== *)
(** * Statistics Aggregator *)
(* ================================================================== *)

Record Statistics : Type := {
  totalApps : nat;
  highRisk : nat;
  mediumRisk : nat;
  lowRisk : nat;
  noRisk : nat;
  riskPercentage : float;
  averagePermissions : float;
  totalDataUsage : string
}.

(** The local variables of [calculateStatistics] that the loop updates. *)
Record Tally : Type := {
  t_highRisk : nat;
  t_mediumRisk : nat;
  t_lowRisk : nat;
  t_noRisk : nat;
  t_totalPermissions : nat;
  t_totalDataUsage : N
}.

Definition tally0 : Tally :=
  {| t_highRisk := 0; t_mediumRisk := 0; t_lowRisk := 0; t_noRisk := 0;
     t_totalPermissions := 0; t_totalDataUsage := 0 |}.

(** [app.dataUsage?.total || 0] *)
Definition dataTotal (app : App) : N :=
  match dataUsage app with
  | Some du => or_0N (total du)
  | None => 0%N
  end.

(** The [switch] of lines 121-133 on
    [app.riskAnalysis?.riskLevel || 'NO_RISK']. *)
Definition count_tier (t : Tally) (app : App) : Tally :=
  let riskLevel := or_str (riskLevel_of app) "NO_RISK" in
  if String.eqb riskLevel "HIGH_RISK" then
    {| t_highRisk := S (t_highRisk t); t_mediumRisk := t_mediumRisk t;
       t_lowRisk := t_lowRisk t; t_noRisk := t_noRisk t;
       t_totalPermissions := t_totalPermissions t;
       t_totalDataUsage := t_totalDataUsage t |}
  else if String.eqb riskLevel "MEDIUM_RISK" then
    {| t_highRisk := t_highRisk t; t_mediumRisk := S (t_mediumRisk t);
       t_lowRisk := t_lowRisk t; t_noRisk := t_noRisk t;
       t_totalPermissions := t_totalPermissions t;
       t_totalDataUsage := t_totalDataUsage t |}
  else if String.eqb riskLevel "LOW_RISK" then
    {| t_highRisk := t_highRisk t; t_mediumRisk := t_mediumRisk t;
       t_lowRisk := S (t_lowRisk t); t_noRisk := t_noRisk t;
       t_totalPermissions := t_totalPermissions t;
       t_totalDataUsage := t_totalDataUsage t |}
  else
    {| t_highRisk := t_highRisk t; t_mediumRisk := t_mediumRisk t;
       t_lowRisk := t_lowRisk t; t_noRisk := S (t_noRisk t);
       t_totalPermissions := t_totalPermissions t;
       t_totalDataUsage := t_totalDataUsage t |}.

(** One turn of the [forEach] of lines 119-139. *)
Definition tally_app (t : Tally) (app : App) : Tally :=
  let t1 := count_tier t app in
  {| t_highRisk := t_highRisk t1; t_mediumRisk := t_mediumRisk t1;
     t_lowRisk := t_lowRisk t1; t_noRisk := t_noRisk t1;
     t_totalPermissions :=
       t_totalPermissions t1 + List.length (uniquePermissions app);
     t_totalDataUsage := (t_totalDataUsage t1 + dataTotal app)%N |}.

(** [calculateStatistics], lines 108-151. *)
Definition calculateStatistics (apps : list App) : Statistics :=
  let totalApps := List.length apps in
  let t := fold_left tally_app apps tally0 in
  {| totalApps := totalApps;
     highRisk := t_highRisk t;
     mediumRisk := t_mediumRisk t;
     lowRisk := t_lowRisk t;
     noRisk := t_noRisk t;
     riskPercentage :=
       if (0 <? totalApps)%nat
       then Math_round ((NumNat (t_highRisk t) / NumNat totalApps) * 100)%float
       else 0%float;
     averagePermissions :=
       if (0 <? totalApps)%nat
       then Math_round (NumNat (t_totalPermissions t) / NumNat totalApps)%float
       else 0%float;
     totalDataUsage := formatBytes (t_totalDataUsage t) |}.

(* ================================================================== *)
(** * Risk Categorizer *)
(* ================================================================== *)

Record RiskCategories : Type := {
  cat_highRisk : list App;
  cat_mediumRisk : list App;
  cat_lowRisk : list App;
  cat_noRisk : list App
}.

(** The four predicates of lines 155-158. *)
Definition in_highRisk (app : App) : bool := is_str (riskLevel_of app) "HIGH_RISK".
Definition in_mediumRisk (app : App) : bool := is_str (riskLevel_of app) "MEDIUM_RISK".
Definition in_lowRisk (app : App) : bool := is_str (riskLevel_of app) "LOW_RISK".
Definition in_noRisk (app : App) : bool :=
  match riskAnalysis app with
  | None => true
  | Some ra => is_str (riskLevel ra) "NO_RISK"
  end.

(** [categorizeByRisk], lines 153-160. *)
Definition categorizeByRisk (apps : list App) : RiskCategories :=
  {| cat_highRisk := filter in_highRisk apps;
     cat_mediumRisk := filter in_mediumRisk apps;
     cat_lowRisk := filter in_lowRisk apps;
     cat_noRisk := filter in_noRisk apps |}.

(* ================================================================== *)
(** * Top-Risk Ranker *)
(* ================================================================== *)

Definition has_riskAnalysis (app : App) : bool :=
  match riskAnalysis app with Some _ => true | None => false end.

(** [app.riskAnalysis.riskScore || 0] (for an app that has a
    [riskAnalysis]; an app without one is never ranked). *)
Definition score (app : App) : Z :=
  match riskAnalysis app with
  | Some ra => or_0 (riskScore ra)
  | None => 0%Z
  end.

(** The comparator of line 165. *)
Definition by_score_desc : App -> App -> Z := desc score.

(** [getTopRiskyApps(apps, limit = 10)], lines 162-167; [None] is a call
    that leaves [limit] out. *)
Definition getTopRiskyApps (apps : list App) (limit : option nat) : list App :=
  let limit := match limit with Some n => n | None => 10 end in
  slice0 limit (sort by_score_desc (filter has_riskAnalysis apps)).

(* ================================================================== *)
(** * Permission Analyzer *)
(* ================================================================== *)

(** [permissionCount]: identifier to count, in insertion order. *)
Definition PermissionCount : Type := list (string * nat).

(** [permissionCount[p]] *)
Fixpoint pc_get (p : string) (pc : PermissionCount) : option nat :=
  match pc with
  | [] => None
  | (q, n) :: pc' => if String.eqb q p then Some n else pc_get p pc'
  end.

(** [permissionCount[p] = v]: an existing key keeps its place, a new key
    goes last. *)
Fixpoint pc_set (p : string) (v : nat) (pc : PermissionCount)
  : PermissionCount :=
  match pc with
  | [] => [(p, v)]
  | (q, n) :: pc' =>
      if String.eqb q p then (q, v) :: pc' else (q, n) :: pc_set p v pc'
  end.

(** Line 180: [permissionCount[p] = (permissionCount[p] || 0) + 1]. *)
Definition bump (pc : PermissionCount) (p : string) : PermissionCount :=
  pc_set p (match pc_get p pc with Some n => n | None => 0 end + 1) pc.

(** [permissionByRisk], lines 172-176. *)
Record PermissionByRisk : Type := {
  HIGH : list string;
  MEDIUM : list string;
  LOW : list string
}.

(** [permissionByRisk[riskLevel]]: one of the three arrays, or no array. *)
Definition byRisk_get (r : PermissionByRisk) (riskLevel : option string)
  : option (list string) :=
  if is_str riskLevel "HIGH" then Some (HIGH r)
  else if is_str riskLevel "MEDIUM" then Some (MEDIUM r)
  else if is_str riskLevel "LOW" then Some (LOW r)
  else None.

(** [permissionByRisk[riskLevel].push(p)] *)
Definition byRisk_push (r : PermissionByRisk) (riskLevel : option string)
  (p : string) : PermissionByRisk :=
  if is_str riskLevel "HIGH" then
    {| HIGH := HIGH r ++ [p]; MEDIUM := MEDIUM r; LOW := LOW r |}
  else if is_str riskLevel "MEDIUM" then
    {| HIGH := HIGH r; MEDIUM := MEDIUM r ++ [p]; LOW := LOW r |}
  else if is_str riskLevel "LOW" then
    {| HIGH := HIGH r; MEDIUM := MEDIUM r; LOW := LOW r ++ [p] |}
  else r.

(** Lines 183-188, one risk factor.  Calling [includes] on a lookup that
    yields no array throws a [TypeError]. *)
Definition note_factor (r : PermissionByRisk) (factor : RiskFactor)
  : Result PermissionByRisk :=
  let riskLevel := level factor in
  match byRisk_get r riskLevel with
  | None => throw (TypeError "Cannot read property 'includes' of undefined")
  | Some arr =>
      if negb (includes (permission factor) arr)
      then ret (byRisk_push r riskLevel (permission factor))
      else ret r
  end.

(** What the loop of [analyzePermissions] updates. *)
Record Analysis : Type := {
  a_permissionCount : PermissionCount;
  a_permissionByRisk : PermissionByRisk
}.

Definition analysis0 : Analysis :=
  {| a_permissionCount := [];
     a_permissionByRisk := {| HIGH := []; MEDIUM := []; LOW := [] |} |}.

(** [app.riskAnalysis?.riskFactors] *)
Definition riskFactors_of (app : App) : option (list RiskFactor) :=
  match riskAnalysis app with
  | Some ra => riskFactors ra
  | None => None
  end.

(** One turn of the [forEach] of lines 177-190. *)
Definition analyze_app (a : Analysis) (app : App) : Result Analysis :=
  let pc := fold_left bump (uniquePermissions app) (a_permissionCount a) in
  match riskFactors_of app with
  | Some factors =>
      bind (forEachM note_factor factors (a_permissionByRisk a))
        (fun r => ret {| a_permissionCount := pc; a_permissionByRisk := r |})
  | None =>
      ret {| a_permissionCount := pc;
             a_permissionByRisk := a_permissionByRisk a |}
  end.

Record CommonPermission : Type := {
  mc_permission : string;
  mc_count : nat
}.

Record PermissionAnalysis : Type := {
  permissionCount : PermissionCount;
  mostCommon : list CommonPermission;
  highRiskPermissions : nat;
  mediumRiskPermissions : nat;
  lowRiskPermissions : nat
}.

(** The comparator of line 192. *)
Definition by_count_desc : string * nat -> string * nat -> Z :=
  desc (fun a => Z.of_nat (snd a)).

(** [analyzePermissions], lines 170-202. *)
Definition analyzePermissions (apps : list App) : Result PermissionAnalysis :=
  bind (forEachM analyze_app apps analysis0) (fun a =>
  let permissionCount := a_permissionCount a in
  let permissionByRisk := a_permissionByRisk a in
  let mostCommon :=
    map (fun e => {| mc_permission := fst e; mc_count := snd e |})
      (slice0 10 (sort by_count_desc permissionCount)) in
  ret {| permissionCount := permissionCount;
         mostCommon := mostCommon;
         highRiskPermissions := List.length (HIGH permissionByRisk);
         mediumRiskPermissions := List.length (MEDIUM permissionByRisk);
         lowRiskPermissions := List.length (LOW permissionByRisk) |}).

(* ================================================================== *)
(** * Data Usage Summarizer *)
(* ================================================================== *)

Record Consumer : Type := {
  c_name : string;
  c_packageName : option string;
  c_total : N;
  c_wifi : N;
  c_mobile : N
}.

Record DataUsageSummary : Type := {
  totalWifi : string;
  totalMobile : string;
  totalCombined : string;
  topDataConsumers : list Consumer
}.

(** Line 209: [app.dataUsage && app.dataUsage.total > 0]. *)
Definition has_usage (app : App) : bool :=
  match dataUsage app with
  | Some du =>
      match total du with
      | Some t => (0 <? t)%N
      | None => false
      end
  | None => false
  end.

(** [app.dataUsage.wifi || 0] and [app.dataUsage.mobile || 0] *)
Definition wifi_of (app : App) : N :=
  match dataUsage app with Some du => or_0N (wifi du) | None => 0%N end.

Definition mobile_of (app : App) : N :=
  match dataUsage app with Some du => or_0N (mobile du) | None => 0%N end.

(** Lines 210-216, applied to apps that passed [has_usage]. *)
Definition consumer_of (app : App) : Consumer :=
  {| c_name := or_str (name app) (or_str (appName app) "Unknown");
     c_packageName := packageName app;
     c_total := dataTotal app;
     c_wifi := wifi_of app;
     c_mobile := mobile_of app |}.

(** The comparator of line 217. *)
Definition by_total_desc : Consumer -> Consumer -> Z :=
  desc (fun a => Z.of_N (c_total a)).

(** One turn of the [forEach] of lines 219-224 on [(totalWifi, totalMobile)]. *)
Definition add_usage (acc : N * N) (app : App) : N * N :=
  match dataUsage app with
  | Some du => ((fst acc + or_0N (wifi du))%N, (snd acc + or_0N (mobile du))%N)
  | None => acc
  end.

(** [summarizeDataUsage], lines 205-231. *)
Definition summarizeDataUsage (apps : list App) : DataUsageSummary :=
  let topDataConsumers :=
    slice0 10 (sort by_total_desc (map consumer_of (filter has_usage apps))) in
  let '(totalWifi, totalMobile) := fold_left add_usage apps (0%N, 0%N) in
  {| totalWifi := formatBytes totalWifi;
     totalMobile := formatBytes totalMobile;
     totalCombined := formatBytes (totalWifi + totalMobile);
     topDataConsumers := topDataConsumers |}.

(* ================================================================== *)
(** * Permission Knowledge Base *)
(* ================================================================== *)

Record PermissionInfo : Type := {
  pi_level : string;
  pi_description : string
}.

(** [permissionMap], lines 1065-1102. *)
Definition permissionMap : list (string * PermissionInfo) :=
  [ ("CAMERA", {| pi_level := "HIGH"; pi_description := "Can take photos and videos without your knowledge" |});
    ("LOCATION", {| pi_level := "HIGH"; pi_description := "Can track your location and movement patterns" |});
    ("MICROPHONE", {| pi_level := "HIGH"; pi_description := "Can record audio and conversations" |});
    ("CONTACTS", {| pi_level := "HIGH"; pi_description := "Can access your personal contacts and relationships" |});
    ("PHONE", {| pi_level := "HIGH"; pi_description := "Can access phone numbers and call information" |});
    ("SMS", {| pi_level := "HIGH"; pi_description := "Can read and send text messages" |});
    ("CALL_LOG", {| pi_level := "HIGH"; pi_description := "Can access call history and phone logs" |});
    ("PHONE_NUMBERS", {| pi_level := "HIGH"; pi_description := "Can access device phone numbers" |});
    ("CALL_CONTROL", {| pi_level := "HIGH"; pi_description := "Can answer incoming calls" |});
    ("CALL_MONITORING", {| pi_level := "HIGH"; pi_description := "Can monitor and control outgoing calls" |});
    ("BACKGROUND_LOCATION", {| pi_level := "HIGH"; pi_description := "Can track your location even when app is closed" |});
    ("HEALTH_DATA", {| pi_level := "HIGH"; pi_description := "Can access health and fitness data" |});
    ("FILE_MANAGER", {| pi_level := "HIGH"; pi_description := "Can access all files on your device storage" |});
    ("STORAGE", {| pi_level := "MEDIUM"; pi_description := "Can access files and photos on your device" |});
    ("PHOTOS", {| pi_level := "MEDIUM"; pi_description := "Can access photos and images on your device" |});
    ("VIDEOS", {| pi_level := "MEDIUM"; pi_description := "Can access videos on your device" |});
    ("MUSIC", {| pi_level := "MEDIUM"; pi_description := "Can access audio files and music on your device" |});
    ("MEDIA_LOCATION", {| pi_level := "MEDIUM"; pi_description := "Can access location information from photos and videos" |});
    ("CALENDAR", {| pi_level := "MEDIUM"; pi_description := "Can view and modify your calendar events" |});
    ("SENSORS", {| pi_level := "MEDIUM"; pi_description := "Can access body sensors and health data" |});
    ("USAGE_ACCESS", {| pi_level := "MEDIUM"; pi_description := "Can access app usage statistics and screen time data" |});
    ("ACTIVITY_RECOGNITION", {| pi_level := "MEDIUM"; pi_description := "Can access physical activity and step tracking" |});
    ("BLUETOOTH", {| pi_level := "MEDIUM"; pi_description := "Can access nearby Bluetooth devices" |});
    ("NEARBY_DEVICES", {| pi_level := "MEDIUM"; pi_description := "Can access nearby Wi-Fi and Bluetooth devices" |});
    ("ACCOUNTS", {| pi_level := "MEDIUM"; pi_description := "Can access accounts on the device" |});
    ("VOIP", {| pi_level := "MEDIUM"; pi_description := "Can make and receive internet calls (VoIP)" |});
    ("SENSORS_BACKGROUND", {| pi_level := "MEDIUM"; pi_description := "Can access body sensors in the background" |});
    ("UWB", {| pi_level := "MEDIUM"; pi_description := "Can use precise device positioning using ultra-wideband" |});
    ("NOTIFICATIONS", {| pi_level := "LOW"; pi_description := "Can show notifications on your device" |});
    ("INTERNET", {| pi_level := "LOW"; pi_description := "Can access the internet" |});
    ("NETWORK_STATE", {| pi_level := "LOW"; pi_description := "Can view network connections" |});
    ("WIFI_STATE", {| pi_level := "LOW"; pi_description := "Can view Wi-Fi connections" |});
    ("VIBRATE", {| pi_level := "LOW"; pi_description := "Can control vibration" |});
    ("WAKE_LOCK", {| pi_level := "LOW"; pi_description := "Can prevent phone from sleeping" |});
    ("FOREGROUND_SERVICE", {| pi_level := "LOW"; pi_description := "Can run in the foreground" |});
    ("RECEIVE_BOOT_COMPLETED", {| pi_level := "LOW"; pi_description := "Can start on device boot" |}) ].

(** [permissionMap[permission]] *)
Fixpoint lookup (permission : string) (m : list (string * PermissionInfo))
  : option PermissionInfo :=
  match m with
  | [] => None
  | (k, v) :: m' => if String.eqb k permission then Some v else lookup permission m'
  end.

(** [getPermissionInfo], lines 1064-1108. *)
Definition getPermissionInfo (permission : string) : PermissionInfo :=
  match lookup permission permissionMap with
  | Some info => info
  | None => {| pi_level := "LOW";
               pi_description := "System permission with low risk" |}
  end.

(* ================================================================== *)
(** * Document Renderer: helpers *)
(* ================================================================== *)

(** [getRiskClass], lines 1036-1047. *)
Definition getRiskClass (riskLevel : option string) : string :=
  if is_str riskLevel "HIGH_RISK" then "risk-high"
  else if is_str riskLevel "MEDIUM_RISK" then "risk-medium"
  else if is_str riskLevel "LOW_RISK" then "risk-low"
  else "risk-none".

(** [getRiskBadgeClass], lines 1050-1061. *)
Definition getRiskBadgeClass (level : string) : string :=
  if String.eqb level "HIGH" then "risk-high"
  else if String.eqb level "MEDIUM" then "risk-medium"
  else if String.eqb level "LOW" then "risk-low"
  else "risk-none".

(** The replacement [map[m]] of lines 1115-1122 for one character. *)
Definition escape_char (c : ascii) : string :=
  if Ascii.eqb c "&" then "&amp;"
  else if Ascii.eqb c "<" then "&lt;"
  else if Ascii.eqb c ">" then "&gt;"
  else if (nat_of_ascii c =? 34)%nat then "&quot;"
  else if Ascii.eqb c "'" then "&#039;"
  else String c EmptyString.

(** The global replacement of line 1122, over the five characters of
    [map]. *)
Fixpoint escape_all (text : string) : string :=
  match text with
  | EmptyString => EmptyString
  | String c text' => escape_char c ++ escape_all text'
  end.

(** [escapeHtml], lines 1111-1123: a missing or empty text gives the empty
    string. *)
Definition escapeHtml (text : option string) : string :=
  match text with
  | None => EmptyString
  | Some s => if String.eqb s EmptyString then EmptyString else escape_all s
  end.

(** [app.riskAnalysis?.riskLevel?.replace('_RISK', '').replace('_', ' ')
    || 'SAFE'], lines 839 and 870. *)
Definition riskLabel (app : App) : string :=
  or_str
    (option_map (fun s => replace_first "_" " " (replace_first "_RISK" EmptyString s))
       (riskLevel_of app))
    "SAFE".

(** [app.riskAnalysis?.highRiskCount || 0] *)
Definition highRiskCount_of (app : App) : Z :=
  match riskAnalysis app with
  | Some ra => or_0 (highRiskCount ra)
  | None => 0%Z
  end.

(* ================================================================== *)
(** * The report model *)
(* ================================================================== *)

(** A [Date], by what the service reads from it. *)
Record Date : Type := {
  toLocaleDateString : string;
  toLocaleTimeString : string;
  toISOString : string
}.

Record DeviceInfo : Type := {
  platform : string;
  osVersion : Z
}.

Record ReportModel : Type := {
  generatedDate : Date;
  appVersion : string;
  deviceInfo : DeviceInfo;
  settings : Json;
  stats : Statistics;
  riskCategories : RiskCategories;
  topRiskyApps : list App;
  permissionAnalysis : PermissionAnalysis;
  dataUsageSummary : DataUsageSummary;
  apps : list App;
  scanResults : Json
}.

(* ================================================================== *)
(** * Document Renderer: the template *)
(* ================================================================== *)

(** [generateBarChart], lines 1024-1034. *)
Definition generateBarChart (label : string) (value max : nat) (color : string)
  : string :=
  let percentage :=
    if (0 <? max)%nat then ((NumNat value / NumNat max) * 100)%float else 0%float in
  "
            <div class=" ++ dq ++ "bar-item" ++ dq ++ ">
                <div class=" ++ dq ++ "bar-label" ++ dq ++ ">"
  ++ label
  ++ "</div>
                <div class=" ++ dq ++ "bar" ++ dq ++ " style=" ++ dq ++ "width: "
  ++ (Number_toString percentage)
  ++ "%; background: "
  ++ color
  ++ ";" ++ dq ++ ">
                    <div class=" ++ dq ++ "bar-value" ++ dq ++ ">"
  ++ (string_of_nat value)
  ++ "</div>
                </div>
            </div>
        ".

(** Lines 247-575: the head of the document and its style sheet. *)
Definition documentHead : string :=
  "
<!DOCTYPE html>
<html>
<head>
    <meta charset=" ++ dq ++ "UTF-8" ++ dq ++ ">
    <title>Monitor Mate Security Report</title>
    <style>
        * {
            margin: 0;
            padding: 0;
            box-sizing: border-box;
        }
        
        body {
            font-family: -apple-system, BlinkMacSystemFont, 'Segoe UI', Roboto, Helvetica, Arial, sans-serif;
            line-height: 1.6;
            color: #333;
            font-size: 11pt;
        }
        
        .page {
            width: 100%;
            padding: 40px;
            page-break-after: always;
        }
        
        .page:last-child {
            page-break-after: avoid;
        }
        
        .header {
            text-align: center;
            margin-bottom: 30px;
            padding-bottom: 20px;
            border-bottom: 3px solid #ff6347;
        }
        
        .logo {
            font-size: 28pt;
            font-weight: bold;
            color: #ff6347;
            margin-bottom: 10px;
        }
        
        .report-title {
            font-size: 24pt;
            font-weight: bold;
            color: #333;
            margin: 20px 0;
        }
        
        .report-subtitle {
            font-size: 12pt;
            color: #666;
            margin-bottom: 10px;
        }
        
        .section {
            margin: 30px 0;
        }
        
        .section-title {
            font-size: 18pt;
            font-weight: bold;
            color: #ff6347;
            margin-bottom: 15px;
            padding-bottom: 10px;
            border-bottom: 2px solid #ff6347;
        }
        
        .subsection-title {
            font-size: 14pt;
            font-weight: bold;
            color: #333;
            margin: 20px 0 10px 0;
        }
        
        .info-grid {
            display: grid;
            grid-template-columns: 1fr 1fr;
            gap: 15px;
            margin: 15px 0;
        }
        
        .info-item {
            background: #f8f9fa;
            padding: 12px;
            border-radius: 8px;
            border-left: 4px solid #ff6347;
        }
        
        .info-label {
            font-size: 10pt;
            color: #666;
            font-weight: 600;
            margin-bottom: 5px;
        }
        
        .info-value {
            font-size: 14pt;
            font-weight: bold;
            color: #333;
        }
        
        .stats-grid {
            display: grid;
            grid-template-columns: repeat(4, 1fr);
            gap: 15px;
            margin: 20px 0;
        }
        
        .stat-card {
            background: linear-gradient(135deg, #667eea 0%, #764ba2 100%);
            padding: 20px;
            border-radius: 12px;
            text-align: center;
            color: white;
        }
        
        .stat-card.high-risk {
            background: linear-gradient(135deg, #f93d66 0%, #d63447 100%);
        }
        
        .stat-card.medium-risk {
            background: linear-gradient(135deg, #f59e0b 0%, #d97706 100%);
        }
        
        .stat-card.low-risk {
            background: linear-gradient(135deg, #3b82f6 0%, #2563eb 100%);
        }
        
        .stat-card.safe {
            background: linear-gradient(135deg, #10b981 0%, #059669 100%);
        }
        
        .stat-value {
            font-size: 32pt;
            font-weight: bold;
            margin-bottom: 5px;
        }
        
        .stat-label {
            font-size: 10pt;
            opacity: 0.9;
        }
        
        .table {
            width: 100%;
            border-collapse: collapse;
            margin: 15px 0;
            font-size: 10pt;
        }
        
        .table th {
            background: #ff6347;
            color: white;
            padding: 12px;
            text-align: left;
            font-weight: 600;
        }
        
        .table td {
            padding: 10px 12px;
            border-bottom: 1px solid #e5e7eb;
        }
        
        .table tr:nth-child(even) {
            background: #f9fafb;
        }
        
        .table tr:hover {
            background: #f3f4f6;
        }
        
        .risk-badge {
            display: inline-block;
            padding: 4px 12px;
            border-radius: 12px;
            font-size: 9pt;
            font-weight: 600;
            text-transform: uppercase;
        }
        
        .risk-high {
            background: #fee2e2;
            color: #991b1b;
        }
        
        .risk-medium {
            background: #fef3c7;
            color: #92400e;
        }
        
        .risk-low {
            background: #dbeafe;
            color: #1e40af;
        }
        
        .risk-none {
            background: #d1fae5;
            color: #065f46;
        }
        
        .permission-list {
            list-style: none;
            margin: 10px 0;
        }
        
        .permission-item {
            padding: 8px 12px;
            margin: 5px 0;
            background: #f8f9fa;
            border-left: 3px solid #ff6347;
            font-size: 10pt;
        }
        
        .chart-container {
            margin: 20px 0;
            padding: 20px;
            background: #f8f9fa;
            border-radius: 12px;
        }
        
        .bar-chart {
            margin: 10px 0;
        }
        
        .bar-item {
            margin: 10px 0;
        }
        
        .bar-label {
            font-size: 10pt;
            margin-bottom: 5px;
            font-weight: 600;
        }
        
        .bar {
            height: 24px;
            background: linear-gradient(90deg, #ff6347 0%, #ff8a73 100%);
            border-radius: 4px;
            position: relative;
        }
        
        .bar-value {
            position: absolute;
            right: 10px;
            top: 50%;
            transform: translateY(-50%);
            color: white;
            font-size: 10pt;
            font-weight: bold;
        }
        
        .footer {
            margin-top: 40px;
            padding-top: 20px;
            border-top: 2px solid #e5e7eb;
            text-align: center;
            color: #666;
            font-size: 9pt;
        }
        
        .recommendation {
            background: #fef3c7;
            border-left: 4px solid #f59e0b;
            padding: 15px;
            margin: 15px 0;
            border-radius: 8px;
        }
        
        .recommendation-title {
            font-weight: bold;
            color: #92400e;
            margin-bottom: 8px;
        }
        
        .app-detail {
            background: white;
            border: 1px solid #e5e7eb;
            border-radius: 12px;
            padding: 15px;
            margin: 15px 0;
        }
        
        .app-header {
            display: flex;
            justify-content: space-between;
            align-items: center;
            margin-bottom: 10px;
        }
        
        .app-name {
            font-size: 12pt;
            font-weight: bold;
            color: #333;
        }
        
        .app-package {
            font-size: 9pt;
            color: #666;
            font-family: monospace;
        }
        
        .summary-box {
            background: #eff6ff;
            border: 2px solid #3b82f6;
            border-radius: 12px;
            padding: 20px;
            margin: 20px 0;
        }
        
        .summary-title {
            font-size: 14pt;
            font-weight: bold;
            color: #1e40af;
            margin-bottom: 15px;
        }
        
        .key-finding {
            padding: 10px 15px;
            margin: 8px 0;
            background: white;
            border-radius: 8px;
            font-size: 10pt;
        }
    </style>
</head>
<body>
".

(** Lines 619-625, the recommendation box of the cover page. *)
Definition coverRecommendation (stats : Statistics) : string :=
  "
        <div class=" ++ dq ++ "recommendation" ++ dq ++ ">
            <div class=" ++ dq ++ "recommendation-title" ++ dq ++ ">⚠️ Important Recommendation</div>
            <div>You have "
  ++ (string_of_nat (highRisk stats))
  ++ " high-risk app"
  ++ (if (1 <? highRisk stats)%nat then "s" else EmptyString)
  ++ " on your device. 
            We recommend reviewing their permissions and considering alternatives if they're not essential.</div>
        </div>
        ".

(** Lines 576-632: the cover page. *)
Definition coverPage (generatedDate : Date) (appVersion : string) (deviceInfo : DeviceInfo)
  (stats : Statistics) : string :=
  "    <!-- Cover Page -->
    <div class=" ++ dq ++ "page" ++ dq ++ ">
        <div class=" ++ dq ++ "header" ++ dq ++ ">
            <div class=" ++ dq ++ "logo" ++ dq ++ ">🛡️ Monitor Mate</div>
            <div class=" ++ dq ++ "report-title" ++ dq ++ ">Security & Privacy Report</div>
            <div class=" ++ dq ++ "report-subtitle" ++ dq ++ ">Comprehensive App Analysis</div>
        </div>
        
        <div class=" ++ dq ++ "info-grid" ++ dq ++ " style=" ++ dq ++ "margin-top: 60px;" ++ dq ++ ">
            <div class=" ++ dq ++ "info-item" ++ dq ++ ">
                <div class=" ++ dq ++ "info-label" ++ dq ++ ">Report Generated</div>
                <div class=" ++ dq ++ "info-value" ++ dq ++ ">"
  ++ (toLocaleDateString generatedDate)
  ++ "</div>
            </div>
            <div class=" ++ dq ++ "info-item" ++ dq ++ ">
                <div class=" ++ dq ++ "info-label" ++ dq ++ ">Report Time</div>
                <div class=" ++ dq ++ "info-value" ++ dq ++ ">"
  ++ (toLocaleTimeString generatedDate)
  ++ "</div>
            </div>
            <div class=" ++ dq ++ "info-item" ++ dq ++ ">
                <div class=" ++ dq ++ "info-label" ++ dq ++ ">Platform</div>
                <div class=" ++ dq ++ "info-value" ++ dq ++ ">"
  ++ (toUpperCase (platform deviceInfo))
  ++ "</div>
            </div>
            <div class=" ++ dq ++ "info-item" ++ dq ++ ">
                <div class=" ++ dq ++ "info-label" ++ dq ++ ">App Version</div>
                <div class=" ++ dq ++ "info-value" ++ dq ++ ">v"
  ++ appVersion
  ++ "</div>
            </div>
        </div>
        
        <div class=" ++ dq ++ "summary-box" ++ dq ++ " style=" ++ dq ++ "margin-top: 60px;" ++ dq ++ ">
            <div class=" ++ dq ++ "summary-title" ++ dq ++ ">📊 Executive Summary</div>
            <div class=" ++ dq ++ "key-finding" ++ dq ++ ">
                <strong>Total Apps Analyzed:</strong> "
  ++ (string_of_nat (totalApps stats))
  ++ " applications
            </div>
            <div class=" ++ dq ++ "key-finding" ++ dq ++ ">
                <strong>Security Status:</strong> "
  ++ (string_of_nat (highRisk stats))
  ++ " high-risk apps detected ("
  ++ (Number_toString (riskPercentage stats))
  ++ "% of total)
            </div>
            <div class=" ++ dq ++ "key-finding" ++ dq ++ ">
                <strong>Average Permissions:</strong> "
  ++ (Number_toString (averagePermissions stats))
  ++ " permissions per app
            </div>
            <div class=" ++ dq ++ "key-finding" ++ dq ++ ">
                <strong>Total Data Usage:</strong> "
  ++ (totalDataUsage stats)
  ++ "
            </div>
        </div>
        
        "
  ++ (if (0 <? highRisk stats)%nat then coverRecommendation stats else EmptyString)
  ++ "
        
        <div class=" ++ dq ++ "footer" ++ dq ++ ">
            <p>Generated by Monitor Mate v"
  ++ appVersion
  ++ "</p>
            <p>This report contains confidential information about your device security</p>
        </div>
    </div>
    
".

(** Lines 700-706, a row of the table of most common permissions. *)
Definition commonPermissionRow (stats : Statistics) (p : CommonPermission) : string :=
  "
                        <tr>
                            <td><strong>"
  ++ (mc_permission p)
  ++ "</strong></td>
                            <td>"
  ++ (string_of_nat (mc_count p))
  ++ "</td>
                            <td>"
  ++ (Number_toString (Math_round ((NumNat (mc_count p) / NumNat (totalApps stats)) * 100)%float))
  ++ "%</td>
                        </tr>
                    ".

(** Lines 633-711: the risk overview and the permission analysis. *)
Definition overviewPage (stats : Statistics) (permissionAnalysis : PermissionAnalysis) : string :=
  "    <!-- Statistics Overview Page -->
    <div class=" ++ dq ++ "page" ++ dq ++ ">
        <div class=" ++ dq ++ "section" ++ dq ++ ">
            <div class=" ++ dq ++ "section-title" ++ dq ++ ">📈 Security Overview</div>
            
            <div class=" ++ dq ++ "stats-grid" ++ dq ++ ">
                <div class=" ++ dq ++ "stat-card high-risk" ++ dq ++ ">
                    <div class=" ++ dq ++ "stat-value" ++ dq ++ ">"
  ++ (string_of_nat (highRisk stats))
  ++ "</div>
                    <div class=" ++ dq ++ "stat-label" ++ dq ++ ">High Risk</div>
                </div>
                <div class=" ++ dq ++ "stat-card medium-risk" ++ dq ++ ">
                    <div class=" ++ dq ++ "stat-value" ++ dq ++ ">"
  ++ (string_of_nat (mediumRisk stats))
  ++ "</div>
                    <div class=" ++ dq ++ "stat-label" ++ dq ++ ">Medium Risk</div>
                </div>
                <div class=" ++ dq ++ "stat-card low-risk" ++ dq ++ ">
                    <div class=" ++ dq ++ "stat-value" ++ dq ++ ">"
  ++ (string_of_nat (lowRisk stats))
  ++ "</div>
                    <div class=" ++ dq ++ "stat-label" ++ dq ++ ">Low Risk</div>
                </div>
                <div class=" ++ dq ++ "stat-card safe" ++ dq ++ ">
                    <div class=" ++ dq ++ "stat-value" ++ dq ++ ">"
  ++ (string_of_nat (noRisk stats))
  ++ "</div>
                    <div class=" ++ dq ++ "stat-label" ++ dq ++ ">Safe Apps</div>
                </div>
            </div>
            
            <div class=" ++ dq ++ "subsection-title" ++ dq ++ ">Risk Distribution</div>
            <div class=" ++ dq ++ "chart-container" ++ dq ++ ">
                <div class=" ++ dq ++ "bar-chart" ++ dq ++ ">
                    "
  ++ (generateBarChart "High Risk" (highRisk stats) (totalApps stats) "#ef4444")
  ++ "
                    "
  ++ (generateBarChart "Medium Risk" (mediumRisk stats) (totalApps stats) "#f59e0b")
  ++ "
                    "
  ++ (generateBarChart "Low Risk" (lowRisk stats) (totalApps stats) "#3b82f6")
  ++ "
                    "
  ++ (generateBarChart "Safe" (noRisk stats) (totalApps stats) "#10b981")
  ++ "
                </div>
            </div>
        </div>
        
        <div class=" ++ dq ++ "section" ++ dq ++ ">
            <div class=" ++ dq ++ "section-title" ++ dq ++ ">🔐 Permission Analysis</div>
            
            <div class=" ++ dq ++ "info-grid" ++ dq ++ ">
                <div class=" ++ dq ++ "info-item" ++ dq ++ ">
                    <div class=" ++ dq ++ "info-label" ++ dq ++ ">High Risk Permissions</div>
                    <div class=" ++ dq ++ "info-value" ++ dq ++ ">"
  ++ (string_of_nat (highRiskPermissions permissionAnalysis))
  ++ "</div>
                </div>
                <div class=" ++ dq ++ "info-item" ++ dq ++ ">
                    <div class=" ++ dq ++ "info-label" ++ dq ++ ">Medium Risk Permissions</div>
                    <div class=" ++ dq ++ "info-value" ++ dq ++ ">"
  ++ (string_of_nat (mediumRiskPermissions permissionAnalysis))
  ++ "</div>
                </div>
                <div class=" ++ dq ++ "info-item" ++ dq ++ ">
                    <div class=" ++ dq ++ "info-label" ++ dq ++ ">Average Permissions/App</div>
                    <div class=" ++ dq ++ "info-value" ++ dq ++ ">"
  ++ (Number_toString (averagePermissions stats))
  ++ "</div>
                </div>
                <div class=" ++ dq ++ "info-item" ++ dq ++ ">
                    <div class=" ++ dq ++ "info-label" ++ dq ++ ">Total Unique Permissions</div>
                    <div class=" ++ dq ++ "info-value" ++ dq ++ ">"
  ++ (string_of_nat (List.length (permissionCount permissionAnalysis)))
  ++ "</div>
                </div>
            </div>
            
            <div class=" ++ dq ++ "subsection-title" ++ dq ++ ">Most Common Permissions</div>
            <table class=" ++ dq ++ "table" ++ dq ++ ">
                <thead>
                    <tr>
                        <th>Permission</th>
                        <th>Apps Using</th>
                        <th>Percentage</th>
                    </tr>
                </thead>
                <tbody>
                    "
  ++ (join (map (fun p => commonPermissionRow stats p) (mostCommon permissionAnalysis)))
  ++ "
                </tbody>
            </table>
        </div>
    </div>
    
".

(** Lines 719-754, the card of one high-priority app. *)
Definition priorityApp (app : App) (index : nat) : string :=
  "
                <div class=" ++ dq ++ "app-detail" ++ dq ++ ">
                    <div class=" ++ dq ++ "app-header" ++ dq ++ ">
                        <div>
                            <div class=" ++ dq ++ "app-name" ++ dq ++ ">"
  ++ (string_of_nat (index + 1))
  ++ ". "
  ++ (or_str (name app) (or_str (appName app) "Unknown App"))
  ++ "</div>
                            <div class=" ++ dq ++ "app-package" ++ dq ++ ">"
  ++ (interp (packageName app))
  ++ "</div>
                        </div>
                        <span class=" ++ dq ++ "risk-badge "
  ++ (getRiskClass (riskLevel_of app))
  ++ dq ++ ">
                            "
  ++ (or_str (riskLevel_of app) "UNKNOWN")
  ++ "
                        </span>
                    </div>
                    
                    <div class=" ++ dq ++ "info-grid" ++ dq ++ ">
                        <div class=" ++ dq ++ "info-item" ++ dq ++ ">
                            <div class=" ++ dq ++ "info-label" ++ dq ++ ">Risk Score</div>
                            <div class=" ++ dq ++ "info-value" ++ dq ++ ">"
  ++ (string_of_Z (score app))
  ++ "</div>
                        </div>
                        <div class=" ++ dq ++ "info-item" ++ dq ++ ">
                            <div class=" ++ dq ++ "info-label" ++ dq ++ ">Permissions</div>
                            <div class=" ++ dq ++ "info-value" ++ dq ++ ">"
  ++ (string_of_nat (List.length (uniquePermissions app)))
  ++ "</div>
                        </div>
                        <div class=" ++ dq ++ "info-item" ++ dq ++ ">
                            <div class=" ++ dq ++ "info-label" ++ dq ++ ">High Risk Permissions</div>
                            <div class=" ++ dq ++ "info-value" ++ dq ++ ">"
  ++ (string_of_Z (highRiskCount_of app))
  ++ "</div>
                        </div>
                        <div class=" ++ dq ++ "info-item" ++ dq ++ ">
                            <div class=" ++ dq ++ "info-label" ++ dq ++ ">Data Usage</div>
                            <div class=" ++ dq ++ "info-value" ++ dq ++ ">"
  ++ (formatBytes (dataTotal app))
  ++ "</div>
                        </div>
                    </div>
                    
                    <p style=" ++ dq ++ "font-size: 9pt; color: #666; margin-top: 10px; font-style: italic;" ++ dq ++ ">
                        See detailed permission analysis in individual app pages below.
                    </p>
                </div>
            ".

(** Line 719: the cards of the page, [topRiskyApps.slice(0, 5).map(...)]. *)
Definition priorityApps (topRiskyApps : list App) : list string :=
  mapi (fun app index => priorityApp app index) (slice0 5 topRiskyApps).

(** Lines 713-757, the page of high-priority apps: the first 5 of [topRiskyApps]. *)
Definition priorityAppsPage (topRiskyApps : list App) : string :=
  "
    <div class=" ++ dq ++ "page" ++ dq ++ ">
        <div class=" ++ dq ++ "section" ++ dq ++ ">
            <div class=" ++ dq ++ "section-title" ++ dq ++ ">⚠️ High Priority Apps</div>
            <p style=" ++ dq ++ "margin-bottom: 20px;" ++ dq ++ ">These apps have the highest security risk scores and should be reviewed carefully.</p>
            
            "
  ++ (join (priorityApps topRiskyApps))
  ++ "
        </div>
    </div>
    ".

(** Lines 712-758: the high-priority apps, when there are any. *)
Definition priorityAppsSection (topRiskyApps : list App) : string :=
  "    <!-- High Risk Apps Page -->
    "
  ++ (if (0 <? List.length topRiskyApps)%nat then priorityAppsPage topRiskyApps else EmptyString)
  ++ "
    
".

(** Lines 795-805, a row of the table of top data consumers. *)
Definition consumerRow (app : Consumer) : string :=
  "
                            <tr>
                                <td>
                                    <strong>"
  ++ (c_name app)
  ++ "</strong><br>
                                    <small style=" ++ dq ++ "color: #666; font-family: monospace;" ++ dq ++ ">"
  ++ (interp (c_packageName app))
  ++ "</small>
                                </td>
                                <td><strong>"
  ++ (formatBytes (c_total app))
  ++ "</strong></td>
                                <td>"
  ++ (formatBytes (c_wifi app))
  ++ "</td>
                                <td>"
  ++ (formatBytes (c_mobile app))
  ++ "</td>
                            </tr>
                        ".

(** Line 795: the rows of the table, [topDataConsumers.map(...)]. *)
Definition consumerRows (dataUsageSummary : DataUsageSummary) : list string :=
  map (fun app => consumerRow app) (topDataConsumers dataUsageSummary).

(** Lines 783-808, the table of top data consumers. *)
Definition consumersTable (dataUsageSummary : DataUsageSummary) : string :=
  "
                <div class=" ++ dq ++ "subsection-title" ++ dq ++ ">Top Data Consumers</div>
                <table class=" ++ dq ++ "table" ++ dq ++ ">
                    <thead>
                        <tr>
                            <th>App Name</th>
                            <th>Total Usage</th>
                            <th>WiFi</th>
                            <th>Mobile</th>
                        </tr>
                    </thead>
                    <tbody>
                        "
  ++ (join (consumerRows dataUsageSummary))
  ++ "
                    </tbody>
                </table>
            ".

(** Lines 759-811: the data-usage page. *)
Definition dataUsagePage (dataUsageSummary : DataUsageSummary) : string :=
  "    <!-- Data Usage Page -->
    <div class=" ++ dq ++ "page" ++ dq ++ ">
        <div class=" ++ dq ++ "section" ++ dq ++ ">
            <div class=" ++ dq ++ "section-title" ++ dq ++ ">📊 Data Usage Analysis</div>
            
            <div class=" ++ dq ++ "info-grid" ++ dq ++ ">
                <div class=" ++ dq ++ "info-item" ++ dq ++ ">
                    <div class=" ++ dq ++ "info-label" ++ dq ++ ">Total WiFi Usage</div>
                    <div class=" ++ dq ++ "info-value" ++ dq ++ ">"
  ++ (totalWifi dataUsageSummary)
  ++ "</div>
                </div>
                <div class=" ++ dq ++ "info-item" ++ dq ++ ">
                    <div class=" ++ dq ++ "info-label" ++ dq ++ ">Total Mobile Data</div>
                    <div class=" ++ dq ++ "info-value" ++ dq ++ ">"
  ++ (totalMobile dataUsageSummary)
  ++ "</div>
                </div>
                <div class=" ++ dq ++ "info-item" ++ dq ++ ">
                    <div class=" ++ dq ++ "info-label" ++ dq ++ ">Combined Total</div>
                    <div class=" ++ dq ++ "info-value" ++ dq ++ ">"
  ++ (totalCombined dataUsageSummary)
  ++ "</div>
                </div>
                <div class=" ++ dq ++ "info-item" ++ dq ++ ">
                    <div class=" ++ dq ++ "info-label" ++ dq ++ ">Apps with Data Usage</div>
                    <div class=" ++ dq ++ "info-value" ++ dq ++ ">"
  ++ (string_of_nat (List.length (topDataConsumers dataUsageSummary)))
  ++ "</div>
                </div>
            </div>
            
            "
  ++ (if (0 <? List.length (topDataConsumers dataUsageSummary))%nat then consumersTable dataUsageSummary
     else "<p>No data usage information available.</p>")
  ++ "
        </div>
    </div>
    
".

(** Lines 829-844, a row of the inventory table. *)
Definition inventoryRow (app : App) (index : nat) : string :=
  "
                        <tr>
                            <td>"
  ++ (string_of_nat (index + 1))
  ++ "</td>
                            <td>
                                <strong>"
  ++ (escapeHtml (Some (or_str (name app) (or_str (appName app) "Unknown"))))
  ++ "</strong><br>
                                <small style=" ++ dq ++ "color: #666; font-size: 8pt;" ++ dq ++ ">"
  ++ (escapeHtml (packageName app))
  ++ "</small>
                            </td>
                            <td>"
  ++ (or_str (category app) "Other")
  ++ "</td>
                            <td>
                                <span class=" ++ dq ++ "risk-badge "
  ++ (getRiskClass (riskLevel_of app))
  ++ dq ++ ">
                                    "
  ++ (riskLabel app)
  ++ "
                                </span>
                            </td>
                            <td><strong>"
  ++ (string_of_nat (List.length (uniquePermissions app)))
  ++ "</strong></td>
                        </tr>
                    ".

(** Lines 829-844: the rows of the inventory table, [apps.slice(0, 30).map(...)]. *)
Definition inventoryRows (apps : list App) : list string :=
  mapi (fun app index => inventoryRow app index) (slice0 30 apps).

(** Lines 845-851, the closing row of an inventory of more than 30 apps. *)
Definition inventoryTrailer (apps : list App) : string :=
  "
                        <tr>
                            <td colspan=" ++ dq ++ "5" ++ dq ++ " style=" ++ dq ++ "text-align: center; font-style: italic; color: #666;" ++ dq ++ ">
                                ... and "
  ++ (string_of_nat (List.length apps - 30))
  ++ " more apps
                            </td>
                        </tr>
                    ".

(** Lines 845-851: the trailer row, for more than 30 apps. *)
Definition inventoryClosing (apps : list App) : string :=
  if (30 <? List.length apps)%nat then inventoryTrailer apps else EmptyString.

(** Lines 812-856: the full-inventory page. *)
Definition inventoryPage (apps : list App) : string :=
  "    <!-- Complete App Inventory Page -->
    <div class=" ++ dq ++ "page" ++ dq ++ ">
        <div class=" ++ dq ++ "section" ++ dq ++ ">
            <div class=" ++ dq ++ "section-title" ++ dq ++ ">📱 Complete App Inventory</div>
            <p style=" ++ dq ++ "margin-bottom: 20px;" ++ dq ++ ">Complete list of all "
  ++ (string_of_nat (List.length apps))
  ++ " analyzed applications (showing first 30)</p>
            
            <table class=" ++ dq ++ "table" ++ dq ++ ">
                <thead>
                    <tr>
                        <th>#</th>
                        <th>App Name</th>
                        <th>Category</th>
                        <th>Risk Level</th>
                        <th>Permissions</th>
                    </tr>
                </thead>
                <tbody>
                    "
  ++ (join (inventoryRows apps))
  ++ "
                    "
  ++ (inventoryClosing apps)
  ++ "
                </tbody>
            </table>
        </div>
    </div>
    
".

(** Lines 906-920, a row of the permission table. *)
Definition permissionRow (perm : string) (permIndex : nat) : string :=
  let permInfo := getPermissionInfo perm in
  "
                            <tr>
                                <td>"
  ++ (string_of_nat (permIndex + 1))
  ++ "</td>
                                <td><strong>"
  ++ (escapeHtml (Some perm))
  ++ "</strong></td>
                                <td>
                                    <span class=" ++ dq ++ "risk-badge "
  ++ (getRiskBadgeClass (pi_level permInfo))
  ++ dq ++ ">
                                        "
  ++ (or_str (Some (pi_level permInfo)) "LOW")
  ++ "
                                    </span>
                                </td>
                                <td style=" ++ dq ++ "font-size: 8pt;" ++ dq ++ ">"
  ++ (escapeHtml (Some (pi_description permInfo)))
  ++ "</td>
                            </tr>
                        ".

(** Lines 894-923, the permission table of a detail page. *)
Definition permissionsTable (app : App) : string :=
  "
                <div class=" ++ dq ++ "subsection-title" ++ dq ++ ">All Permissions ("
  ++ (string_of_nat (List.length (uniquePermissions app)))
  ++ ")</div>
                <table class=" ++ dq ++ "table" ++ dq ++ " style=" ++ dq ++ "font-size: 9pt;" ++ dq ++ ">
                    <thead>
                        <tr>
                            <th style=" ++ dq ++ "width: 5%;" ++ dq ++ ">#</th>
                            <th style=" ++ dq ++ "width: 35%;" ++ dq ++ ">Permission</th>
                            <th style=" ++ dq ++ "width: 15%;" ++ dq ++ ">Risk Level</th>
                            <th style=" ++ dq ++ "width: 45%;" ++ dq ++ ">Description</th>
                        </tr>
                    </thead>
                    <tbody>
                        "
  ++ (join (mapi (fun perm permIndex => permissionRow perm permIndex) (uniquePermissions app)))
  ++ "
                    </tbody>
                </table>
            ".

(** Lines 925-945, the data-usage box of a detail page. *)
Definition detailDataUsage (app : App) (appIndex : nat) : string :=
  "
                <div class=" ++ dq ++ "subsection-title" ++ dq ++ " style=" ++ dq ++ "margin-top: 20px;" ++ dq ++ ">Data Usage</div>
                <div class=" ++ dq ++ "info-grid" ++ dq ++ ">
                    <div class=" ++ dq ++ "info-item" ++ dq ++ ">
                        <div class=" ++ dq ++ "info-label" ++ dq ++ ">Total Usage</div>
                        <div class=" ++ dq ++ "info-value" ++ dq ++ ">"
  ++ (formatBytes (dataTotal app))
  ++ "</div>
                    </div>
                    <div class=" ++ dq ++ "info-item" ++ dq ++ ">
                        <div class=" ++ dq ++ "info-label" ++ dq ++ ">WiFi</div>
                        <div class=" ++ dq ++ "info-value" ++ dq ++ ">"
  ++ (formatBytes (wifi_of app))
  ++ "</div>
                    </div>
                    <div class=" ++ dq ++ "info-item" ++ dq ++ ">
                        <div class=" ++ dq ++ "info-label" ++ dq ++ ">Mobile Data</div>
                        <div class=" ++ dq ++ "info-value" ++ dq ++ ">"
  ++ (formatBytes (mobile_of app))
  ++ "</div>
                    </div>
                    <div class=" ++ dq ++ "info-item" ++ dq ++ ">
                        <div class=" ++ dq ++ "info-label" ++ dq ++ ">Usage Rank</div>
                        <div class=" ++ dq ++ "info-value" ++ dq ++ ">#"
  ++ (string_of_nat (appIndex + 1))
  ++ "</div>
                    </div>
                </div>
            ".

(** Lines 858-948, the detail page of one app. *)
Definition detailPage (app : App) (appIndex : nat) : string :=
  "
    <div class=" ++ dq ++ "page" ++ dq ++ ">
        <div class=" ++ dq ++ "section" ++ dq ++ ">
            <div class=" ++ dq ++ "section-title" ++ dq ++ ">📋 App Details: "
  ++ (escapeHtml (Some (or_str (name app) (or_str (appName app) "Unknown"))))
  ++ "</div>
            
            <div class=" ++ dq ++ "app-detail" ++ dq ++ " style=" ++ dq ++ "margin-bottom: 20px;" ++ dq ++ ">
                <div class=" ++ dq ++ "app-header" ++ dq ++ ">
                    <div>
                        <div class=" ++ dq ++ "app-name" ++ dq ++ ">"
  ++ (escapeHtml (Some (or_str (name app) (or_str (appName app) "Unknown"))))
  ++ "</div>
                        <div class=" ++ dq ++ "app-package" ++ dq ++ ">"
  ++ (escapeHtml (packageName app))
  ++ "</div>
                    </div>
                    <span class=" ++ dq ++ "risk-badge "
  ++ (getRiskClass (riskLevel_of app))
  ++ dq ++ ">
                        "
  ++ (riskLabel app)
  ++ "
                    </span>
                </div>
                
                <div class=" ++ dq ++ "info-grid" ++ dq ++ " style=" ++ dq ++ "margin-top: 15px;" ++ dq ++ ">
                    <div class=" ++ dq ++ "info-item" ++ dq ++ ">
                        <div class=" ++ dq ++ "info-label" ++ dq ++ ">Category</div>
                        <div class=" ++ dq ++ "info-value" ++ dq ++ ">"
  ++ (or_str (category app) "Other")
  ++ "</div>
                    </div>
                    <div class=" ++ dq ++ "info-item" ++ dq ++ ">
                        <div class=" ++ dq ++ "info-label" ++ dq ++ ">Risk Score</div>
                        <div class=" ++ dq ++ "info-value" ++ dq ++ ">"
  ++ (string_of_Z (score app))
  ++ "</div>
                    </div>
                    <div class=" ++ dq ++ "info-item" ++ dq ++ ">
                        <div class=" ++ dq ++ "info-label" ++ dq ++ ">Total Permissions</div>
                        <div class=" ++ dq ++ "info-value" ++ dq ++ ">"
  ++ (string_of_nat (List.length (uniquePermissions app)))
  ++ "</div>
                    </div>
                    <div class=" ++ dq ++ "info-item" ++ dq ++ ">
                        <div class=" ++ dq ++ "info-label" ++ dq ++ ">High Risk Perms</div>
                        <div class=" ++ dq ++ "info-value" ++ dq ++ ">"
  ++ (string_of_Z (highRiskCount_of app))
  ++ "</div>
                    </div>
                </div>
            </div>
            
            "
  ++ (if (0 <? List.length (listed app))%nat then permissionsTable app
     else "<p style=" ++ dq ++ "color: #666;" ++ dq ++ ">No permissions requested by this app.</p>")
  ++ "
            
            "
  ++ (if has_usage app then detailDataUsage app appIndex else EmptyString)
  ++ "
        </div>
    </div>
    ".

(** Lines 857-949: the detail pages, for the apps with permissions among the first 10. *)
Definition detailPages (apps : list App) : string :=
  "    <!-- Detailed App Permissions Pages -->
    "
  ++ (join (mapi (fun app appIndex => detailPage app appIndex)
          (filter (fun app => (0 <? List.length (listed app))%nat) (slice0 10 apps))))
  ++ "
    
".

(** Lines 955-962, the advice given when there are high-risk apps. *)
Definition recommendHighRisk (stats : Statistics) : string :=
  "
                <div class=" ++ dq ++ "recommendation" ++ dq ++ ">
                    <div class=" ++ dq ++ "recommendation-title" ++ dq ++ ">🔴 Critical: Review High-Risk Apps</div>
                    <div>You have "
  ++ (string_of_nat (highRisk stats))
  ++ " high-risk app"
  ++ (if (1 <? highRisk stats)%nat then "s" else EmptyString)
  ++ " installed. 
                    Review their permissions in device settings and consider if they're essential. 
                    Look for alternative apps with fewer permission requirements.</div>
                </div>
            ".

(** Lines 964-970, the advice given when the average permission count exceeds 10. *)
Definition recommendPermissions (stats : Statistics) : string :=
  "
                <div class=" ++ dq ++ "recommendation" ++ dq ++ ">
                    <div class=" ++ dq ++ "recommendation-title" ++ dq ++ ">🟡 Warning: High Permission Usage</div>
                    <div>Your apps request an average of "
  ++ (Number_toString (averagePermissions stats))
  ++ " permissions, which is above normal. 
                    Review which permissions are truly necessary and revoke unused ones in your device settings.</div>
                </div>
            ".

(** Lines 972-979, the advice given when more than 5 permissions are flagged HIGH. *)
Definition recommendSensitive (permissionAnalysis : PermissionAnalysis) : string :=
  "
                <div class=" ++ dq ++ "recommendation" ++ dq ++ ">
                    <div class=" ++ dq ++ "recommendation-title" ++ dq ++ ">🟡 Caution: Multiple Sensitive Permissions</div>
                    <div>"
  ++ (string_of_nat (highRiskPermissions permissionAnalysis))
  ++ " apps have access to sensitive permissions like Camera, 
                    Microphone, or Location. Regularly audit which apps need these permissions and revoke access 
                    for apps that don't actively use them.</div>
                </div>
            ".

(** Lines 950-1020: the recommendations page and the end of the document. *)
Definition recommendationsPage (generatedDate : Date) (appVersion : string) (deviceInfo : DeviceInfo)
  (stats : Statistics) (permissionAnalysis : PermissionAnalysis) : string :=
  "    <!-- Recommendations Page -->
    <div class=" ++ dq ++ "page" ++ dq ++ ">
        <div class=" ++ dq ++ "section" ++ dq ++ ">
            <div class=" ++ dq ++ "section-title" ++ dq ++ ">💡 Security Recommendations</div>
            
            "
  ++ (if (0 <? highRisk stats)%nat then recommendHighRisk stats else EmptyString)
  ++ "
            
            "
  ++ (if (10 <? averagePermissions stats)%float then recommendPermissions stats else EmptyString)
  ++ "
            
            "
  ++ (if (5 <? highRiskPermissions permissionAnalysis)%nat then recommendSensitive permissionAnalysis else EmptyString)
  ++ "
            
            <div class=" ++ dq ++ "recommendation" ++ dq ++ ">
                <div class=" ++ dq ++ "recommendation-title" ++ dq ++ ">✅ Best Practices</div>
                <ul style=" ++ dq ++ "margin-left: 20px; margin-top: 10px;" ++ dq ++ ">
                    <li style=" ++ dq ++ "margin: 8px 0;" ++ dq ++ ">Regularly review and uninstall apps you no longer use</li>
                    <li style=" ++ dq ++ "margin: 8px 0;" ++ dq ++ ">Check app permissions before installing new applications</li>
                    <li style=" ++ dq ++ "margin: 8px 0;" ++ dq ++ ">Keep all apps updated to the latest versions</li>
                    <li style=" ++ dq ++ "margin: 8px 0;" ++ dq ++ ">Use Monitor Mate weekly to track new security issues</li>
                    <li style=" ++ dq ++ "margin: 8px 0;" ++ dq ++ ">Review app permissions in device settings monthly</li>
                </ul>
            </div>
            
            <div class=" ++ dq ++ "summary-box" ++ dq ++ " style=" ++ dq ++ "margin-top: 40px;" ++ dq ++ ">
                <div class=" ++ dq ++ "summary-title" ++ dq ++ ">📋 Report Summary</div>
                <div class=" ++ dq ++ "key-finding" ++ dq ++ ">
                    This comprehensive security report analyzed "
  ++ (string_of_nat (totalApps stats))
  ++ " applications on your "
  ++ (toUpperCase (platform deviceInfo))
  ++ " device.
                </div>
                <div class=" ++ dq ++ "key-finding" ++ dq ++ ">
                    Overall Security Status: "
  ++ (if (highRisk stats =? 0)%nat then "✅ Good - No high-risk apps detected"
     else if (highRisk stats <=? 2)%nat then "⚠️ Fair - Some concerns to address"
     else "🔴 Needs Attention - Multiple high-risk apps")
  ++ "
                </div>
                <div class=" ++ dq ++ "key-finding" ++ dq ++ ">
                    Next Steps: "
  ++ (if (0 <? highRisk stats)%nat then "Review high-risk apps immediately"
     else "Continue monitoring regularly")
  ++ "
                </div>
            </div>
        </div>
        
        <div class=" ++ dq ++ "footer" ++ dq ++ " style=" ++ dq ++ "margin-top: 60px;" ++ dq ++ ">
            <p><strong>Monitor Mate Security Report</strong></p>
            <p>Generated on "
  ++ (toLocaleDateString generatedDate)
  ++ " at "
  ++ (toLocaleTimeString generatedDate)
  ++ "</p>
            <p>Report Version: "
  ++ appVersion
  ++ " | Platform: "
  ++ (toUpperCase (platform deviceInfo))
  ++ "</p>
            <p style=" ++ dq ++ "margin-top: 15px; font-size: 8pt;" ++ dq ++ ">
                This report is confidential and contains sensitive information about your device security.<br>
                Keep this document secure and do not share with unauthorized parties.
            </p>
        </div>
    </div>
</body>
</html>
        ".

(** [generateHTMLContent], lines 244-1021: the pages in their order. *)
Definition generateHTMLContent (data : ReportModel) : string :=
  let generatedDate := generatedDate data in
  let appVersion := appVersion data in
  let deviceInfo := deviceInfo data in
  let stats := stats data in
  let topRiskyApps := topRiskyApps data in
  let permissionAnalysis := permissionAnalysis data in
  let dataUsageSummary := dataUsageSummary data in
  let apps := apps data in
  documentHead
  ++ coverPage generatedDate appVersion deviceInfo stats
  ++ overviewPage stats permissionAnalysis
  ++ priorityAppsSection topRiskyApps
  ++ dataUsagePage dataUsageSummary
  ++ inventoryPage apps
  ++ detailPages apps
  ++ recommendationsPage generatedDate appVersion deviceInfo stats permissionAnalysis.

(* ================================================================== *)
(** * The host: what the service asks of its collaborators *)
(* ================================================================== *)

Record PdfOptions : Type := {
  html : string;
  fileName : string;
  directory : string;
  base64 : bool;
  width : nat;
  height : nat;
  padding : nat;
  bgColor : string
}.

(** The file [generatePDF] resolves to. *)
Record PdfFile : Type := {
  file_filePath : string;
  file_numberOfPages : option nat;
  file_base64 : option string
}.

Record Host : Type := {
  (** [Platform.OS] and [Platform.Version] *)
  Platform_OS : string;
  Platform_Version : Z;
  (** what [PermissionsAndroid.request] resolves to, or rejects with *)
  PermissionsAndroid_request : Result string;
  (** [AsyncStorage.getItem(key)]: the stored text, or [null] *)
  AsyncStorage_getItem : string -> Result (option string);
  (** [new Date()] in [prepareReportData] and in [generateReport] *)
  Date_of_model : Date;
  Date_of_file : Date;
  RNFS_DownloadDirectoryPath : string;
  RNFS_DocumentDirectoryPath : string;
  RNFS_copyFile : string -> string -> Result unit;
  generatePDF : PdfOptions -> Result PdfFile
}.

(** What [generateReport] resolves to. *)
Record Report : Type := {
  filePath : string;
  numberOfPages : nat;
  report_base64 : string
}.

(* ================================================================== *)
(** * Report Model Builder *)
(* ================================================================== *)

(** [getDownloadsDirectory], lines 8-14. *)
Definition getDownloadsDirectory (host : Host) : string :=
  if String.eqb (Platform_OS host) "android"
  then RNFS_DownloadDirectoryPath host
  else RNFS_DocumentDirectoryPath host.

(** [requestStoragePermission], lines 15-39. *)
Definition requestStoragePermission (host : Host) : Result bool :=
  if negb (String.eqb (Platform_OS host) "android") then ret true
  else
    try_catch
      (if (33 <=? Platform_Version host)%Z then ret true
       else
         bind (PermissionsAndroid_request host) (fun granted =>
         ret (String.eqb granted "granted")))
      (fun err => ret false).

(** [data ? JSON.parse(data) : {}], lines 83-84: [null] and the empty
    text are falsy. *)
Definition parse_blob (data : option string) : Result Json :=
  match data with
  | Some text =>
      if String.eqb text EmptyString then ret empty_object
      else JSON_parse text
  | None => ret empty_object
  end.

(** [prepareReportData], lines 80-106. *)
Definition prepareReportData (host : Host) (apps : list App)
  : Result ReportModel :=
  bind (AsyncStorage_getItem host "appSettings") (fun settingsData =>
  bind (AsyncStorage_getItem host "scanResults") (fun scanData =>
  bind (parse_blob settingsData) (fun settings =>
  bind (parse_blob scanData) (fun scanResults =>
  let stats := calculateStatistics apps in
  let riskCategories := categorizeByRisk apps in
  let topRiskyApps := getTopRiskyApps apps (Some 10) in
  bind (analyzePermissions apps) (fun permissionAnalysis =>
  let dataUsageSummary := summarizeDataUsage apps in
  ret {| generatedDate := Date_of_model host;
         appVersion := "1.0.0";
         deviceInfo := {| platform := Platform_OS host;
                          osVersion := Platform_Version host |};
         settings := settings;
         stats := stats;
         riskCategories := riskCategories;
         topRiskyApps := topRiskyApps;
         permissionAnalysis := permissionAnalysis;
         dataUsageSummary := dataUsageSummary;
         apps := apps;
         scanResults := scanResults |}))))).

(** The body of the [try] of [generateReport], lines 42-74. *)
Definition generateReport_body (host : Host) (apps : list App)
  : Result Report :=
  bind (requestStoragePermission host) (fun hasPermission =>
  if negb hasPermission && String.eqb (Platform_OS host) "android"
     && (Platform_Version host <? 33)%Z
  then throw (Error "Storage permission is required to generate PDF reports")
  else
    bind (prepareReportData host apps) (fun reportData =>
    let htmlContent := generateHTMLContent reportData in
    let downloadsPath := getDownloadsDirectory host in
    let fileName : string :=
      ("MobileMonitor_Report_"
       ++ before "T" (toISOString (Date_of_file host)) ++ ".pdf")%string in
    let options :=
      {| html := htmlContent; fileName := fileName;
         directory := downloadsPath; base64 := false;
         width := 595; height := 842; padding := 40;
         bgColor := "#FFFFFF" |} in
    bind (generatePDF host options) (fun file =>
    let finalPath := file_filePath file in
    bind
      (if String.eqb (Platform_OS host) "android"
          && negb (contains "/Download/" finalPath)
       then
         let downloadPath : string :=
           (RNFS_DownloadDirectoryPath host ++ "/" ++ fileName)%string in
         bind (RNFS_copyFile host finalPath downloadPath) (fun _ =>
         ret downloadPath)
       else ret finalPath)
      (fun finalPath =>
    ret {| filePath := finalPath;
           numberOfPages :=
             match file_numberOfPages file with Some n => n | None => 0 end;
           report_base64 :=
             or_str (file_base64 file) EmptyString |})))).

(** [generateReport], lines 40-78: whatever the body throws is thrown
    again under a prefix. *)
Definition generateReport (host : Host) (apps : list App) : Result Report :=
  try_catch (generateReport_body host apps)
    (fun error =>
       throw (Error ("PDF generation failed: " ++ message error)%string)).

(* ================================================================== *)
(** * Vocabulary of the statements *)
(* ================================================================== *)

(** [a] may stand before [b] in a list sorted descending by [key]. *)
Definition ge_key {A} (key : A -> Z) (a b : A) : Prop := (key b <= key a)%Z.

(** The elements whose key is [k]. *)
Definition has_key {A} (key : A -> Z) (k : Z) (a : A) : bool :=
  (key a =? k)%Z.

(** The sum of a list of byte counts. *)
Definition sumN (l : list N) : N := fold_right N.add 0%N l.

(** The tier the Statistics Aggregator counts an app in is the default
    one: none of the three named tiers. *)
Definition in_default_tier (app : App) : bool :=
  negb (in_highRisk app) && negb (in_mediumRisk app) && negb (in_lowRisk app).

(** An app the Risk Categorizer puts in none of its four groups. *)
Definition uncategorized (app : App) : bool :=
  in_default_tier app && negb (in_noRisk app).

(** The app requests permission [p]: [p] is in its deduplicated set. *)
Definition requests (p : string) (app : App) : bool :=
  includes p (uniquePermissions app).

(** The identifiers of a sequence of apps in the order they are first met. *)
Definition first_met (apps : list App) : list string :=
  spread_Set (flat_map listed apps).

(** The count recorded for [p], 0 when there is none. *)
Definition count_of (pc : PermissionCount) (p : string) : nat :=
  match pc_get p pc with Some n => n | None => 0 end.

(** A risk-factor level the Permission Analyzer has an array for. *)
Definition known_level (riskLevel : option string) : bool :=
  is_str riskLevel "HIGH" || is_str riskLevel "MEDIUM" || is_str riskLevel "LOW".

(** Every risk factor of the app has a known level. *)
Definition factors_known (app : App) : bool :=
  forallb (fun f => known_level (level f)) (or_nil (riskFactors_of app)).

(** [pat] occurs in [s] verbatim. *)
Definition occurs (pat s : string) : Prop :=
  exists pre post, s = (pre ++ pat ++ post)%string.

(** The text the report shows for an app where it does not escape it. *)
Definition display_name (app : App) (unknown : string) : string :=
  or_str (name app) (or_str (appName app) unknown).

(** What a persisted blob is read as: an absent or empty blob as the empty
    object, a text that parses as its value. *)
Inductive blob_reads : option string -> Json -> Prop :=
| reads_absent : blob_reads None empty_object
| reads_empty : blob_reads (Some EmptyString) empty_object
| reads_parsed (text : string) (v : Json) :
    text <> EmptyString -> JSON_parse text = inr v ->
    blob_reads (Some text) v.

(** [s] ends with [x]. *)
Fixpoint ends_with (x s : string) : bool :=
  if String.eqb x s then true
  else
    match s with
    | EmptyString => false
    | String _ s' => ends_with x s'
    end.

(* ================================================================== *)
(** * Sample inputs *)
(* ================================================================== *)

(** The three apps of the end-to-end scenario: A (HIGH_RISK, score 90,
    permissions CAMERA, CAMERA, LOCATION), B (MEDIUM_RISK, score 40,
    permission STORAGE) and C (no riskAnalysis, no permissions). *)
Definition appA : App :=
  {| name := Some "A"; appName := None; packageName := Some "com.example.a";
     category := None;
     permissions := Some ["CAMERA"; "CAMERA"; "LOCATION"];
     riskAnalysis :=
       Some {| riskLevel := Some "HIGH_RISK"; riskScore := Some 90%Z;
               highRiskCount := None; riskFactors := None |};
     dataUsage := None |}.

Definition appB : App :=
  {| name := Some "B"; appName := None; packageName := Some "com.example.b";
     category := None;
     permissions := Some ["STORAGE"];
     riskAnalysis :=
       Some {| riskLevel := Some "MEDIUM_RISK"; riskScore := Some 40%Z;
               highRiskCount := None; riskFactors := None |};
     dataUsage := None |}.

Definition appC : App :=
  {| name := Some "C"; appName := None; packageName := Some "com.example.c";
     category := None; permissions := None; riskAnalysis := None;
     dataUsage := None |}.

(** An app whose assessment carries a level that is none of HIGH_RISK,
    MEDIUM_RISK, LOW_RISK, NO_RISK. *)
Definition app_critical : App :=
  {| name := Some "Maps"; appName := None;
     packageName := Some "com.example.maps"; category := None;
     permissions := Some ["LOCATION"];
     riskAnalysis :=
       Some {| riskLevel := Some "CRITICAL"; riskScore := Some 95%Z;
               highRiskCount := None; riskFactors := None |};
     dataUsage := None |}.

(** An app with a risk factor whose level is not HIGH, MEDIUM or LOW, and
    an app with a risk factor that has no level. *)
Definition app_factor_critical : App :=
  {| name := Some "Torch"; appName := None;
     packageName := Some "com.example.torch"; category := None;
     permissions := Some ["CAMERA"];
     riskAnalysis :=
       Some {| riskLevel := Some "HIGH_RISK"; riskScore := Some 80%Z;
               highRiskCount := Some 1%Z;
               riskFactors :=
                 Some [ {| permission := "CAMERA"; level := Some "CRITICAL" |} ] |};
     dataUsage := None |}.

Definition app_factor_unlabelled : App :=
  {| name := Some "Notes"; appName := None;
     packageName := Some "com.example.notes"; category := None;
     permissions := Some ["STORAGE"];
     riskAnalysis :=
       Some {| riskLevel := Some "LOW_RISK"; riskScore := Some 10%Z;
               highRiskCount := Some 0%Z;
               riskFactors :=
                 Some [ {| permission := "STORAGE"; level := None |} ] |};
     dataUsage := None |}.

(** An app whose risk factors all carry known levels. *)
Definition app_factors_known : App :=
  {| name := Some "Chat"; appName := None;
     packageName := Some "com.example.chat"; category := Some "Social";
     permissions := Some ["CAMERA"; "CONTACTS"; "CAMERA"; "INTERNET"];
     riskAnalysis :=
       Some {| riskLevel := Some "HIGH_RISK"; riskScore := Some 70%Z;
               highRiskCount := Some 2%Z;
               riskFactors :=
                 Some [ {| permission := "CAMERA"; level := Some "HIGH" |};
                        {| permission := "CONTACTS"; level := Some "HIGH" |};
                        {| permission := "INTERNET"; level := Some "LOW" |} ] |};
     dataUsage := Some {| total := Some 1536%N; wifi := Some 1024%N;
                          mobile := Some 512%N |} |}.

(** An app whose name and package name carry markup, with a risk
    assessment and data usage, so that every section lists it. *)
Definition app_script : App :=
  {| name := Some "<script>alert(1)</script>"; appName := None;
     packageName := Some "com.example.a&b"; category := Some "Tools";
     permissions := Some ["CAMERA"];
     riskAnalysis :=
       Some {| riskLevel := Some "HIGH_RISK"; riskScore := Some 99%Z;
               highRiskCount := Some 1%Z; riskFactors := None |};
     dataUsage := Some {| total := Some 2048%N; wifi := None;
                          mobile := Some 2048%N |} |}.

Definition sample_date : Date :=
  {| toLocaleDateString := "11/2/2026";
     toLocaleTimeString := "10:00:00 AM";
     toISOString := "2026-11-02T10:00:00.000Z" |}.

(** A host, given its two persisted blobs: an Android 14 device on which
    PDF generation and file copies succeed. *)
Definition host_with_blobs (settingsBlob scanBlob : option string) : Host :=
  {| Platform_OS := "android";
     Platform_Version := 34%Z;
     PermissionsAndroid_request := inr "granted";
     AsyncStorage_getItem := fun key =>
       if String.eqb key "appSettings" then inr settingsBlob
       else if String.eqb key "scanResults" then inr scanBlob
       else inr None;
     Date_of_model := sample_date;
     Date_of_file := sample_date;
     RNFS_DownloadDirectoryPath := "/storage/emulated/0/Download";
     RNFS_DocumentDirectoryPath := "/data/user/0/app/files";
     RNFS_copyFile := fun _ _ => inr tt;
     generatePDF := fun options =>
       inr {| file_filePath :=
                (directory options ++ "/" ++ fileName options)%string;
              file_numberOfPages := Some 7;
              file_base64 := None |} |}.

(** A host with nothing persisted. *)
Definition host_sample : Host := host_with_blobs None None.

(* ================================================================== *)
(** * Vocabulary of the further properties *)
(* ================================================================== *)

(** ** Markup escaping *)

(** The four characters that [escapeHtml] never lets through. *)
Definition markup_char (c : ascii) : bool :=
  Ascii.eqb c "<" || Ascii.eqb c ">" || (nat_of_ascii c =? 34)%nat
  || Ascii.eqb c "'".

(** What follows the ampersand in the five entities of [escapeHtml]. *)
Definition entity_tails : list string := ["amp;"; "lt;"; "gt;"; "quot;"; "#039;"].

(** A text holds none of the four markup characters, and each of its
    ampersands opens one of the five entities. *)
Fixpoint escaped (s : string) : bool :=
  match s with
  | EmptyString => true
  | String c s' =>
      if markup_char c then false
      else if Ascii.eqb c "&"
      then existsb (fun t => prefix t s') entity_tails && escaped s'
      else escaped s'
  end.

(** The entity that opens a text, with the character it stands for and
    the number of characters that follow its ampersand. *)
Definition entity_at (s : string) : option (ascii * nat) :=
  if prefix "&amp;" s then Some ("&"%char, 4)
  else if prefix "&lt;" s then Some ("<"%char, 3)
  else if prefix "&gt;" s then Some (">"%char, 3)
  else if prefix "&quot;" s then Some (ascii_of_nat 34, 5)
  else if prefix "&#039;" s then Some ("'"%char, 5)
  else None.

(** Decoding: each of the five entities is read back as its character,
    any other character is kept; [skip] characters are passed over first. *)
Fixpoint unescape_from (skip : nat) (s : string) : string :=
  match s with
  | EmptyString => EmptyString
  | String c s' =>
      match skip with
      | S k => unescape_from k s'
      | O =>
          match entity_at s with
          | Some (ch, n) => String ch (unescape_from n s')
          | None => String c (unescape_from 0 s')
          end
      end
  end.

Definition unescape (s : string) : string := unescape_from 0 s.

(** ** Object keys *)

(** The property names that every plain object inherits: a lookup
    [object[key]] with one of these keys finds the inherited property, not
    an entry of the object. *)
Definition Object_prototype_names : list string :=
  [ "constructor"; "__proto__"; "hasOwnProperty"; "isPrototypeOf";
    "propertyIsEnumerable"; "toLocaleString"; "toString"; "valueOf";
    "__defineGetter__"; "__defineSetter__"; "__lookupGetter__";
    "__lookupSetter__" ].

(** A permission identifier that names an entry of an object and nothing
    inherited. *)
Definition own_key (permission : string) : bool :=
  negb (includes permission Object_prototype_names).

(** ** Risk factors *)

(** The risk factors of a sequence of apps, in the order the Permission
    Analyzer visits them. *)
Definition all_factors (apps : list App) : list RiskFactor :=
  flat_map (fun app => or_nil (riskFactors_of app)) apps.

(** The permissions of the risk factors of level [lv], one for each
    factor. *)
Definition permissions_at (lv : string) (fs : list RiskFactor) : list string :=
  map permission (filter (fun f => is_str (level f) lv) fs).

(** The distinct permissions that some risk factor flags at level [lv]. *)
Definition flagged (lv : string) (apps : list App) : list string :=
  spread_Set (permissions_at lv (all_factors apps)).

(** ** Risk labels *)

(** The text holds no underscore. *)
Fixpoint no_underscore (s : string) : bool :=
  match s with
  | EmptyString => true
  | String c s' => negb (Ascii.eqb c "_") && no_underscore s'
  end.

(** ** Hosts *)

(** The host [host] with another answer of the permission dialog, and
    with another file copy. *)
Definition with_request (host : Host) (answer : Result string) : Host :=
  {| Platform_OS := Platform_OS host;
     Platform_Version := Platform_Version host;
     PermissionsAndroid_request := answer;
     AsyncStorage_getItem := AsyncStorage_getItem host;
     Date_of_model := Date_of_model host;
     Date_of_file := Date_of_file host;
     RNFS_DownloadDirectoryPath := RNFS_DownloadDirectoryPath host;
     RNFS_DocumentDirectoryPath := RNFS_DocumentDirectoryPath host;
     RNFS_copyFile := RNFS_copyFile host;
     generatePDF := generatePDF host |}.

Definition with_copyFile (host : Host)
  (copy : string -> string -> Result unit) : Host :=
  {| Platform_OS := Platform_OS host;
     Platform_Version := Platform_Version host;
     PermissionsAndroid_request := PermissionsAndroid_request host;
     AsyncStorage_getItem := AsyncStorage_getItem host;
     Date_of_model := Date_of_model host;
     Date_of_file := Date_of_file host;
     RNFS_DownloadDirectoryPath := RNFS_DownloadDirectoryPath host;
     RNFS_DocumentDirectoryPath := RNFS_DocumentDirectoryPath host;
     RNFS_copyFile := copy;
     generatePDF := generatePDF host |}.

(** The name [generateReport] gives the file, line 49. *)
Definition report_fileName (host : Host) : string :=
  ("MobileMonitor_Report_"
   ++ before "T" (toISOString (Date_of_file host)) ++ ".pdf")%string.

(** The options [generateReport] passes to [generatePDF], lines 50-59,
    for a document [html]. *)
Definition report_options (host : Host) (html : string) : PdfOptions :=
  {| html := html; fileName := report_fileName host;
     directory := getDownloadsDirectory host; base64 := false;
     width := 595; height := 842; padding := 40; bgColor := "#FFFFFF" |}.

(** ** More sample inputs *)

(** An Android 10 device on which the storage permission is refused, and
    an iPhone. *)
Definition host_refused : Host :=
  {| Platform_OS := "android";
     Platform_Version := 29%Z;
     PermissionsAndroid_request := inr "denied";
     AsyncStorage_getItem := fun _ => inr None;
     Date_of_model := sample_date;
     Date_of_file := sample_date;
     RNFS_DownloadDirectoryPath := "/storage/emulated/0/Download";
     RNFS_DocumentDirectoryPath := "/data/user/0/app/files";
     RNFS_copyFile := fun _ _ => inr tt;
     generatePDF := fun options =>
       inr {| file_filePath :=
                (directory options ++ "/" ++ fileName options)%string;
              file_numberOfPages := Some 7;
              file_base64 := None |} |}.

Definition host_ios : Host :=
  {| Platform_OS := "ios";
     Platform_Version := 17%Z;
     PermissionsAndroid_request := inl (Error "not available");
     AsyncStorage_getItem := fun _ => inr None;
     Date_of_model := sample_date;
     Date_of_file := sample_date;
     RNFS_DownloadDirectoryPath := EmptyString;
     RNFS_DocumentDirectoryPath := "/var/mobile/Documents";
     RNFS_copyFile := fun _ _ => inl (Error "copy failed");
     generatePDF := fun options =>
       inr {| file_filePath :=
                (directory options ++ "/" ++ fileName options)%string;
              file_numberOfPages := None;
              file_base64 := None |} |}.

(** An Android 14 device on which PDF generation writes to a cache
    directory, so that the file is copied. *)
Definition host_cache : Host :=
  {| Platform_OS := "android";
     Platform_Version := 34%Z;
     PermissionsAndroid_request := inr "granted";
     AsyncStorage_getItem := fun _ => inr None;
     Date_of_model := sample_date;
     Date_of_file := sample_date;
     RNFS_DownloadDirectoryPath := "/storage/emulated/0/Downloads";
     RNFS_DocumentDirectoryPath := "/data/user/0/app/files";
     RNFS_copyFile := fun _ _ => inr tt;
     generatePDF := fun options =>
       inr {| file_filePath := ("/cache/" ++ fileName options)%string;
              file_numberOfPages := Some 3;
              file_base64 := Some "JVBERi0=" |} |}.

(** A device whose storage cannot be read. *)
Definition host_storage_down : Host :=
  {| Platform_OS := "ios";
     Platform_Version := 17%Z;
     PermissionsAndroid_request := inr "granted";
     AsyncStorage_getItem := fun _ => inl (Error "storage unavailable");
     Date_of_model := sample_date;
     Date_of_file := sample_date;
     RNFS_DownloadDirectoryPath := EmptyString;
     RNFS_DocumentDirectoryPath := "/var/mobile/Documents";
     RNFS_copyFile := fun _ _ => inr tt;
     generatePDF := fun options =>
       inr {| file_filePath :=
                (directory options ++ "/" ++ fileName options)%string;
              file_numberOfPages := None;
              file_base64 := None |} |}.

(** An app assessed as NO_RISK. *)
Definition app_no_risk : App :=
  {| name := Some "Clock"; appName := None;
     packageName := Some "com.example.clock"; category := Some "Tools";
     permissions := Some ["VIBRATE"];
     riskAnalysis :=
       Some {| riskLevel := Some "NO_RISK"; riskScore := Some 0%Z;
               highRiskCount := Some 0%Z; riskFactors := None |};
     dataUsage := None |}.

(** An app whose category carries markup. *)
Definition app_bold : App :=
  {| name := Some "Bold"; appName := None;
     packageName := Some "com.example.bold"; category := Some "<b>Games</b>";
     permissions := Some ["INTERNET"]; riskAnalysis := None;
     dataUsage := None |}.

(** Decimal numeral of a byte count. *)
Definition numeral (n : N) : string := NilZero.string_of_uint (N.to_uint n).

(** The device of [host_sample], later the same day. *)
Definition host_evening : Host :=
  {| Platform_OS := "android";
     Platform_Version := 34%Z;
     PermissionsAndroid_request := inr "granted";
     AsyncStorage_getItem := fun _ => inr None;
     Date_of_model :=
       {| toLocaleDateString := "11/2/2026";
          toLocaleTimeString := "9:30:00 PM";
          toISOString := "2026-11-02T21:30:00.000Z" |};
     Date_of_file :=
       {| toLocaleDateString := "11/2/2026";
          toLocaleTimeString := "9:30:00 PM";
          toISOString := "2026-11-02T21:30:00.000Z" |};
     RNFS_DownloadDirectoryPath := "/storage/emulated/0/Download";
     RNFS_DocumentDirectoryPath := "/data/user/0/app/files";
     RNFS_copyFile := fun _ _ => inr tt;
     generatePDF := fun options =>
       inr {| file_filePath :=
                (directory options ++ "/" ++ fileName options)%string;
              file_numberOfPages := Some 7;
              file_base64 := None |} |}.

(* ================================================================== *)
(** * Facts about the JavaScript operations *)
(* ================================================================== *)

#[local] Arguments String.eqb : simpl never.

(** ** Sorting descending by a numeric key *)

Section SortByKey.

Context {A : Type}.
Variable key : A -> Z.

Local Abbreviation desc := (JS.desc key).
Local Abbreviation ge_key := (ge_key key).
Local Abbreviation has_key := (has_key key).

Lemma insert_perm (x : A) (l : list A) :
  Permutation (insert desc x l) (x :: l).
Proof.
  induction l as [|y l IH]; simpl.
  - apply Permutation_refl.
  - destruct (desc x y <=? 0)%Z.
    + apply Permutation_refl.
    + eapply perm_trans; [apply perm_skip, IH | apply perm_swap].
Qed.

Lemma sort_perm (l : list A) : Permutation (sort desc l) l.
Proof.
  induction l as [|x l IH]; simpl.
  - constructor.
  - eapply perm_trans; [apply insert_perm | apply perm_skip, IH].
Qed.

Lemma sort_length (l : list A) : List.length (sort desc l) = List.length l.
Proof. apply Permutation_length, sort_perm. Qed.

Lemma insert_sorted (x : A) (l : list A) :
  StronglySorted ge_key l -> StronglySorted ge_key (insert desc x l).
Proof.
  induction 1 as [|y l Hs IH Hy]; simpl.
  - constructor; constructor.
  - destruct (desc x y <=? 0)%Z eqn:E.
    + apply Z.leb_le in E. unfold desc in E.
      constructor; [constructor; assumption|].
      constructor; [unfold ge_key; lia|].
      eapply Forall_impl; [|exact Hy].
      unfold ge_key; intros; lia.
    + apply Z.leb_gt in E. unfold desc in E.
      constructor; [exact IH|].
      eapply Permutation_Forall;
        [apply Permutation_sym, insert_perm|].
      constructor; [unfold ge_key; lia | exact Hy].
Qed.

Lemma sort_sorted (l : list A) : StronglySorted ge_key (sort desc l).
Proof.
  induction l as [|x l IH]; simpl.
  - constructor.
  - apply insert_sorted, IH.
Qed.

(** Insertion leaves the elements of every key in the order they had,
    the new element first among its equals. *)
Lemma insert_stable (k : Z) (x : A) (l : list A) :
  filter (has_key k) (insert desc x l) = filter (has_key k) (x :: l).
Proof.
  induction l as [|y l IH]; [reflexivity|].
  simpl insert.
  destruct (desc x y <=? 0)%Z eqn:E; [reflexivity|].
  apply Z.leb_gt in E. unfold desc in E.
  change (filter (has_key k) (y :: insert desc x l))
    with (if has_key k y then y :: filter (has_key k) (insert desc x l)
          else filter (has_key k) (insert desc x l)).
  rewrite IH. simpl. unfold has_key.
  destruct (key y =? k)%Z eqn:Ey, (key x =? k)%Z eqn:Ex; try reflexivity.
  apply Z.eqb_eq in Ey, Ex. lia.
Qed.

Lemma sort_stable (k : Z) (l : list A) :
  filter (has_key k) (sort desc l) = filter (has_key k) l.
Proof.
  induction l as [|x l IH]; [reflexivity|].
  simpl sort. rewrite insert_stable. simpl. rewrite IH. reflexivity.
Qed.

(** A sorted list whose elements of each key are those of [l], in the
    order of [l], is the sorted [l]: the three properties above single
    out one list. *)
Lemma filter_cons (f : A -> bool) (x : A) (l : list A) :
  filter f (x :: l) = if f x then x :: filter f l else filter f l.
Proof. reflexivity. Qed.

Lemma has_key_refl (x : A) : has_key (key x) x = true.
Proof. apply Z.eqb_refl. Qed.

Lemma head_key_bound (x y : A) (l1 l2 : list A) :
  Forall (ge_key y) l2 ->
  filter (has_key (key x)) (x :: l1) = filter (has_key (key x)) (y :: l2) ->
  (key x <= key y)%Z.
Proof.
  intros Hy E. rewrite filter_cons, has_key_refl in E.
  assert (Hin : In x (filter (has_key (key x)) (y :: l2)))
    by (rewrite <- E; left; reflexivity).
  apply filter_In in Hin. destruct Hin as [[->|Hin] _]; [lia|].
  rewrite Forall_forall in Hy. apply Hy in Hin. exact Hin.
Qed.

Lemma sorted_stable_unique (l1 l2 : list A) :
  StronglySorted ge_key l1 -> StronglySorted ge_key l2 ->
  (forall k, filter (has_key k) l1 = filter (has_key k) l2) ->
  l1 = l2.
Proof.
  intros H1; revert l2.
  induction H1 as [|x l1 Hs1 IH Hx]; intros l2 H2 Hf.
  - destruct l2 as [|y l2]; [reflexivity|].
    specialize (Hf (key y)).
    rewrite filter_cons, has_key_refl in Hf. discriminate.
  - destruct l2 as [|y l2].
    + specialize (Hf (key x)).
      rewrite filter_cons, has_key_refl in Hf. discriminate.
    + inversion H2 as [|y' l2' Hs2 Hy]; subst.
      assert (Hk : key x = key y).
      { pose proof (head_key_bound x y l1 l2 Hy (Hf (key x))).
        pose proof (head_key_bound y x l2 l1 Hx (eq_sym (Hf (key y)))).
        lia. }
      assert (Hkx : has_key (key x) y = true)
        by (unfold has_key; rewrite Hk; apply Z.eqb_refl).
      pose proof (Hf (key x)) as E.
      rewrite !filter_cons, has_key_refl, Hkx in E.
      injection E as -> E.
      f_equal. apply IH; [assumption|].
      intros k. specialize (Hf k). rewrite !filter_cons in Hf.
      destruct (has_key k y); [injection Hf as Hf|]; exact Hf.
Qed.

(** A prefix keeps, for every key, a prefix of the elements of that key. *)
Lemma firstn_filter_prefix (f : A -> bool) (n : nat) (l : list A) :
  exists rest, filter f l = filter f (firstn n l) ++ rest.
Proof.
  exists (filter f (skipn n l)).
  rewrite <- filter_app, firstn_skipn. reflexivity.
Qed.

Lemma In_firstn (n : nat) (l : list A) (y : A) :
  In y (firstn n l) -> In y l.
Proof.
  intros H. rewrite <- (firstn_skipn n l). apply in_or_app. left. exact H.
Qed.

Lemma firstn_sorted (n : nat) (l : list A) :
  StronglySorted ge_key l -> StronglySorted ge_key (firstn n l).
Proof.
  intros H; revert n.
  induction H as [|x l Hs IH Hx]; intros [|n]; simpl; try constructor.
  - apply IH.
  - rewrite Forall_forall in *. intros y Hy. apply Hx.
    eapply In_firstn; eauto.
Qed.

End SortByKey.

(** ** The Statistics Aggregator's loop in closed form *)

Lemma or_str_tier (x : option string) (s : string) :
  s <> "NO_RISK" -> s <> EmptyString ->
  String.eqb (or_str x "NO_RISK") s = is_str x s.
Proof.
  intros Hn He. destruct x as [v|]; simpl.
  - destruct (String.eqb v EmptyString) eqn:E.
    + apply String.eqb_eq in E; subst v.
      transitivity false; [|symmetry]; apply String.eqb_neq; congruence.
    + reflexivity.
  - apply String.eqb_neq. congruence.
Qed.

Lemma count_tier_cases (t : Tally) (app : App) :
  count_tier t app =
  {| t_highRisk := t_highRisk t + (if in_highRisk app then 1 else 0);
     t_mediumRisk := t_mediumRisk t + (if in_mediumRisk app then 1 else 0);
     t_lowRisk := t_lowRisk t + (if in_lowRisk app then 1 else 0);
     t_noRisk := t_noRisk t + (if in_default_tier app then 1 else 0);
     t_totalPermissions := t_totalPermissions t;
     t_totalDataUsage := t_totalDataUsage t |}.
Proof.
  unfold count_tier, in_default_tier, in_highRisk, in_mediumRisk, in_lowRisk.
  rewrite !or_str_tier by discriminate.
  destruct (riskLevel_of app) as [v|]; simpl.
  - destruct (String.eqb v "HIGH_RISK") eqn:EH.
    + apply String.eqb_eq in EH; subst v. simpl.
      f_equal; lia.
    + destruct (String.eqb v "MEDIUM_RISK") eqn:EM.
      * apply String.eqb_eq in EM; subst v. simpl. f_equal; lia.
      * destruct (String.eqb v "LOW_RISK") eqn:EL; simpl; f_equal; lia.
  - f_equal; lia.
Qed.

Lemma tally_closed_form (apps : list App) (t : Tally) :
  let t' := fold_left tally_app apps t in
  t_highRisk t' = t_highRisk t + List.length (filter in_highRisk apps) /\
  t_mediumRisk t' = t_mediumRisk t + List.length (filter in_mediumRisk apps) /\
  t_lowRisk t' = t_lowRisk t + List.length (filter in_lowRisk apps) /\
  t_noRisk t' = t_noRisk t + List.length (filter in_default_tier apps) /\
  t_totalPermissions t' =
    t_totalPermissions t
    + list_sum (map (fun a => List.length (uniquePermissions a)) apps) /\
  t_totalDataUsage t' = (t_totalDataUsage t + sumN (map dataTotal apps))%N.
Proof.
  revert t. induction apps as [|app apps IH]; intros t; simpl.
  - repeat split; lia.
  - specialize (IH (tally_app t app)). cbv zeta in IH.
    destruct IH as (H1 & H2 & H3 & H4 & H5 & H6).
    rewrite H1, H2, H3, H4, H5, H6.
    unfold tally_app. rewrite count_tier_cases. simpl.
    destruct (in_highRisk app), (in_mediumRisk app), (in_lowRisk app),
      (in_default_tier app); simpl; repeat split; lia.
Qed.

(** ** The Risk Categorizer's groups *)

(** No app satisfies two of the four predicates. *)
Lemma tiers_exclusive (app : App) :
  (if in_highRisk app then 1 else 0) + (if in_mediumRisk app then 1 else 0)
  + (if in_lowRisk app then 1 else 0) + (if in_noRisk app then 1 else 0)
  + (if uncategorized app then 1 else 0) = 1.
Proof.
  unfold uncategorized, in_default_tier, in_highRisk, in_mediumRisk,
    in_lowRisk, in_noRisk, riskLevel_of.
  destruct (riskAnalysis app) as [ra|]; [|reflexivity].
  destruct (riskLevel ra) as [v|]; [|reflexivity]. simpl.
  destruct (String.eqb v "HIGH_RISK") eqn:EH;
    [apply String.eqb_eq in EH; subst v; reflexivity|].
  destruct (String.eqb v "MEDIUM_RISK") eqn:EM;
    [apply String.eqb_eq in EM; subst v; reflexivity|].
  destruct (String.eqb v "LOW_RISK") eqn:EL;
    [apply String.eqb_eq in EL; subst v; reflexivity|].
  destruct (String.eqb v "NO_RISK"); reflexivity.
Qed.

(** The groups are disjoint: an app of one group fails the predicate of
    every other. *)
Lemma categorizeByRisk_disjoint (app : App) :
  (in_highRisk app = true ->
     in_mediumRisk app = false /\ in_lowRisk app = false /\ in_noRisk app = false) /\
  (in_mediumRisk app = true ->
     in_lowRisk app = false /\ in_noRisk app = false) /\
  (in_lowRisk app = true -> in_noRisk app = false).
Proof.
  pose proof (tiers_exclusive app) as H.
  destruct (in_highRisk app), (in_mediumRisk app), (in_lowRisk app),
    (in_noRisk app), (uncategorized app); simpl in H;
    repeat split; intros; try reflexivity; try discriminate; lia.
Qed.

(** The four groups together miss exactly the uncategorized apps. *)
Lemma categorizeByRisk_sizes (apps : list App) :
  let c := categorizeByRisk apps in
  List.length (cat_highRisk c) + List.length (cat_mediumRisk c)
  + List.length (cat_lowRisk c) + List.length (cat_noRisk c)
  + List.length (filter uncategorized apps) = List.length apps.
Proof.
  simpl. induction apps as [|app apps IH]; [reflexivity|].
  pose proof (tiers_exclusive app) as H. simpl.
  destruct (in_highRisk app), (in_mediumRisk app), (in_lowRisk app),
    (in_noRisk app), (uncategorized app); simpl in *; lia.
Qed.

(** An app without a [riskAnalysis], or whose level is NO_RISK, is in the
    noRisk group; an app with a [riskAnalysis] whose level is missing or
    is none of the four names is in no group. *)
Lemma uncategorized_iff (app : App) :
  uncategorized app = true <->
  exists ra, riskAnalysis app = Some ra /\
    is_str (riskLevel ra) "HIGH_RISK" = false /\
    is_str (riskLevel ra) "MEDIUM_RISK" = false /\
    is_str (riskLevel ra) "LOW_RISK" = false /\
    is_str (riskLevel ra) "NO_RISK" = false.
Proof.
  unfold uncategorized, in_default_tier, in_highRisk, in_mediumRisk,
    in_lowRisk, in_noRisk, riskLevel_of.
  destruct (riskAnalysis app) as [ra|].
  - rewrite !andb_true_iff, !negb_true_iff. split.
    + intros [[[H1 H2] H3] H4]. exists ra. auto.
    + intros (ra' & E & H1 & H2 & H3 & H4). injection E as <-. auto.
  - split; [discriminate|].
    intros (ra & E & _). discriminate.
Qed.

(** ** The Data Usage Summarizer's loop in closed form *)

Lemma add_usage_closed_form (apps : list App) (acc : N * N) :
  fold_left add_usage apps acc =
  ((fst acc + sumN (map wifi_of apps))%N,
   (snd acc + sumN (map mobile_of apps))%N).
Proof.
  revert acc. induction apps as [|app apps IH]; intros [w m]; simpl.
  - rewrite !N.add_0_r. reflexivity.
  - rewrite IH. unfold add_usage, wifi_of, mobile_of.
    destruct (dataUsage app) as [du|]; simpl; f_equal; lia.
Qed.

(** ** Deduplication through a [Set] *)

Lemma includes_In (x : string) (l : list string) :
  includes x l = true <-> In x l.
Proof.
  unfold includes. rewrite existsb_exists. split.
  - intros (y & Hy & E). apply String.eqb_eq in E. subst. exact Hy.
  - intros H. exists x. split; [exact H | apply String.eqb_refl].
Qed.

Lemma includes_false (x : string) (l : list string) :
  includes x l = false <-> ~ In x l.
Proof.
  rewrite <- includes_In. destruct (includes x l); split; congruence.
Qed.

(** Only the members of [seen] matter. *)
Lemma uniq_from_ext (s1 s2 l : list string) :
  (forall x, In x s1 <-> In x s2) -> uniq_from s1 l = uniq_from s2 l.
Proof.
  revert s1 s2. induction l as [|x l IH]; intros s1 s2 H; [reflexivity|].
  simpl.
  assert (E : includes x s1 = includes x s2).
  { destruct (includes x s1) eqn:E1; symmetry.
    - apply includes_In. apply H. apply includes_In. exact E1.
    - apply includes_false. rewrite <- H. apply includes_false. exact E1. }
  rewrite E. destruct (includes x s2).
  - apply IH, H.
  - f_equal. apply IH. intros y. simpl. rewrite H. reflexivity.
Qed.

Lemma uniq_from_In (seen l : list string) (x : string) :
  In x (uniq_from seen l) <-> In x l /\ ~ In x seen.
Proof.
  revert seen. induction l as [|y l IH]; intros seen; simpl.
  - tauto.
  - destruct (includes y seen) eqn:E.
    + apply includes_In in E. rewrite IH. split.
      * tauto.
      * intros [[->|H] Hn]; tauto.
    + apply includes_false in E. simpl. rewrite IH. simpl. split.
      * intros [->|[H Hn]]; tauto.
      * intros [[->|H] Hn]; [tauto|].
        destruct (string_dec y x) as [->|Hne]; tauto.
Qed.

Lemma uniq_from_NoDup (seen l : list string) : NoDup (uniq_from seen l).
Proof.
  revert seen. induction l as [|y l IH]; intros seen; simpl.
  - constructor.
  - destruct (includes y seen); [apply IH|].
    constructor; [|apply IH].
    rewrite uniq_from_In. simpl. tauto.
Qed.

Lemma uniq_from_app (seen l1 l2 : list string) :
  uniq_from seen (l1 ++ l2)
  = uniq_from seen l1 ++ uniq_from (l1 ++ seen) l2.
Proof.
  revert seen. induction l1 as [|x l1 IH]; intros seen; [reflexivity|].
  simpl. destruct (includes x seen) eqn:E.
  - rewrite IH. f_equal. apply uniq_from_ext. intros y.
    apply includes_In in E. simpl. rewrite !in_app_iff.
    split; [tauto|]. intros [->|[H|H]]; tauto.
  - simpl. f_equal. rewrite IH. f_equal. apply uniq_from_ext. intros y.
    simpl. rewrite !in_app_iff. simpl. tauto.
Qed.

(** Deduplicating a deduplicated list changes nothing more. *)
Lemma uniq_from_uniq_from (s t l : list string) :
  uniq_from s (uniq_from t l) = uniq_from (s ++ t) l.
Proof.
  revert s t. induction l as [|x l IH]; intros s t; [reflexivity|].
  simpl. destruct (includes x t) eqn:Et.
  - assert (E : includes x (s ++ t) = true)
      by (apply includes_In, in_or_app; right; apply includes_In, Et).
    rewrite E. apply IH.
  - simpl. destruct (includes x s) eqn:Es.
    + assert (E : includes x (s ++ t) = true)
        by (apply includes_In, in_or_app; left; apply includes_In, Es).
      rewrite E, IH. apply uniq_from_ext. intros y.
      apply includes_In in Es. rewrite !in_app_iff. simpl.
      split; [|tauto]. intros [H|[->|H]]; tauto.
    + assert (E : includes x (s ++ t) = false).
      { apply includes_false. rewrite in_app_iff.
        apply includes_false in Es, Et. tauto. }
      rewrite E. f_equal. rewrite IH. apply uniq_from_ext. intros y.
      simpl. rewrite !in_app_iff. simpl. tauto.
Qed.

Lemma spread_Set_In (l : list string) (x : string) :
  In x (spread_Set l) <-> In x l.
Proof. unfold spread_Set. rewrite uniq_from_In. simpl. tauto. Qed.

Lemma spread_Set_NoDup (l : list string) : NoDup (spread_Set l).
Proof. apply uniq_from_NoDup. Qed.

(** A deduplicated list holds each of its members once. *)
Lemma spread_Set_count (l : list string) (x : string) :
  count_occ string_dec (spread_Set l) x = if includes x l then 1 else 0.
Proof.
  destruct (includes x l) eqn:E.
  - apply includes_In, spread_Set_In in E.
    pose proof (spread_Set_NoDup l) as Hn.
    rewrite (NoDup_count_occ string_dec) in Hn. specialize (Hn x).
    apply (count_occ_In string_dec) in E. lia.
  - apply count_occ_not_In. rewrite spread_Set_In.
    apply includes_false. exact E.
Qed.

Lemma requests_listed (p : string) (app : App) :
  requests p app = includes p (listed app).
Proof.
  unfold requests, uniquePermissions, listed.
  destruct (includes p (or_nil (permissions app))) eqn:E.
  - apply includes_In, spread_Set_In, includes_In. exact E.
  - apply includes_false. rewrite spread_Set_In. apply includes_false, E.
Qed.

(** First-met order is the same whether or not each app's list is
    deduplicated first. *)
Lemma first_met_unique (apps : list App) (seen : list string) :
  uniq_from seen (flat_map uniquePermissions apps)
  = uniq_from seen (flat_map listed apps).
Proof.
  revert seen. induction apps as [|app apps IH]; intros seen; [reflexivity|].
  simpl. rewrite !uniq_from_app. f_equal.
  - unfold uniquePermissions, spread_Set. rewrite uniq_from_uniq_from.
    rewrite app_nil_r. reflexivity.
  - rewrite IH. apply uniq_from_ext. intros x. rewrite !in_app_iff.
    unfold uniquePermissions. rewrite spread_Set_In. reflexivity.
Qed.

(** ** The prevalence table *)

Lemma pc_get_set (p q : string) (v : nat) (pc : PermissionCount) :
  pc_get q (pc_set p v pc) = if String.eqb p q then Some v else pc_get q pc.
Proof.
  induction pc as [|[k n] pc IH]; simpl.
  - rewrite String.eqb_sym. reflexivity.
  - destruct (String.eqb k p) eqn:Ekp; simpl.
    + apply String.eqb_eq in Ekp. subst k.
      destruct (String.eqb p q); reflexivity.
    + rewrite IH. destruct (String.eqb k q) eqn:Ekq; [|reflexivity].
      apply String.eqb_eq in Ekq. subst k.
      rewrite String.eqb_sym, Ekp. reflexivity.
Qed.

Lemma pc_set_keys (p : string) (v : nat) (pc : PermissionCount) :
  map fst (pc_set p v pc)
  = map fst pc ++ (if includes p (map fst pc) then [] else [p]).
Proof.
  unfold includes. induction pc as [|[k n] pc IH]; simpl; [reflexivity|].
  rewrite (String.eqb_sym p k).
  destruct (String.eqb k p); simpl.
  - rewrite app_nil_r. reflexivity.
  - rewrite IH. reflexivity.
Qed.

Lemma bump_count (pc : PermissionCount) (p q : string) :
  count_of (bump pc p) q
  = count_of pc q + (if string_dec p q then 1 else 0).
Proof.
  unfold count_of, bump. rewrite pc_get_set.
  destruct (string_dec p q) as [->|Hne].
  - rewrite String.eqb_refl. lia.
  - apply String.eqb_neq in Hne. rewrite Hne. lia.
Qed.

Lemma bump_all_count (l : list string) (pc : PermissionCount) (q : string) :
  count_of (fold_left bump l pc) q = count_of pc q + count_occ string_dec l q.
Proof.
  revert pc. induction l as [|p l IH]; intros pc; simpl; [lia|].
  rewrite IH, bump_count. destruct (string_dec p q); lia.
Qed.

Lemma bump_all_keys (l : list string) (pc : PermissionCount) :
  map fst (fold_left bump l pc) = map fst pc ++ uniq_from (map fst pc) l.
Proof.
  revert pc. induction l as [|p l IH]; intros pc; simpl.
  - rewrite app_nil_r. reflexivity.
  - rewrite IH. unfold bump at 1 2. rewrite pc_set_keys.
    destruct (includes p (map fst pc)) eqn:E.
    + rewrite app_nil_r. reflexivity.
    + rewrite <- app_assoc. simpl. do 2 f_equal.
      apply uniq_from_ext. intros x. rewrite in_app_iff. simpl. tauto.
Qed.

(** A table with distinct keys is determined by its keys and counts. *)
Lemma table_by_keys (pc : PermissionCount) :
  NoDup (map fst pc) -> pc = map (fun p => (p, count_of pc p)) (map fst pc).
Proof.
  induction pc as [|[k n] pc IH]; intros Hn; [reflexivity|].
  simpl in Hn. inversion Hn as [|? ? Hk Hn']; subst.
  simpl. f_equal.
  - unfold count_of. simpl. rewrite String.eqb_refl. reflexivity.
  - rewrite (IH Hn') at 1. apply map_ext_in. intros p Hp.
    unfold count_of. simpl.
    destruct (String.eqb k p) eqn:E; [|reflexivity].
    apply String.eqb_eq in E. subst. contradiction.
Qed.

(** The apps that request [p], counted through the flattened sequence of
    their deduplicated lists. *)
Lemma count_requests (apps : list App) (p : string) :
  count_occ string_dec (flat_map uniquePermissions apps) p
  = List.length (filter (requests p) apps).
Proof.
  induction apps as [|app apps IH]; [reflexivity|].
  simpl. rewrite count_occ_app, IH.
  unfold uniquePermissions at 1. rewrite spread_Set_count.
  rewrite requests_listed. unfold listed.
  destruct (includes p (or_nil (permissions app))); simpl; lia.
Qed.

(** ** The loop of the Permission Analyzer *)

Lemma byRisk_get_known (r : PermissionByRisk) (riskLevel : option string) :
  known_level riskLevel = true <-> exists arr, byRisk_get r riskLevel = Some arr.
Proof.
  unfold known_level, byRisk_get.
  destruct (is_str riskLevel "HIGH"), (is_str riskLevel "MEDIUM"),
    (is_str riskLevel "LOW"); simpl; split; intros H;
    try reflexivity; try discriminate; try (eexists; reflexivity).
  destruct H as [arr H]. discriminate.
Qed.

Lemma note_factor_known (r : PermissionByRisk) (f : RiskFactor) :
  known_level (level f) = true -> exists r', note_factor r f = inr r'.
Proof.
  intros H. apply (byRisk_get_known r) in H. destruct H as [arr H].
  unfold note_factor. rewrite H.
  destruct (negb (includes (permission f) arr)); eexists; reflexivity.
Qed.

Lemma note_factor_unknown (r : PermissionByRisk) (f : RiskFactor) :
  known_level (level f) = false -> exists e, note_factor r f = inl e.
Proof.
  intros H. unfold note_factor.
  destruct (byRisk_get r (level f)) as [arr|] eqn:E.
  - assert (known_level (level f) = true)
      by (apply (byRisk_get_known r); eauto).
    congruence.
  - eexists. reflexivity.
Qed.

Lemma note_factors_result (factors : list RiskFactor) (r : PermissionByRisk) :
  if forallb (fun f => known_level (level f)) factors
  then exists r', forEachM note_factor factors r = inr r'
  else exists e, forEachM note_factor factors r = inl e.
Proof.
  revert r. induction factors as [|f factors IH]; intros r; simpl.
  - eexists. reflexivity.
  - destruct (known_level (level f)) eqn:E; simpl.
    + destruct (note_factor_known r f E) as [r' Hr]. rewrite Hr. simpl.
      apply IH.
    + destruct (note_factor_unknown r f E) as [e He]. rewrite He. simpl.
      eexists. reflexivity.
Qed.

Lemma analyze_app_result (a : Analysis) (app : App) :
  if factors_known app
  then exists r, analyze_app a app
         = inr {| a_permissionCount :=
                    fold_left bump (uniquePermissions app) (a_permissionCount a);
                  a_permissionByRisk := r |}
  else exists e, analyze_app a app = inl e.
Proof.
  unfold factors_known, analyze_app.
  destruct (riskFactors_of app) as [factors|]; simpl.
  - pose proof (note_factors_result factors (a_permissionByRisk a)) as H.
    destruct (forallb _ factors).
    + destruct H as [r' H]. rewrite H. simpl. eexists. reflexivity.
    + destruct H as [e H]. rewrite H. simpl. eexists. reflexivity.
  - eexists. reflexivity.
Qed.

Lemma analyze_all_result (apps : list App) (a : Analysis) :
  if forallb factors_known apps
  then exists r, forEachM analyze_app apps a
         = inr {| a_permissionCount :=
                    fold_left bump (flat_map uniquePermissions apps)
                      (a_permissionCount a);
                  a_permissionByRisk := r |}
  else exists e, forEachM analyze_app apps a = inl e.
Proof.
  revert a. induction apps as [|app apps IH]; intros a; simpl.
  - exists (a_permissionByRisk a). destruct a; reflexivity.
  - pose proof (analyze_app_result a app) as H.
    destruct (factors_known app); simpl.
    + destruct H as [r H]. rewrite H. simpl.
      specialize (IH {| a_permissionCount :=
                          fold_left bump (uniquePermissions app) (a_permissionCount a);
                        a_permissionByRisk := r |}).
      simpl in IH. rewrite fold_left_app. exact IH.
    + destruct H as [e H]. rewrite H. simpl. eexists. reflexivity.
Qed.

(** The table the analyzer returns, in closed form: the identifiers in
    first-met order, each with the number of apps that request it. *)
Lemma permissionCount_closed_form (apps : list App) (r : PermissionAnalysis) :
  analyzePermissions apps = inr r ->
  permissionCount r
  = map (fun p => (p, List.length (filter (requests p) apps))) (first_met apps).
Proof.
  unfold analyzePermissions. intros H.
  pose proof (analyze_all_result apps analysis0) as Ha.
  destruct (forallb factors_known apps).
  - destruct Ha as [pbr Ha]. rewrite Ha in H. simpl in H.
    injection H as <-. cbn [permissionCount].
    set (pc := fold_left bump (flat_map uniquePermissions apps) []).
    assert (Hk : map fst pc = first_met apps).
    { unfold pc. rewrite bump_all_keys. simpl.
      apply first_met_unique. }
    rewrite (table_by_keys pc), Hk.
    + apply map_ext. intros p. f_equal.
      unfold pc. rewrite bump_all_count. unfold count_of at 1. simpl.
      apply count_requests.
    + rewrite Hk. apply spread_Set_NoDup.
  - destruct Ha as [e Ha]. rewrite Ha in H. discriminate.
Qed.

(** The analyzer returns exactly when every risk factor has a known level;
    it then returns the table built by the bumps of all the deduplicated
    lists, ranked. *)
Lemma analyzePermissions_result (apps : list App) :
  let pc := fold_left bump (flat_map uniquePermissions apps) [] in
  if forallb factors_known apps
  then exists pbr, analyzePermissions apps
         = inr {| permissionCount := pc;
                  mostCommon :=
                    map (fun e => {| mc_permission := fst e; mc_count := snd e |})
                      (firstn 10 (sort by_count_desc pc));
                  highRiskPermissions := List.length (HIGH pbr);
                  mediumRiskPermissions := List.length (MEDIUM pbr);
                  lowRiskPermissions := List.length (LOW pbr) |}
  else exists e, analyzePermissions apps = inl e.
Proof.
  cbv zeta. unfold analyzePermissions.
  pose proof (analyze_all_result apps analysis0) as Ha.
  destruct (forallb factors_known apps).
  - destruct Ha as [pbr Ha]. rewrite Ha. simpl. exists pbr. reflexivity.
  - destruct Ha as [e Ha]. rewrite Ha. simpl. exists e. reflexivity.
Qed.

(** ** Strings *)

Lemma append_assoc (a b c : string) :
  ((a ++ b) ++ c = a ++ (b ++ c))%string.
Proof. induction a as [|x a IH]; simpl; [reflexivity | rewrite IH; reflexivity]. Qed.

Lemma append_nil_r (a : string) : (a ++ EmptyString)%string = a.
Proof. induction a as [|x a IH]; simpl; [reflexivity | rewrite IH; reflexivity]. Qed.

Lemma prefix_split (p s : string) :
  prefix p s = true -> s = (p ++ drop (String.length p) s)%string.
Proof.
  revert s. induction p as [|a p IH]; intros s H.
  - destruct s; reflexivity.
  - destruct s as [|b s]; simpl in H; [discriminate|].
    destruct (ascii_dec a b) as [->|]; [|discriminate].
    simpl. f_equal. apply IH, H.
Qed.

Lemma contains_occurs (pat s : string) :
  contains pat s = true -> occurs pat s.
Proof.
  induction s as [|c s IH]; intros H.
  - cbn [contains] in H.
    destruct (prefix pat EmptyString) eqn:E; [|discriminate].
    exists EmptyString, (drop (String.length pat) EmptyString).
    apply prefix_split, E.
  - cbn [contains] in H. destruct (prefix pat (String c s)) eqn:E.
    + exists EmptyString, (drop (String.length pat) (String c s)).
      apply prefix_split, E.
    + destruct (IH H) as (pre & post & ->).
      exists (String c pre), post. reflexivity.
Qed.

Lemma occurs_app_l (pat a b : string) :
  occurs pat a -> occurs pat (a ++ b)%string.
Proof.
  intros (pre & post & ->). exists pre, (post ++ b)%string.
  rewrite !append_assoc. reflexivity.
Qed.

Lemma occurs_app_r (pat a b : string) :
  occurs pat b -> occurs pat (a ++ b)%string.
Proof.
  intros (pre & post & ->). exists (a ++ pre)%string, post.
  rewrite !append_assoc. reflexivity.
Qed.

Lemma occurs_refl (pat : string) : occurs pat pat.
Proof. exists EmptyString, EmptyString. rewrite append_nil_r. reflexivity. Qed.

(** ** Escaping *)

(** An escaped text holds none of the four characters that open or close
    markup, and every ampersand in it starts one of the five entities. *)
Ltac plain_char :=
  repeat split;
  try discriminate;
  let X := fresh in intro X; vm_compute in X; discriminate.

Lemma escape_all_clean (text : string) (c : ascii) :
  In c (list_ascii_of_string (escape_all text)) ->
  c <> "<"%char /\ c <> ">"%char /\ c <> "'"%char /\ nat_of_ascii c <> 34.
Proof.
  induction text as [|x text IH]; simpl; [tauto|].
  unfold escape_char.
  destruct (Ascii.eqb x "&") eqn:E1;
    [simpl; intros [<-|[<-|[<-|[<-|[<-|H]]]]]; auto; plain_char|].
  destruct (Ascii.eqb x "<") eqn:E2;
    [simpl; intros [<-|[<-|[<-|[<-|H]]]]; auto; plain_char|].
  destruct (Ascii.eqb x ">") eqn:E3;
    [simpl; intros [<-|[<-|[<-|[<-|H]]]]; auto; plain_char|].
  destruct (nat_of_ascii x =? 34)%nat eqn:E4;
    [simpl; intros [<-|[<-|[<-|[<-|[<-|[<-|H]]]]]]; auto; plain_char|].
  destruct (Ascii.eqb x "'") eqn:E5;
    [simpl; intros [<-|[<-|[<-|[<-|[<-|[<-|H]]]]]]; auto; plain_char|].
  simpl. intros [<-|H]; auto.
  apply Ascii.eqb_neq in E2, E3, E5. apply Nat.eqb_neq in E4. auto.
Qed.

Lemma escapeHtml_clean (text : option string) (c : ascii) :
  In c (list_ascii_of_string (escapeHtml text)) ->
  c <> "<"%char /\ c <> ">"%char /\ c <> "'"%char /\ nat_of_ascii c <> 34.
Proof.
  unfold escapeHtml. destruct text as [s|]; [|simpl; tauto].
  destruct (String.eqb s EmptyString); [simpl; tauto|].
  apply escape_all_clean.
Qed.

(** ** Indexed maps *)

Lemma mapi_from_length {A B} (f : A -> nat -> B) (i : nat) (l : list A) :
  List.length (mapi_from f i l) = List.length l.
Proof.
  revert i. induction l as [|x l IH]; intros i; simpl; [reflexivity|].
  rewrite IH. reflexivity.
Qed.

Lemma mapi_from_nth {A B} (f : A -> nat -> B) (i n : nat) (l : list A) :
  nth_error (mapi_from f i l) n
  = option_map (fun x => f x (i + n)) (nth_error l n).
Proof.
  revert i n. induction l as [|x l IH]; intros i [|n]; simpl; try reflexivity.
  - rewrite Nat.add_0_r. reflexivity.
  - rewrite IH. rewrite Nat.add_succ_comm. reflexivity.
Qed.

(** ** Finding a text in a template *)

Lemma ends_with_split (x s : string) :
  ends_with x s = true -> exists s', s = (s' ++ x)%string.
Proof.
  induction s as [|c s IH]; cbn [ends_with]; intros H.
  - destruct (String.eqb x EmptyString) eqn:E; [|discriminate].
    apply String.eqb_eq in E. subst. exists EmptyString. reflexivity.
  - destruct (String.eqb x (String c s)) eqn:E.
    + apply String.eqb_eq in E. subst. exists EmptyString. reflexivity.
    + destruct (IH H) as [s' ->]. exists (String c s'). reflexivity.
Qed.

(** A text written between the end of one literal and the start of the
    next. *)
Lemma occurs_infix (x n y a b : string) :
  ends_with x a = true -> prefix y b = true ->
  occurs (x ++ n ++ y) (a ++ n ++ b).
Proof.
  intros Ha Hb. destruct (ends_with_split _ _ Ha) as [a' ->].
  apply prefix_split in Hb.
  exists a', (drop (String.length y) b).
  rewrite Hb at 1. rewrite !append_assoc. reflexivity.
Qed.


(** Skip the pieces of a template in front of the one looked for. *)
Ltac skip_to piece :=
  repeat lazymatch goal with
    | |- occurs _ (piece ++ _)%string => fail
    | |- occurs _ (_ ++ _)%string => apply occurs_app_r
    end.

(** Find the text just around the interpolated [n]. *)
Ltac around n :=
  repeat lazymatch goal with
    | |- occurs _ (_ ++ n ++ _)%string => fail
    | |- occurs _ (_ ++ _)%string => apply occurs_app_r
    end;
  apply occurs_infix; reflexivity.

(** ** Where the names of an app go *)

(** The card of a high-priority app shows the name and the package name as
    they are. *)
Lemma priorityApp_raw_name (app : App) (index : nat) :
  occurs (". " ++ display_name app "Unknown App" ++ "</div>")
    (priorityApp app index).
Proof. unfold priorityApp, display_name. around (or_str (name app) (or_str (appName app) "Unknown App")). Qed.

Lemma priorityApp_raw_package (app : App) (index : nat) :
  occurs (">" ++ interp (packageName app) ++ "</div>") (priorityApp app index).
Proof. unfold priorityApp. around (interp (packageName app)). Qed.

(** So does a row of the table of data consumers. *)
Lemma consumerRow_raw_name (c : Consumer) :
  occurs ("<strong>" ++ c_name c ++ "</strong>") (consumerRow c).
Proof. unfold consumerRow. around (c_name c). Qed.

Lemma consumerRow_raw_package (c : Consumer) :
  occurs (">" ++ interp (c_packageName c) ++ "</small>") (consumerRow c).
Proof. unfold consumerRow. around (interp (c_packageName c)). Qed.

(** A row of the inventory shows both escaped. *)
Lemma inventoryRow_escaped_name (app : App) (index : nat) :
  occurs ("<strong>" ++ escapeHtml (Some (display_name app "Unknown"))
          ++ "</strong>") (inventoryRow app index).
Proof.
  unfold inventoryRow, display_name.
  around (escapeHtml (Some (or_str (name app) (or_str (appName app) "Unknown")))).
Qed.

Lemma inventoryRow_escaped_package (app : App) (index : nat) :
  occurs (">" ++ escapeHtml (packageName app) ++ "</small>")
    (inventoryRow app index).
Proof. unfold inventoryRow. around (escapeHtml (packageName app)). Qed.

(** So does a detail page. *)
Lemma detailPage_escaped_name (app : App) (appIndex : nat) :
  occurs ("App Details: " ++ escapeHtml (Some (display_name app "Unknown"))
          ++ "</div>") (detailPage app appIndex).
Proof.
  unfold detailPage, display_name.
  around (escapeHtml (Some (or_str (name app) (or_str (appName app) "Unknown")))).
Qed.

Lemma detailPage_escaped_package (app : App) (appIndex : nat) :
  occurs (">" ++ escapeHtml (packageName app) ++ "</div>")
    (detailPage app appIndex).
Proof. unfold detailPage. around (escapeHtml (packageName app)). Qed.

(** ** [JSON.parse]: the fuel *)

Lemma skip_ws_length (s : string) :
  String.length (skip_ws s) <= String.length s.
Proof.
  induction s as [|c s IH]; simpl; [lia|].
  destruct (is_ws c); simpl; lia.
Qed.

Lemma drop_length (n : nat) (s : string) :
  String.length (drop n s) = String.length s - n.
Proof.
  revert s. induction n as [|n IH]; intros [|c s]; simpl; try lia.
  apply IH.
Qed.

Lemma starts_length (c : ascii) (s : string) :
  starts c s = true -> 1 <= String.length s.
Proof. destruct s; simpl; [discriminate | lia]. Qed.

Lemma append_length (a b : string) :
  String.length (a ++ b) = String.length a + String.length b.
Proof. induction a as [|c a IH]; simpl; [reflexivity | rewrite IH; reflexivity]. Qed.

Lemma prefix_length (p s : string) :
  prefix p s = true -> String.length p <= String.length s.
Proof.
  intros H. apply prefix_split in H. rewrite H.
  rewrite append_length. lia.
Qed.

Lemma digits_length (s d r : string) :
  digits s = (d, r) -> String.length s = String.length d + String.length r.
Proof.
  revert d r. induction s as [|c s IH]; intros d r H; simpl in H.
  - injection H as <- <-. reflexivity.
  - destruct (is_digit c).
    + destruct (digits s) as [d' r'] eqn:E. injection H as <- <-.
      simpl. rewrite (IH d' r' eq_refl). reflexivity.
    + injection H as <- <-. reflexivity.
Qed.

Lemma nonempty_length (s : string) :
  String.eqb s EmptyString = false -> 1 <= String.length s.
Proof. destruct s; simpl; [discriminate | lia]. Qed.

Ltac split_number H :=
  repeat
    (cbv zeta beta iota in H;
     match type of H with
     | context [digits ?x] =>
         let d := fresh "d" in
         let r := fresh "r" in
         let E := fresh "E" in
         destruct (digits x) as [d r] eqn:E; apply digits_length in E
     | context [if ?b then _ else _] =>
         let E := fresh "E" in destruct b eqn:E
     | None = Some _ => discriminate H
     | Some _ = Some _ => injection H as ? ?; subst
     | match ?x with Some _ => _ | None => _ end = _ =>
         let E := fresh "E" in destruct x as [[? ?]|] eqn:E
     end).

Lemma parse_number_length (s n r : string) :
  parse_number s = Some (n, r) -> String.length r < String.length s.
Proof.
  unfold parse_number. intros H.
  split_number H.
  all: repeat match goal with
         | X : (String.eqb _ EmptyString || _) = false |- _ =>
             apply orb_false_iff in X; destruct X as [X _];
             apply nonempty_length in X
         end.
  all: rewrite ?drop_length in *; lia.
Qed.

Lemma parse_chars_length (s t r : string) :
  parse_chars s = Some (t, r) -> String.length r < String.length s.
Proof.
  remember (String.length s) as n eqn:Hn.
  assert (Hle : String.length s <= n) by lia. clear Hn.
  revert s t r Hle. induction n as [|n IH]; intros s t r Hle H.
  - destruct s; [discriminate | simpl in Hle; lia].
  - destruct s as [|c s]; [discriminate|].
    simpl in Hle. cbn [parse_chars] in H.
    destruct (nat_of_ascii c =? 34)%nat; [injection H as <- <-; simpl; lia|].
    destruct (nat_of_ascii c <? 32)%nat; [discriminate|].
    destruct (Ascii.eqb c "\").
    + destruct s as [|e s]; [discriminate|].
      destruct (Ascii.eqb e "u").
      * destruct s as [|h1 [|h2 [|h3 [|h4 s]]]]; try discriminate.
        destruct (is_hex h1 && is_hex h2 && is_hex h3 && is_hex h4);
          [|discriminate].
        destruct (parse_chars s) as [[t' r']|] eqn:E; [|discriminate].
        injection H as <- <-. apply IH in E; simpl in *; lia.
      * destruct (_ || _); [|discriminate].
        destruct (parse_chars s) as [[t' r']|] eqn:E; [|discriminate].
        injection H as <- <-. apply IH in E; simpl in *; lia.
    + destruct (parse_chars s) as [[t' r']|] eqn:E; [|discriminate].
      injection H as <- <-. apply IH in E; simpl in *; lia.
Qed.

(** More fuel changes nothing to a parse that succeeds. *)
Lemma parse_fuel_mono (f : nat) :
  (forall s x f', parse_value f s = Some x -> f <= f' ->
                  parse_value f' s = Some x) /\
  (forall s x f', parse_elements f s = Some x -> f <= f' ->
                  parse_elements f' s = Some x) /\
  (forall s x f', parse_members f s = Some x -> f <= f' ->
                  parse_members f' s = Some x).
Proof.
  induction f as [|f (IHv & IHe & IHm)];
    [repeat split; intros; discriminate|].
  repeat split; intros s x [|f'] H Hle; try lia;
    assert (Hf : f <= f') by lia; clear Hle.
  - cbn [parse_value] in *. cbv zeta in *.
    destruct (starts "{" (skip_ws s)).
    { destruct (starts "}" _); [exact H|].
      destruct (parse_members f _) as [[ms r']|] eqn:E; [|discriminate].
      rewrite (IHm _ _ _ E Hf). exact H. }
    destruct (starts "[" (skip_ws s)).
    { destruct (starts "]" _); [exact H|].
      destruct (parse_elements f _) as [[es r']|] eqn:E; [|discriminate].
      rewrite (IHe _ _ _ E Hf). exact H. }
    exact H.
  - cbn [parse_elements] in *. cbv zeta in *.
    destruct (parse_value f s) as [[v r]|] eqn:E; [|discriminate].
    rewrite (IHv _ _ _ E Hf).
    destruct (starts "]" _); [exact H|].
    destruct (starts "," _); [|discriminate].
    destruct (parse_elements f _) as [[vs r']|] eqn:E2; [|discriminate].
    rewrite (IHe _ _ _ E2 Hf). exact H.
  - cbn [parse_members] in *. cbv zeta in *.
    destruct (starts _ (skip_ws s)); [|discriminate].
    destruct (parse_chars _) as [[k r1]|]; [|discriminate].
    destruct (starts ":" _); [|discriminate].
    destruct (parse_value f _) as [[v r2]|] eqn:E; [|discriminate].
    rewrite (IHv _ _ _ E Hf).
    destruct (starts "}" _); [exact H|].
    destruct (starts "," _); [|discriminate].
    destruct (parse_members f _) as [[ms r3]|] eqn:E2; [|discriminate].
    rewrite (IHm _ _ _ E2 Hf). exact H.
Qed.

Lemma some_pair {A B} (a c : A) (b d : B) :
  Some (a, b) = Some (c, d) -> a = c /\ b = d.
Proof. intros H. injection H as -> ->. split; reflexivity. Qed.

Ltac inj H := apply some_pair in H; destruct H as [<- <-].

(** A parse that succeeds consumes something, and twice what it consumes
    is fuel enough for it. *)
Lemma parse_fuel_bound (f : nat) :
  (forall s v r, parse_value f s = Some (v, r) ->
     String.length r < String.length s /\
     parse_value (2 * (String.length s - String.length r)) s = Some (v, r)) /\
  (forall s vs r, parse_elements f s = Some (vs, r) ->
     String.length r < String.length s /\
     parse_elements (2 * (String.length s - String.length r)) s
     = Some (vs, r)) /\
  (forall s ms r, parse_members f s = Some (ms, r) ->
     String.length r < String.length s /\
     parse_members (2 * (String.length s - String.length r)) s
     = Some (ms, r)).
Proof.
  induction f as [|f (IHv & IHe & IHm)];
    [repeat split; intros; discriminate|].
  destruct (parse_fuel_mono f) as (Mv & Me & Mm).
  split; [|split].
  - intros s v r H. cbn [parse_value] in H. cbv zeta in H.
    pose proof (skip_ws_length s) as Ls.
    assert (Hlen : String.length r < String.length s).
    { destruct (starts "{" (skip_ws s)) eqn:E1.
      { apply starts_length in E1.
        pose proof (skip_ws_length (drop 1 (skip_ws s))) as L1.
        rewrite drop_length in L1.
        destruct (starts "}" _) eqn:E2.
        - inj H. rewrite drop_length. lia.
        - destruct (parse_members f _) as [[ms r']|] eqn:E; [|discriminate].
          inj H. apply IHm in E. lia. }
      destruct (starts "[" (skip_ws s)) eqn:E2.
      { apply starts_length in E2.
        pose proof (skip_ws_length (drop 1 (skip_ws s))) as L1.
        rewrite drop_length in L1.
        destruct (starts "]" _) eqn:E3.
        - inj H. rewrite drop_length. lia.
        - destruct (parse_elements f _) as [[es r']|] eqn:E; [|discriminate].
          inj H. apply IHe in E. lia. }
      destruct (starts (ascii_of_nat 34) (skip_ws s)) eqn:E3.
      { apply starts_length in E3.
        destruct (parse_chars _) as [[t r']|] eqn:E; [|discriminate].
        inj H. apply parse_chars_length in E.
        rewrite drop_length in E. lia. }
      destruct (prefix "true" (skip_ws s)) eqn:E4.
      { apply prefix_length in E4. simpl in E4.
        inj H. rewrite drop_length. lia. }
      destruct (prefix "false" (skip_ws s)) eqn:E5.
      { apply prefix_length in E5. simpl in E5.
        inj H. rewrite drop_length. lia. }
      destruct (prefix "null" (skip_ws s)) eqn:E6.
      { apply prefix_length in E6. simpl in E6.
        inj H. rewrite drop_length. lia. }
      destruct (parse_number _) as [[n r']|] eqn:E; [|discriminate].
      inj H. apply parse_number_length in E. lia. }
    split; [exact Hlen|].
    destruct (2 * (String.length s - String.length r)) as [|g] eqn:Eg; [lia|].
    cbn [parse_value]. cbv zeta.
    destruct (starts "{" (skip_ws s)) eqn:E1.
    { apply starts_length in E1.
      pose proof (skip_ws_length (drop 1 (skip_ws s))) as L1.
      rewrite drop_length in L1.
      destruct (starts "}" _); [exact H|].
      destruct (parse_members f _) as [[ms r']|] eqn:E; [|discriminate].
      inj H. apply IHm in E. destruct E as [El E].
      rewrite (proj2 (proj2 (parse_fuel_mono _)) _ _ g E) by lia.
      reflexivity. }
    destruct (starts "[" (skip_ws s)) eqn:E2.
    { apply starts_length in E2.
      pose proof (skip_ws_length (drop 1 (skip_ws s))) as L1.
      rewrite drop_length in L1.
      destruct (starts "]" _); [exact H|].
      destruct (parse_elements f _) as [[es r']|] eqn:E; [|discriminate].
      inj H. apply IHe in E. destruct E as [El E].
      rewrite (proj1 (proj2 (parse_fuel_mono _)) _ _ g E) by lia.
      reflexivity. }
    exact H.
  - intros s vs r H. cbn [parse_elements] in H. cbv zeta in H.
    destruct (parse_value f s) as [[v r1]|] eqn:E; [|discriminate].
    apply IHv in E. destruct E as [El E].
    pose proof (skip_ws_length r1) as L1.
    assert (Hlen : String.length r < String.length s).
    { destruct (starts "]" _) eqn:E1.
      - inj H. rewrite drop_length. lia.
      - destruct (starts "," _) eqn:E2; [|discriminate].
        destruct (parse_elements f _) as [[vs' r']|] eqn:E3; [|discriminate].
        inj H. apply IHe in E3. rewrite drop_length in E3.
        lia. }
    split; [exact Hlen|].
    destruct (2 * (String.length s - String.length r)) as [|g] eqn:Eg; [lia|].
    cbn [parse_elements]. cbv zeta.
    destruct (starts "]" (skip_ws r1)) eqn:E1.
    + pose proof (starts_length _ _ E1) as S1.
      inj H. rewrite drop_length in Eg.
      rewrite (proj1 (parse_fuel_mono _) _ _ g E) by lia.
      rewrite E1. reflexivity.
    + destruct (starts "," (skip_ws r1)) eqn:E2; [|discriminate].
      pose proof (starts_length _ _ E2) as S2.
      destruct (parse_elements f _) as [[vs' r']|] eqn:E3; [|discriminate].
      inj H. apply IHe in E3. destruct E3 as [El3 E3].
      rewrite drop_length in El3, E3.
      rewrite (proj1 (parse_fuel_mono _) _ _ g E) by lia.
      rewrite E1, E2.
      rewrite (proj1 (proj2 (parse_fuel_mono _)) _ _ g E3)
        by (rewrite ?drop_length; lia).
      reflexivity.
  - intros s ms r H. cbn [parse_members] in H. cbv zeta in H.
    pose proof (skip_ws_length s) as Ls.
    destruct (starts (ascii_of_nat 34) (skip_ws s)) eqn:E0; [|discriminate].
    pose proof (starts_length _ _ E0) as S0.
    destruct (parse_chars _) as [[k r1]|] eqn:Ek; [|discriminate].
    pose proof (parse_chars_length _ _ _ Ek) as Lk.
    rewrite drop_length in Lk.
    pose proof (skip_ws_length r1) as L1.
    destruct (starts ":" (skip_ws r1)) eqn:Ec; [|discriminate].
    pose proof (starts_length _ _ Ec) as Sc.
    destruct (parse_value f _) as [[v r2]|] eqn:E; [|discriminate].
    apply IHv in E. destruct E as [El E]. rewrite drop_length in El, E.
    pose proof (skip_ws_length r2) as L2.
    assert (Hlen : String.length r < String.length s).
    { destruct (starts "}" _) eqn:E1.
      - inj H. rewrite drop_length. lia.
      - destruct (starts "," _) eqn:E2; [|discriminate].
        destruct (parse_members f _) as [[ms' r']|] eqn:E3; [|discriminate].
        inj H. apply IHm in E3. rewrite drop_length in E3.
        lia. }
    split; [exact Hlen|].
    destruct (2 * (String.length s - String.length r)) as [|g] eqn:Eg; [lia|].
    cbn [parse_members]. cbv zeta. rewrite E0, Ek, Ec.
    destruct (starts "}" (skip_ws r2)) eqn:E1.
    + pose proof (starts_length _ _ E1) as S1.
      inj H. rewrite drop_length in Eg.
      rewrite (proj1 (parse_fuel_mono _) _ _ g E)
        by (rewrite ?drop_length; lia).
      rewrite E1. reflexivity.
    + destruct (starts "," (skip_ws r2)) eqn:E2; [|discriminate].
      pose proof (starts_length _ _ E2) as S2.
      destruct (parse_members f _) as [[ms' r']|] eqn:E3; [|discriminate].
      inj H. apply IHm in E3. destruct E3 as [El3 E3].
      rewrite drop_length in El3, E3.
      rewrite (proj1 (parse_fuel_mono _) _ _ g E)
        by (rewrite ?drop_length; lia).
      rewrite E1, E2.
      rewrite (proj2 (proj2 (parse_fuel_mono _)) _ _ g E3)
        by (rewrite ?drop_length; lia).
      reflexivity.
Qed.

(** [JSON_parse] gives fuel enough: a text that some amount of fuel
    parses in full is parsed by [JSON_parse], to the same value. *)
Lemma JSON_parse_complete (fuel : nat) (text : string) (v : Json) (r : string) :
  parse_value fuel text = Some (v, r) ->
  skip_ws r = EmptyString ->
  JSON_parse text = inr v.
Proof.
  intros H Hr. unfold JSON_parse.
  destruct (parse_fuel_bound fuel) as (B & _ & _).
  destruct (B _ _ _ H) as [Hl Hb].
  rewrite (proj1 (parse_fuel_mono _) _ _ (2 * String.length text) Hb) by lia.
  rewrite Hr. reflexivity.
Qed.

(** ** Byte Formatter: the exponent *)



(** ** Report Model Builder *)

Lemma parse_blob_reads (blob : option string) (v : Json) :
  blob_reads blob v -> parse_blob blob = inr v.
Proof.
  intros H. destruct H as [| |text v Hne Hp]; try reflexivity.
  unfold parse_blob. apply String.eqb_neq in Hne. rewrite Hne. exact Hp.
Qed.

(** A blob that is present, not empty and not JSON makes the read throw. *)
Lemma parse_blob_unreadable (text : string) (e : Exn) :
  text <> EmptyString -> JSON_parse text = inl e ->
  parse_blob (Some text) = inl e.
Proof.
  intros Hne Hp. unfold parse_blob.
  apply String.eqb_neq in Hne. rewrite Hne. exact Hp.
Qed.

Lemma requestStoragePermission_returns (host : Host) :
  exists b, requestStoragePermission host = inr b.
Proof.
  unfold requestStoragePermission.
  destruct (negb (String.eqb (Platform_OS host) "android")); [eauto|].
  destruct (33 <=? Platform_Version host)%Z; [simpl; eauto|].
  destruct (PermissionsAndroid_request host); simpl; eauto.
Qed.

(** An error of the Permission Analyzer, like any error of the model
    construction, ends the model construction. *)
Lemma prepareReportData_analyzer_error (host : Host) (apps : list App)
    (e : Exn) :
  analyzePermissions apps = inl e ->
  exists e', prepareReportData host apps = inl e'.
Proof.
  intros H. unfold prepareReportData.
  destruct (AsyncStorage_getItem host "appSettings") as [e1|b1];
    [simpl; eauto|].
  destruct (AsyncStorage_getItem host "scanResults") as [e2|b2];
    [simpl; eauto|].
  simpl. destruct (parse_blob b1) as [e3|v1]; [simpl; eauto|].
  simpl. destruct (parse_blob b2) as [e4|v2]; [simpl; eauto|].
  simpl. rewrite H. simpl. eauto.
Qed.

(** Whatever ends the model construction ends the report request, under
    the prefix of [generateReport]. *)
Lemma generateReport_model_error (host : Host) (apps : list App) (e : Exn) :
  prepareReportData host apps = inl e ->
  exists m, generateReport host apps = inl (Error m).
Proof.
  intros H. unfold generateReport, generateReport_body.
  destruct (requestStoragePermission_returns host) as [b ->]. simpl.
  destruct (negb b && String.eqb (Platform_OS host) "android"
            && (Platform_Version host <? 33)%Z); simpl; [eauto|].
  rewrite H. simpl. eauto.
Qed.

(* ================================================================== *)
(** * The properties of the specification *)
(* ================================================================== *)

(** ** Risk Categorizer *)

(** C1 (the code departs from the claim).  The claim: the four groups
    partition the input, an app whose riskLevel is unrecognized or missing
    falls in noRisk, and the group sizes sum to totalApps.  For the single
    app [app_critical], whose level is CRITICAL, the Statistics Aggregator
    counts one app and counts it as noRisk, while the Risk Categorizer puts
    it in none of its four groups, whose sizes sum to 0. *)
Theorem categorizeByRisk_drops_unrecognized_level :
  let apps := [app_critical] in
  let c := categorizeByRisk apps in
  let s := calculateStatistics apps in
  totalApps s = 1 /\ noRisk s = 1 /\
  cat_highRisk c = [] /\ cat_mediumRisk c = [] /\
  cat_lowRisk c = [] /\ cat_noRisk c = [] /\
  List.length (cat_highRisk c) + List.length (cat_mediumRisk c)
  + List.length (cat_lowRisk c) + List.length (cat_noRisk c) = 0.
Proof. vm_compute. repeat split; reflexivity. Qed.

(** ** Top-Risk Ranker *)

(** C5.  For every app sequence and every limit (10 when left out), the
    Top-Risk Ranker returns the first [limit] elements of a ranking that
    holds exactly the apps carrying a riskAnalysis, is ordered
    non-increasing by riskScore (a missing score being 0), and keeps apps
    of equal score in their input order; so the result has at most [limit]
    elements, is itself ordered, and lists the apps of each score in input
    order. *)
Theorem getTopRiskyApps_ranking (apps : list App) (limit : option nat) :
  let n := match limit with Some n => n | None => 10 end in
  let candidates := filter has_riskAnalysis apps in
  let top := getTopRiskyApps apps limit in
  (forall a, In a candidates <-> In a apps /\ riskAnalysis a <> None) /\
  (forall a ra, riskAnalysis a = Some ra ->
     score a = match riskScore ra with Some z => z | None => 0%Z end) /\
  (exists ranked,
     top = firstn n ranked /\
     Permutation ranked candidates /\
     StronglySorted (ge_key score) ranked /\
     forall s, filter (has_key score s) ranked
               = filter (has_key score s) candidates) /\
  List.length top = Nat.min n (List.length candidates) /\
  StronglySorted (ge_key score) top /\
  (forall s, exists rest,
     filter (has_key score s) candidates
     = filter (has_key score s) top ++ rest).
Proof.
  cbv zeta. unfold getTopRiskyApps, slice0, by_score_desc.
  set (n := match limit with Some n => n | None => 10 end).
  set (candidates := filter has_riskAnalysis apps).
  split; [|split; [|split; [|split; [|split]]]].
  - intros a. unfold candidates. rewrite filter_In. unfold has_riskAnalysis.
    destruct (riskAnalysis a); split; intros [H1 H2]; split;
      congruence || auto.
  - intros a ra E. unfold score. rewrite E. reflexivity.
  - exists (sort (desc score) candidates).
    repeat split.
    + apply sort_perm.
    + apply sort_sorted.
    + intros s. apply sort_stable.
  - rewrite length_firstn, sort_length. reflexivity.
  - apply firstn_sorted, sort_sorted.
  - intros s.
    destruct (firstn_filter_prefix (has_key score s) n
                (sort (desc score) candidates)) as [rest E].
    exists rest. rewrite <- E. symmetry. apply sort_stable.
Qed.

(** ** Statistics Aggregator *)


(** The division and the scaling are those of doubles: 29 high-risk apps
    among 200 give 29 / 200 * 100 = 14.499999999999998, reported as 14. *)
#[warnings="-inexact-float"]
Remark riskPercentage_of_doubles :
  (NumNat 29 / NumNat 200 * 100 = 14.499999999999998)%float /\
  riskPercentage (calculateStatistics (repeat appA 29 ++ repeat appC 171))
  = 14%float.
Proof. split; vm_compute; reflexivity. Qed.

(** ** Data Usage Summarizer *)


(** ** Permission Analyzer *)

(** C4.  For every app sequence in which every risk factor of every app
    has level HIGH, MEDIUM or LOW, the Permission Analyzer returns a result;
    for every app sequence with a risk factor whose level is absent or is
    another value it raises an error, and the report request fails with
    it on every host; such inputs exist: the sequences with
    [app_factor_critical] (level CRITICAL) and [app_factor_unlabelled] (no
    level) end in the TypeError of the failed lookup. *)
Theorem analyzePermissions_raises_on_unknown_level :
  (forall apps, forallb factors_known apps = true ->
     exists r, analyzePermissions apps = inr r) /\
  (forall apps, forallb factors_known apps = false ->
     (exists e, analyzePermissions apps = inl e) /\
     forall host, exists m, generateReport host apps = inl (Error m)) /\
  factors_known app_factor_critical = false /\
  factors_known app_factor_unlabelled = false /\
  analyzePermissions [app_factor_critical]
    = inl (TypeError "Cannot read property 'includes' of undefined") /\
  analyzePermissions [appA; app_factor_unlabelled; appB]
    = inl (TypeError "Cannot read property 'includes' of undefined") /\
  generateReport host_sample [app_factor_critical]
    = inl (Error "PDF generation failed: Cannot read property 'includes' of undefined").
Proof.
  split; [|split].
  - intros apps H. pose proof (analyzePermissions_result apps) as R.
    cbv zeta in R. rewrite H in R. destruct R as [pbr R]. eauto.
  - intros apps H. pose proof (analyzePermissions_result apps) as R.
    cbv zeta in R. rewrite H in R. split; [exact R|].
    intros host. destruct R as [e R].
    destruct (prepareReportData_analyzer_error host apps e R) as [e' He].
    apply (generateReport_model_error host apps e' He).
  - repeat split; reflexivity.
Qed.

(** A sequence of apps with known risk-factor levels on which the analyzer
    returns. *)
Lemma analyzePermissions_raises_on_unknown_level_witness :
  forallb factors_known [app_factors_known; appA; appC] = true /\
  exists r, analyzePermissions [app_factors_known; appA; appC] = inr r.
Proof.
  split; [reflexivity|].
  apply (proj1 analyzePermissions_raises_on_unknown_level
           [app_factors_known; appA; appC]).
  reflexivity.
Defined.



(** ** Document Renderer *)



(** C3 (the code departs from the claim).  The claim: every occurrence
    of an app name or package name in the document is escaped, in the
    top-priority section and the data-consumers table too.  For the app
    [app_script], named <script>alert(1)</script> with package
    com.example.a&b, the model is built, and the name and the package name
    stand verbatim in the high-priority section, the name stands verbatim
    in the table of data consumers, hence in the document, while the
    inventory page, which escapes, shows &lt;script&gt; and holds no
    <script>. *)
Theorem app_name_rendered_unescaped :
  exists data : ReportModel,
    prepareReportData host_sample [app_script] = inr data /\
    occurs "1. <script>alert(1)</script></div>"
      (priorityAppsSection (topRiskyApps data)) /\
    occurs ">com.example.a&b</div>"
      (priorityAppsSection (topRiskyApps data)) /\
    occurs "<strong><script>alert(1)</script></strong>"
      (dataUsagePage (dataUsageSummary data)) /\
    occurs "<script>alert(1)</script>" (generateHTMLContent data) /\
    occurs "<strong>&lt;script&gt;alert(1)&lt;/script&gt;</strong>"
      (inventoryPage (apps data)) /\
    occurs ">com.example.a&amp;b</small>" (inventoryPage (apps data)) /\
    contains "<script>" (inventoryPage (apps data)) = false /\
    contains "<script>" (detailPages (apps data)) = false.
Proof.
  eexists. split; [vm_compute; reflexivity|].
  cbn [topRiskyApps dataUsageSummary apps].
  split; [apply contains_occurs; vm_compute; reflexivity|].
  split; [apply contains_occurs; vm_compute; reflexivity|].
  split; [apply contains_occurs; vm_compute; reflexivity|].
  split.
  { unfold generateHTMLContent. cbv zeta. cbn [topRiskyApps].
    repeat lazymatch goal with
      | |- occurs _ (priorityAppsSection _ ++ _)%string => fail
      | |- occurs _ (_ ++ _)%string => apply occurs_app_r
      end.
    apply occurs_app_l, contains_occurs. vm_compute. reflexivity. }
  split; [apply contains_occurs; vm_compute; reflexivity|].
  split; [apply contains_occurs; vm_compute; reflexivity|].
  split; vm_compute; reflexivity.
Qed.

(** ** Byte Formatter *)




(** ** Report Model Builder *)

(** C2 as amended.  For every pair of persisted blobs each of which is
    absent, empty or parseable as JSON, the blobs never make the
    construction of the report model fail: an absent or empty blob is read
    as the empty object, a parseable one as its value, and whenever the
    Permission Analyzer returns the model is built with these two values. *)
Theorem prepareReportData_reads_blobs (host : Host) (apps : list App)
    (settingsBlob scanBlob : option string) (s r : Json)
    (pa : PermissionAnalysis) :
  AsyncStorage_getItem host "appSettings" = inr settingsBlob ->
  AsyncStorage_getItem host "scanResults" = inr scanBlob ->
  blob_reads settingsBlob s ->
  blob_reads scanBlob r ->
  analyzePermissions apps = inr pa ->
  prepareReportData host apps
  = inr {| generatedDate := Date_of_model host;
           appVersion := "1.0.0";
           deviceInfo := {| platform := Platform_OS host;
                            osVersion := Platform_Version host |};
           settings := s;
           stats := calculateStatistics apps;
           riskCategories := categorizeByRisk apps;
           topRiskyApps := getTopRiskyApps apps (Some 10);
           permissionAnalysis := pa;
           dataUsageSummary := summarizeDataUsage apps;
           apps := apps;
           scanResults := r |}.
Proof.
  intros Hs Hr Rs Rr Ha. unfold prepareReportData.
  rewrite Hs, Hr. simpl.
  rewrite (parse_blob_reads _ _ Rs), (parse_blob_reads _ _ Rr). simpl.
  rewrite Ha. reflexivity.
Qed.

(** With no settings stored and a scan history that parses, the model
    holds the empty object and the parsed history. *)
Lemma prepareReportData_reads_blobs_witness :
  exists data,
    prepareReportData
      (host_with_blobs None (Some "{ }")) [appA; appB; appC] = inr data /\
    settings data = empty_object /\
    scanResults data = JObject [].
Proof.
  destruct (analyzePermissions [appA; appB; appC]) as [e|pa] eqn:Ha;
    [discriminate|].
  eexists. split.
  - apply (prepareReportData_reads_blobs
             (host_with_blobs None (Some "{ }")) [appA; appB; appC]
             None (Some "{ }") empty_object (JObject []) pa).
    + reflexivity.
    + reflexivity.
    + constructor.
    + constructor; [discriminate | reflexivity].
    + exact Ha.
  - split; reflexivity.
Defined.

(** C2, the claim as stated fails.  A settings blob that is present and
    is not JSON is not replaced by the empty object: the parse throws, the
    model construction ends with that error, and the caller of the report
    generation receives it under the prefix.  The same request with nothing
    persisted succeeds. *)
Lemma malformed_blob_aborts_report :
  let host := host_with_blobs (Some "{theme: dark}") None in
  parse_blob (Some "{theme: dark}")
    = inl (SyntaxError "Unexpected token in JSON") /\
  (forall fuel, parse_value fuel "{theme: dark}" = None) /\
  prepareReportData host [appA; appB; appC]
    = inl (SyntaxError "Unexpected token in JSON") /\
  generateReport host [appA; appB; appC]
    = inl (Error "PDF generation failed: Unexpected token in JSON") /\
  generateReport host_sample [appA; appB; appC]
    = inr {| filePath :=
               "/storage/emulated/0/Download/MobileMonitor_Report_2026-11-02.pdf";
             numberOfPages := 7;
             report_base64 := EmptyString |}.
Proof.
  cbv zeta. split; [reflexivity|]. split.
  - intros [|[|fuel]]; reflexivity.
  - split; [reflexivity|]. split; reflexivity.
Qed.

(* ================================================================== *)
(** * Further properties of the aggregation functions *)
(* ================================================================== *)

(** ** Statistics Aggregator and Risk Categorizer *)

(** X1.  The four tier counters of the Statistics Aggregator count every
    app once: each is the number of apps of its tier, the default tier
    (noRisk) taking every app whose level is none of HIGH_RISK,
    MEDIUM_RISK, LOW_RISK, and the four add up to totalApps, the length of
    the input. *)
Theorem calculateStatistics_tiers_exhaustive (apps : list App) :
  let s := calculateStatistics apps in
  totalApps s = List.length apps /\
  highRisk s = List.length (filter in_highRisk apps) /\
  mediumRisk s = List.length (filter in_mediumRisk apps) /\
  lowRisk s = List.length (filter in_lowRisk apps) /\
  noRisk s = List.length (filter in_default_tier apps) /\
  highRisk s + mediumRisk s + lowRisk s + noRisk s = totalApps s.
Proof.
  cbv zeta. unfold calculateStatistics.
  cbn [totalApps highRisk mediumRisk lowRisk noRisk].
  destruct (tally_closed_form apps tally0) as (H1 & H2 & H3 & H4 & _).
  rewrite H1, H2, H3, H4. simpl.
  repeat split.
  clear. induction apps as [|app apps IH]; [reflexivity|].
  simpl. unfold in_default_tier at 1.
  pose proof (categorizeByRisk_disjoint app) as (D1 & D2 & _).
  destruct (in_highRisk app) eqn:EH.
  - destruct (D1 eq_refl) as (-> & -> & _). simpl. lia.
  - destruct (in_mediumRisk app) eqn:EM.
    + destruct (D2 eq_refl) as (-> & _). simpl. lia.
    + destruct (in_lowRisk app); simpl; lia.
Qed.

(** X2.  The groups of the Risk Categorizer against the counters of the
    Statistics Aggregator: the highRisk, mediumRisk and lowRisk groups have
    the sizes the counters give; the noRisk group misses exactly the apps
    that carry a riskAnalysis whose level is none of the four names, which
    the noRisk counter includes; no app is in two groups; and every member
    of a group is an app of the input. *)
Theorem categorizeByRisk_against_counters (apps : list App) :
  let c := categorizeByRisk apps in
  let s := calculateStatistics apps in
  List.length (cat_highRisk c) = highRisk s /\
  List.length (cat_mediumRisk c) = mediumRisk s /\
  List.length (cat_lowRisk c) = lowRisk s /\
  List.length (cat_noRisk c) + List.length (filter uncategorized apps)
  = noRisk s /\
  (forall app,
     (In app (cat_highRisk c) ->
        ~ In app (cat_mediumRisk c) /\ ~ In app (cat_lowRisk c) /\
        ~ In app (cat_noRisk c)) /\
     (In app (cat_mediumRisk c) ->
        ~ In app (cat_lowRisk c) /\ ~ In app (cat_noRisk c)) /\
     (In app (cat_lowRisk c) -> ~ In app (cat_noRisk c))) /\
  (forall app,
     In app (cat_highRisk c ++ cat_mediumRisk c ++ cat_lowRisk c
             ++ cat_noRisk c) <->
     In app apps /\ uncategorized app = false).
Proof.
  cbv zeta. unfold calculateStatistics.
  cbn [totalApps highRisk mediumRisk lowRisk noRisk].
  destruct (tally_closed_form apps tally0) as (H1 & H2 & H3 & H4 & _).
  rewrite H1, H2, H3, H4. simpl.
  split; [reflexivity|]. split; [reflexivity|]. split; [reflexivity|].
  split; [|split].
  - clear. induction apps as [|app apps IH]; [reflexivity|].
    pose proof (tiers_exclusive app) as T.
    unfold uncategorized, in_default_tier in *. simpl.
    destruct (in_highRisk app), (in_mediumRisk app), (in_lowRisk app),
      (in_noRisk app); simpl in *; lia.
  - intros app. rewrite !filter_In.
    pose proof (categorizeByRisk_disjoint app) as (D1 & D2 & D3).
    split; [|split].
    + intros [_ E]. destruct (D1 E) as (-> & -> & ->).
      repeat split; intros [_ X]; discriminate.
    + intros [_ E]. destruct (D2 E) as (-> & ->).
      repeat split; intros [_ X]; discriminate.
    + intros [_ E]. rewrite (D3 E). intros [_ X]. discriminate.
  - intros app. rewrite !in_app_iff, !filter_In.
    pose proof (tiers_exclusive app) as T.
    destruct (in_highRisk app), (in_mediumRisk app), (in_lowRisk app),
      (in_noRisk app), (uncategorized app); simpl in T; try lia;
      intuition congruence.
Qed.

(** ** Data totals *)



(** ** Permission Analyzer: what the table adds up to *)

Lemma bump_sum (pc : PermissionCount) (p : string) :
  list_sum (map snd (bump pc p)) = list_sum (map snd pc) + 1.
Proof.
  unfold bump. induction pc as [|[q n] pc IH]; simpl.
  - reflexivity.
  - destruct (String.eqb q p); simpl; [lia|].
    rewrite IH. lia.
Qed.

Lemma bump_all_sum (l : list string) (pc : PermissionCount) :
  list_sum (map snd (fold_left bump l pc))
  = list_sum (map snd pc) + List.length l.
Proof.
  revert pc. induction l as [|p l IH]; intros pc; simpl.
  - lia.
  - rewrite IH, bump_sum. lia.
Qed.

Lemma length_flat_map_sum {A B} (f : A -> list B) (l : list A) :
  List.length (flat_map f l) = list_sum (map (fun a => List.length (f a)) l).
Proof.
  induction l as [|a l IH]; simpl; [reflexivity|].
  rewrite length_app, IH. reflexivity.
Qed.

Lemma first_met_requested (apps : list App) (p : string) :
  In p (first_met apps) -> exists app, In app apps /\ requests p app = true.
Proof.
  unfold first_met. rewrite spread_Set_In, in_flat_map.
  intros (app & Ha & Hp). exists app. split; [exact Ha|].
  rewrite requests_listed. apply includes_In. exact Hp.
Qed.

(** X4.  When the Permission Analyzer returns on apps whose permission
    identifiers are own keys, its table has distinct identifiers, as many
    as there are distinct identifiers in the input; every count is at
    least 1 and at most the number of apps; and the counts add up to the
    number of deduplicated permissions of all the apps, the total that the
    Statistics Aggregator divides by the number of apps to get
    averagePermissions. *)
Theorem permissionCount_adds_up (apps : list App) (pa : PermissionAnalysis) :
  forallb (fun app => forallb own_key (listed app)) apps = true ->
  analyzePermissions apps = inr pa ->
  NoDup (map fst (permissionCount pa)) /\
  List.length (permissionCount pa) = List.length (first_met apps) /\
  (forall p n, In (p, n) (permissionCount pa) ->
     1 <= n <= List.length apps) /\
  list_sum (map snd (permissionCount pa))
  = list_sum (map (fun app => List.length (uniquePermissions app)) apps) /\
  averagePermissions (calculateStatistics apps)
  = if (0 <? List.length apps)%nat
    then Math_round (NumNat (list_sum (map snd (permissionCount pa)))
                     / NumNat (List.length apps))%float
    else 0%float.
Proof.
  intros _ H.
  pose proof (permissionCount_closed_form apps pa H) as C.
  assert (S : list_sum (map snd (permissionCount pa))
              = list_sum (map (fun app => List.length (uniquePermissions app))
                            apps)).
  { pose proof (analyzePermissions_result apps) as R. cbv zeta in R.
    destruct (forallb factors_known apps).
    - destruct R as [pbr R]. rewrite R in H. injection H as <-.
      cbn [permissionCount]. rewrite bump_all_sum. simpl.
      apply length_flat_map_sum.
    - destruct R as [e R]. rewrite R in H. discriminate. }
  split; [|split; [|split; [|split]]].
  - rewrite C, map_map. simpl. rewrite map_id. apply spread_Set_NoDup.
  - rewrite C. apply length_map.
  - intros p n Hin. rewrite C in Hin. apply in_map_iff in Hin.
    destruct Hin as (q & E & Hq). injection E as <- <-. split.
    + destruct (first_met_requested apps q Hq) as (app & Ha & Hr).
      assert (In app (filter (requests q) apps))
        by (apply filter_In; split; assumption).
      destruct (filter (requests q) apps); [contradiction|simpl; lia].
    + apply filter_length_le.
  - exact S.
  - rewrite S. unfold calculateStatistics. cbn [averagePermissions].
    destruct (tally_closed_form apps tally0) as (_ & _ & _ & _ & H5 & _).
    rewrite H5. reflexivity.
Qed.

(** The three apps of the scenario: CAMERA and LOCATION once each (the
    repeated CAMERA of app A counts once), STORAGE once. *)
Lemma permissionCount_adds_up_witness :
  forallb (fun app => forallb own_key (listed app)) [appA; appB; appC] = true /\
  exists pa,
    analyzePermissions [appA; appB; appC] = inr pa /\
    permissionCount pa = [("CAMERA", 1); ("LOCATION", 1); ("STORAGE", 1)] /\
    list_sum (map snd (permissionCount pa)) = 3.
Proof.
  split; [reflexivity|].
  destruct (analyzePermissions [appA; appB; appC]) as [e|pa] eqn:Ha;
    [discriminate|].
  exists pa. split; [reflexivity|].
  destruct (permissionCount_adds_up [appA; appB; appC] pa eq_refl Ha)
    as (_ & _ & _ & S & _).
  split; [|rewrite S; reflexivity].
  vm_compute in Ha. injection Ha as <-. reflexivity.
Defined.

(** ** Permission Analyzer: the permissions flagged by risk factors *)

Lemma uniq_from_swap (seen l1 l2 : list string) :
  uniq_from (seen ++ uniq_from seen l1) l2 = uniq_from (l1 ++ seen) l2.
Proof.
  apply uniq_from_ext. intros x.
  rewrite !in_app_iff, uniq_from_In.
  destruct (in_dec string_dec x seen); tauto.
Qed.

Lemma is_str_exclusive (x : option string) (s t : string) :
  s <> t -> is_str x s = true -> is_str x t = false.
Proof.
  intros Hne. destruct x as [v|]; simpl; [|discriminate].
  intros E. apply String.eqb_eq in E. subst v.
  apply String.eqb_neq. exact Hne.
Qed.

Lemma note_factors_closed_form (fs : list RiskFactor)
    (r r' : PermissionByRisk) :
  forEachM note_factor fs r = inr r' ->
  HIGH r' = HIGH r ++ uniq_from (HIGH r) (permissions_at "HIGH" fs) /\
  MEDIUM r' = MEDIUM r ++ uniq_from (MEDIUM r) (permissions_at "MEDIUM" fs) /\
  LOW r' = LOW r ++ uniq_from (LOW r) (permissions_at "LOW" fs).
Proof.
  unfold permissions_at.
  revert r. induction fs as [|f fs IH]; intros r H; simpl in H.
  - injection H as <-. simpl. rewrite !app_nil_r. auto.
  - destruct (note_factor r f) as [e|r1] eqn:E; simpl in H; [discriminate|].
    destruct (IH r1 H) as (IH1 & IH2 & IH3). clear IH H.
    rewrite IH1, IH2, IH3. clear IH1 IH2 IH3.
    unfold note_factor, byRisk_get, byRisk_push in E. simpl.
    destruct (is_str (level f) "HIGH") eqn:EH.
    { rewrite (is_str_exclusive _ "HIGH" "MEDIUM") by (discriminate || exact EH).
      rewrite (is_str_exclusive _ "HIGH" "LOW") by (discriminate || exact EH).
      simpl. destruct (includes (permission f) (HIGH r)) eqn:EI;
        simpl in E; injection E as <-; simpl; [auto|].
      rewrite <- app_assoc. simpl. repeat split.
      do 2 f_equal. apply uniq_from_ext. intros x.
      rewrite in_app_iff. simpl. tauto. }
    destruct (is_str (level f) "MEDIUM") eqn:EM.
    { rewrite (is_str_exclusive _ "MEDIUM" "LOW") by (discriminate || exact EM).
      simpl. destruct (includes (permission f) (MEDIUM r)) eqn:EI;
        simpl in E; injection E as <-; simpl; [auto|].
      rewrite <- app_assoc. simpl. repeat split.
      do 2 f_equal. apply uniq_from_ext. intros x.
      rewrite in_app_iff. simpl. tauto. }
    destruct (is_str (level f) "LOW") eqn:EL; [|discriminate].
    simpl. destruct (includes (permission f) (LOW r)) eqn:EI;
      simpl in E; injection E as <-; simpl; [auto|].
    rewrite <- app_assoc. simpl. repeat split.
    do 2 f_equal. apply uniq_from_ext. intros x.
    rewrite in_app_iff. simpl. tauto.
Qed.

Lemma analyze_all_closed_form (apps : list App) (a a' : Analysis) :
  forEachM analyze_app apps a = inr a' ->
  let r := a_permissionByRisk a in
  let r' := a_permissionByRisk a' in
  HIGH r' = HIGH r ++ uniq_from (HIGH r) (permissions_at "HIGH" (all_factors apps)) /\
  MEDIUM r'
  = MEDIUM r ++ uniq_from (MEDIUM r) (permissions_at "MEDIUM" (all_factors apps)) /\
  LOW r' = LOW r ++ uniq_from (LOW r) (permissions_at "LOW" (all_factors apps)).
Proof.
  cbv zeta. unfold permissions_at.
  revert a. induction apps as [|app apps IH]; intros a H; simpl in H.
  - injection H as <-. simpl. rewrite !app_nil_r. auto.
  - destruct (analyze_app a app) as [e|a1] eqn:E; simpl in H; [discriminate|].
    destruct (IH a1 H) as (IH1 & IH2 & IH3). clear IH H.
    rewrite IH1, IH2, IH3. clear IH1 IH2 IH3.
    assert (F : forEachM note_factor (or_nil (riskFactors_of app))
                  (a_permissionByRisk a) = inr (a_permissionByRisk a1)).
    { unfold analyze_app in E. destruct (riskFactors_of app) as [fs|]; simpl.
      - destruct (forEachM note_factor fs (a_permissionByRisk a)) as [e|r1];
          simpl in E; [discriminate|]. injection E as <-. reflexivity.
      - injection E as <-. reflexivity. }
    destruct (note_factors_closed_form _ _ _ F) as (F1 & F2 & F3).
    unfold permissions_at in F1, F2, F3.
    rewrite F1, F2, F3. unfold all_factors. simpl.
    rewrite !filter_app, !map_app, !uniq_from_app, !uniq_from_swap,
      <- !app_assoc.
    auto.
Qed.

Lemma analyzePermissions_tiers (apps : list App) (pa : PermissionAnalysis) :
  analyzePermissions apps = inr pa ->
  highRiskPermissions pa = List.length (flagged "HIGH" apps) /\
  mediumRiskPermissions pa = List.length (flagged "MEDIUM" apps) /\
  lowRiskPermissions pa = List.length (flagged "LOW" apps).
Proof.
  intros H. unfold analyzePermissions in H.
  destruct (forEachM analyze_app apps analysis0) as [e|a] eqn:E;
    simpl in H; [discriminate|].
  injection H as <-.
  cbn [highRiskPermissions mediumRiskPermissions lowRiskPermissions].
  destruct (analyze_all_closed_form _ _ _ E) as (H1 & H2 & H3).
  simpl in H1, H2, H3. rewrite H1, H2, H3. auto.
Qed.

(** X5.  When the Permission Analyzer returns, highRiskPermissions,
    mediumRiskPermissions and lowRiskPermissions are the numbers of
    distinct permissions named by the risk factors of level HIGH, MEDIUM
    and LOW of all the apps: a permission that several apps flag at one
    level counts once at that level, and a permission flagged at two
    levels counts at both. *)
Theorem analyzePermissions_flagged (apps : list App) (pa : PermissionAnalysis) :
  analyzePermissions apps = inr pa ->
  highRiskPermissions pa = List.length (flagged "HIGH" apps) /\
  mediumRiskPermissions pa = List.length (flagged "MEDIUM" apps) /\
  lowRiskPermissions pa = List.length (flagged "LOW" apps) /\
  (forall lv p, In p (flagged lv apps) <->
     exists app f, In app apps /\ In f (or_nil (riskFactors_of app)) /\
                   level f = Some lv /\ permission f = p) /\
  (forall lv, NoDup (flagged lv apps)).
Proof.
  intros H.
  destruct (analyzePermissions_tiers apps pa H) as (H1 & H2 & H3).
  split; [exact H1|]. split; [exact H2|]. split; [exact H3|].
  split.
  - intros lv p. unfold flagged, permissions_at, all_factors.
    rewrite spread_Set_In, in_map_iff. split.
    + intros (f & Ep & Hf). apply filter_In in Hf. destruct Hf as [Hf Hl].
      apply in_flat_map in Hf. destruct Hf as (app & Ha & Hf).
      exists app, f. repeat split; try assumption.
      destruct (level f) as [v|]; simpl in Hl; [|discriminate].
      apply String.eqb_eq in Hl. congruence.
    + intros (app & f & Ha & Hf & El & Ep). exists f. split; [exact Ep|].
      apply filter_In. split.
      * apply in_flat_map. exists app. split; assumption.
      * rewrite El. simpl. apply String.eqb_refl.
  - intros lv. apply spread_Set_NoDup.
Qed.

(** Two apps that both flag CAMERA as HIGH. *)
Lemma analyzePermissions_flagged_witness :
  exists pa,
    analyzePermissions [app_factors_known; app_factors_known; appA] = inr pa /\
    flagged "HIGH" [app_factors_known; app_factors_known; appA]
    = ["CAMERA"; "CONTACTS"] /\
    highRiskPermissions pa = 2 /\
    mediumRiskPermissions pa = 0 /\
    lowRiskPermissions pa = 1.
Proof.
  destruct (analyzePermissions [app_factors_known; app_factors_known; appA])
    as [e|pa] eqn:Ha; [discriminate|].
  exists pa. split; [reflexivity|].
  destruct (analyzePermissions_flagged _ pa Ha) as (H1 & H2 & H3 & _).
  rewrite H1, H2, H3. repeat split.
Defined.

(* ================================================================== *)
(** * Further properties of the renderer's helpers *)
(* ================================================================== *)

(** ** Markup escaping *)

Lemma escape_char_cases (c : ascii) :
  (c = "&"%char /\ escape_char c = "&amp;") \/
  (c = "<"%char /\ escape_char c = "&lt;") \/
  (c = ">"%char /\ escape_char c = "&gt;") \/
  (c = ascii_of_nat 34 /\ escape_char c = "&quot;") \/
  (c = "'"%char /\ escape_char c = "&#039;") \/
  (Ascii.eqb c "&" = false /\ markup_char c = false /\
   escape_char c = String c EmptyString).
Proof.
  unfold escape_char, markup_char.
  destruct (Ascii.eqb c "&") eqn:E1;
    [apply Ascii.eqb_eq in E1; auto|].
  destruct (Ascii.eqb c "<") eqn:E2;
    [apply Ascii.eqb_eq in E2; auto|].
  destruct (Ascii.eqb c ">") eqn:E3;
    [apply Ascii.eqb_eq in E3; auto 6|].
  destruct (nat_of_ascii c =? 34)%nat eqn:E4.
  { apply Nat.eqb_eq in E4. right; right; right; left. split; [|reflexivity].
    rewrite <- E4. symmetry. apply ascii_nat_embedding. }
  destruct (Ascii.eqb c "'") eqn:E5;
    [apply Ascii.eqb_eq in E5; auto 8|].
  auto 10.
Qed.

Lemma escape_all_app (a b : string) :
  escape_all (a ++ b) = (escape_all a ++ escape_all b)%string.
Proof.
  induction a as [|c a IH]; simpl; [reflexivity|].
  rewrite IH, append_assoc. reflexivity.
Qed.

Lemma prefix_nil (s : string) : prefix EmptyString s = true.
Proof. destruct s; reflexivity. Qed.

Lemma escape_all_escaped (s : string) : escaped (escape_all s) = true.
Proof.
  induction s as [|c s IH]; [reflexivity|].
  cbn [escape_all].
  destruct (escape_char_cases c)
    as [[-> ->]|[[-> ->]|[[-> ->]|[[-> ->]|[[-> ->]|(E1 & E2 & ->)]]]]];
    try (simpl; rewrite prefix_nil; simpl; exact IH).
  cbn [append escaped]. rewrite E2, E1. exact IH.
Qed.

Lemma entity_at_entities (r : string) :
  entity_at ("&amp;" ++ r) = Some ("&"%char, 4) /\
  entity_at ("&lt;" ++ r) = Some ("<"%char, 3) /\
  entity_at ("&gt;" ++ r) = Some (">"%char, 3) /\
  entity_at ("&quot;" ++ r) = Some (ascii_of_nat 34, 5) /\
  entity_at ("&#039;" ++ r) = Some ("'"%char, 5).
Proof.
  unfold entity_at. simpl. rewrite !prefix_nil. auto.
Qed.

Lemma escape_all_unescape (s : string) : unescape (escape_all s) = s.
Proof.
  unfold unescape. induction s as [|c s IH]; [reflexivity|].
  cbn [escape_all].
  destruct (entity_at_entities (escape_all s)) as (A1 & A2 & A3 & A4 & A5).
  destruct (escape_char_cases c)
    as [[-> ->]|[[-> ->]|[[-> ->]|[[-> ->]|[[-> ->]|(E1 & E2 & ->)]]]]].
  - cbn [append unescape_from] in *. rewrite A1, IH. reflexivity.
  - cbn [append unescape_from] in *. rewrite A2, IH. reflexivity.
  - cbn [append unescape_from] in *. rewrite A3, IH. reflexivity.
  - cbn [append unescape_from] in *. rewrite A4, IH. reflexivity.
  - cbn [append unescape_from] in *. rewrite A5, IH. reflexivity.
  - cbn [append unescape_from].
    assert (N : entity_at (String c (escape_all s)) = None).
    { unfold entity_at. cbn [prefix].
      destruct (Ascii.ascii_dec "&" c) as [<-|_]; [|reflexivity].
      vm_compute in E1. discriminate. }
    rewrite N, IH. reflexivity.
Qed.

Lemma escaped_no_markup (s : string) (c : ascii) :
  escaped s = true -> In c (list_ascii_of_string s) -> markup_char c = false.
Proof.
  induction s as [|d s IH]; simpl; [contradiction|].
  destruct (markup_char d) eqn:M; [discriminate|].
  intros E [<-|H]; [exact M|].
  apply IH; [|exact H].
  destruct (Ascii.eqb d "&"); [|exact E].
  apply andb_true_iff in E. apply E.
Qed.

(** X6.  Whatever text it is given, [escapeHtml] returns a text that holds
    none of the characters < > and the two quotes, and in which every
    ampersand opens one of the entities &amp; &lt; &gt; &quot; &#039;.  A
    missing text and the empty text give the empty text. *)
Theorem escapeHtml_output_is_escaped (text : option string) :
  escaped (escapeHtml text) = true /\
  (forall c, In c (list_ascii_of_string (escapeHtml text)) ->
     c <> "<"%char /\ c <> ">"%char /\ c <> ascii_of_nat 34 /\ c <> "'"%char) /\
  escapeHtml None = EmptyString /\
  escapeHtml (Some EmptyString) = EmptyString.
Proof.
  assert (E : escaped (escapeHtml text) = true).
  { unfold escapeHtml. destruct text as [s|]; [|reflexivity].
    destruct (String.eqb s EmptyString); [reflexivity|].
    apply escape_all_escaped. }
  split; [exact E|]. split; [|split; reflexivity].
  intros c H. pose proof (escaped_no_markup _ c E H) as M.
  unfold markup_char in M.
  repeat split; intros ->; vm_compute in M; discriminate.
Qed.

(** X7.  Escaping loses nothing and works character by character: reading
    the five entities back gives the text that was escaped, so two
    different texts are never escaped to the same text; the escape of a
    concatenation is the concatenation of the escapes; and escaping an
    escaped text escapes its ampersands again (the text < becomes &lt;
    and then &amp;lt;). *)
Theorem escapeHtml_reversible (a b : string) :
  unescape (escapeHtml (Some a)) = a /\
  (escapeHtml (Some a) = escapeHtml (Some b) -> a = b) /\
  escapeHtml (Some (a ++ b)%string)
  = (escapeHtml (Some a) ++ escapeHtml (Some b))%string /\
  unescape (escapeHtml (Some (escapeHtml (Some a)))) = escapeHtml (Some a) /\
  escapeHtml (Some (escapeHtml (Some "<"))) = "&amp;lt;".
Proof.
  assert (E : forall s, escapeHtml (Some s) = escape_all s).
  { intros s. unfold escapeHtml.
    destruct (String.eqb s EmptyString) eqn:Es; [|reflexivity].
    apply String.eqb_eq in Es. subst s. reflexivity. }
  rewrite !E. split; [|split; [|split; [|split]]].
  - apply escape_all_unescape.
  - intros H. rewrite <- (escape_all_unescape a), <- (escape_all_unescape b).
    rewrite H. reflexivity.
  - apply escape_all_app.
  - apply escape_all_unescape.
  - reflexivity.
Qed.

(** ** Permission Knowledge Base *)

Lemma lookup_In (p : string) (m : list (string * PermissionInfo))
    (info : PermissionInfo) :
  lookup p m = Some info -> In (p, info) m.
Proof.
  induction m as [|[k v] m IH]; simpl; [discriminate|].
  destruct (String.eqb k p) eqn:E.
  - apply String.eqb_eq in E. subst k. intros H. injection H as <-. auto.
  - auto.
Qed.

Lemma lookup_NoDup (p : string) (m : list (string * PermissionInfo))
    (info : PermissionInfo) :
  NoDup (map fst m) -> In (p, info) m -> lookup p m = Some info.
Proof.
  induction m as [|[k v] m IH]; simpl; [contradiction|].
  intros N H. inversion N as [|? ? Hk N']; subst.
  destruct (String.eqb k p) eqn:E.
  - apply String.eqb_eq in E. subst k.
    destruct H as [H|H]; [congruence|].
    exfalso. apply Hk. apply in_map_iff. exists (p, info). auto.
  - destruct H as [H|H]; [|auto].
    injection H as -> _. rewrite String.eqb_refl in E. discriminate.
Qed.

Lemma lookup_None (p : string) (m : list (string * PermissionInfo)) :
  lookup p m = None <-> ~ In p (map fst m).
Proof.
  induction m as [|[k v] m IH]; simpl; [tauto|].
  destruct (String.eqb k p) eqn:E.
  - apply String.eqb_eq in E. split; [discriminate|]. tauto.
  - apply String.eqb_neq in E. rewrite IH. tauto.
Qed.

(** X8.  For a permission identifier that is an own key, the Permission
    Knowledge Base answers with the entry of its table under that exact
    identifier, and with level LOW and the description "System permission
    with low risk" for an identifier the table does not hold.  The level
    is always HIGH, MEDIUM or LOW, so in a permission row the badge class
    is the one of that level (never risk-none) and the default level of
    the row is never needed. *)
Theorem getPermissionInfo_levels (perm : string) :
  own_key perm = true ->
  let info := getPermissionInfo perm in
  (forall entry, In (perm, entry) permissionMap -> info = entry) /\
  (~ In perm (map fst permissionMap) ->
     info = {| pi_level := "LOW";
               pi_description := "System permission with low risk" |}) /\
  ((pi_level info = "HIGH" /\ getRiskBadgeClass (pi_level info) = "risk-high") \/
   (pi_level info = "MEDIUM" /\
    getRiskBadgeClass (pi_level info) = "risk-medium") \/
   (pi_level info = "LOW" /\ getRiskBadgeClass (pi_level info) = "risk-low")) /\
  or_str (Some (pi_level info)) "LOW" = pi_level info.
Proof.
  intros _. cbv zeta. unfold getPermissionInfo.
  assert (N : NoDup (map fst permissionMap)).
  { assert (E : spread_Set (map fst permissionMap) = map fst permissionMap)
      by (vm_compute; reflexivity).
    rewrite <- E. apply spread_Set_NoDup. }
  assert (L : forall e, In e permissionMap ->
                let lv := pi_level (snd e) in
                ((lv = "HIGH" /\ getRiskBadgeClass lv = "risk-high") \/
                 (lv = "MEDIUM" /\ getRiskBadgeClass lv = "risk-medium") \/
                 (lv = "LOW" /\ getRiskBadgeClass lv = "risk-low")) /\
                or_str (Some lv) "LOW" = lv).
  { assert (F : forallb (fun e =>
                    let lv := pi_level (snd e) in
                    String.eqb lv "HIGH" || String.eqb lv "MEDIUM"
                    || String.eqb lv "LOW") permissionMap = true)
      by (vm_compute; reflexivity).
    rewrite forallb_forall in F. intros e He. specialize (F e He).
    cbv zeta in *. rewrite !orb_true_iff, !String.eqb_eq in F.
    destruct F as [[-> | ->] | ->]; split; auto. }
  split; [|split].
  - intros entry H. rewrite (lookup_NoDup _ _ _ N H). reflexivity.
  - intros H. apply lookup_None in H. rewrite H. reflexivity.
  - destruct (lookup perm permissionMap) as [info|] eqn:E.
    + apply lookup_In in E. apply (L _ E).
    + simpl. auto.
Qed.

(** CAMERA is in the table, FLASHLIGHT is not. *)
Lemma getPermissionInfo_levels_witness :
  own_key "CAMERA" = true /\ own_key "FLASHLIGHT" = true /\
  getPermissionInfo "CAMERA"
  = {| pi_level := "HIGH";
       pi_description := "Can take photos and videos without your knowledge" |} /\
  getPermissionInfo "FLASHLIGHT"
  = {| pi_level := "LOW";
       pi_description := "System permission with low risk" |}.
Proof.
  split; [reflexivity|]. split; [reflexivity|]. split.
  - apply (proj1 (getPermissionInfo_levels "CAMERA" eq_refl)).
    left. reflexivity.
  - apply (proj1 (proj2 (getPermissionInfo_levels "FLASHLIGHT" eq_refl))).
    intros H. vm_compute in H. intuition discriminate.
Defined.

(** ** Risk labels *)

Lemma replace_first_absent (s rep : string) :
  no_underscore s = true -> replace_first "_" rep s = s.
Proof.
  induction s as [|c s IH]; [reflexivity|].
  cbn [no_underscore append replace_first prefix].
  intros H. apply andb_true_iff in H. destruct H as [Hc Hs].
  destruct (Ascii.ascii_dec "_" c) as [<-|_]; [discriminate|].
  rewrite IH by exact Hs. reflexivity.
Qed.

Lemma replace_first_suffix (s : string) :
  no_underscore s = true ->
  replace_first "_RISK" EmptyString (s ++ "_RISK") = s.
Proof.
  induction s as [|c s IH]; [reflexivity|].
  cbn [no_underscore append replace_first prefix].
  intros H. apply andb_true_iff in H. destruct H as [Hc Hs].
  destruct (Ascii.ascii_dec "_" c) as [<-|_]; [discriminate|].
  rewrite IH by exact Hs. reflexivity.
Qed.

(** X9.  The risk label of the inventory and detail pages, for a level
    text [s] without underscore: an app whose level is [s] followed by
    _RISK is labelled [s], an app whose level is [s] itself is labelled
    [s], and SAFE is shown when that label would be empty or the app has no
    level.  So HIGH_RISK, MEDIUM_RISK and LOW_RISK are labelled HIGH,
    MEDIUM and LOW, and NO_RISK is labelled NO, not SAFE. *)
Theorem riskLabel_of_level (app : App) (s : string) :
  no_underscore s = true ->
  (riskLevel_of app = Some (s ++ "_RISK")%string ->
     riskLabel app = if String.eqb s EmptyString then "SAFE" else s) /\
  (riskLevel_of app = Some s ->
     riskLabel app = if String.eqb s EmptyString then "SAFE" else s) /\
  (riskLevel_of app = None -> riskLabel app = "SAFE").
Proof.
  intros H. unfold riskLabel. split; [|split]; intros ->; simpl.
  - rewrite (replace_first_suffix s H), (replace_first_absent s _ H).
    reflexivity.
  - assert (E : replace_first "_RISK" EmptyString s = s).
    { clear app. induction s as [|c s IH]; [reflexivity|].
      cbn [no_underscore replace_first prefix] in *.
      apply andb_true_iff in H. destruct H as [Hc Hs].
      destruct (Ascii.ascii_dec "_" c) as [<-|_]; [discriminate|].
      rewrite IH by exact Hs. reflexivity. }
    rewrite E, (replace_first_absent s _ H). reflexivity.
  - reflexivity.
Qed.

(** An app assessed as NO_RISK is labelled NO, in the class risk-none. *)
Lemma riskLabel_of_level_witness :
  no_underscore "NO" = true /\
  riskLevel_of app_no_risk = Some "NO_RISK" /\
  riskLabel app_no_risk = "NO" /\
  getRiskClass (riskLevel_of app_no_risk) = "risk-none".
Proof.
  split; [reflexivity|]. split; [reflexivity|]. split; [|reflexivity].
  apply (proj1 (riskLabel_of_level app_no_risk "NO" eq_refl)). reflexivity.
Defined.

(** ** Badges and tiers *)

(** X26.  The badge of an app and the tier the Statistics Aggregator
    counts it in agree: the class of the badge is risk-high, risk-medium or
    risk-low exactly when the app is counted as highRisk, mediumRisk or
    lowRisk, and risk-none exactly when it is counted as noRisk; so the
    highRisk counter is the number of apps with a risk-high badge.  The
    inventory row, the detail page and the high-priority card of an app all
    carry that class. *)
Theorem badge_agrees_with_tier (app : App) :
  let class := getRiskClass (riskLevel_of app) in
  (class = "risk-high" <-> in_highRisk app = true) /\
  (class = "risk-medium" <-> in_mediumRisk app = true) /\
  (class = "risk-low" <-> in_lowRisk app = true) /\
  (class = "risk-none" <-> in_default_tier app = true) /\
  (forall apps,
     highRisk (calculateStatistics apps)
     = List.length
         (filter (fun a => String.eqb (getRiskClass (riskLevel_of a)) "risk-high")
            apps)) /\
  (forall i,
     occurs ("risk-badge " ++ class ++ dq) (inventoryRow app i) /\
     occurs ("risk-badge " ++ class ++ dq) (detailPage app i) /\
     occurs ("risk-badge " ++ class ++ dq) (priorityApp app i)).
Proof.
  cbv zeta.
  assert (C : forall a,
            String.eqb (getRiskClass (riskLevel_of a)) "risk-high"
            = in_highRisk a).
  { intros a. unfold getRiskClass, in_highRisk.
    destruct (is_str (riskLevel_of a) "HIGH_RISK"); [reflexivity|].
    destruct (is_str (riskLevel_of a) "MEDIUM_RISK"); [reflexivity|].
    destruct (is_str (riskLevel_of a) "LOW_RISK"); reflexivity. }
  split; [|split; [|split; [|split; [|split]]]].
  - rewrite <- C. apply iff_sym, String.eqb_eq.
  - unfold getRiskClass, in_mediumRisk.
    pose proof (categorizeByRisk_disjoint app) as (D1 & _).
    unfold in_highRisk, in_mediumRisk in D1.
    destruct (is_str (riskLevel_of app) "HIGH_RISK").
    + destruct (D1 eq_refl) as (-> & _). split; discriminate.
    + destruct (is_str (riskLevel_of app) "MEDIUM_RISK"); [tauto|].
      destruct (is_str (riskLevel_of app) "LOW_RISK"); split; discriminate.
  - unfold getRiskClass, in_lowRisk.
    pose proof (categorizeByRisk_disjoint app) as (D1 & D2 & _).
    unfold in_highRisk, in_mediumRisk, in_lowRisk in D1, D2.
    destruct (is_str (riskLevel_of app) "HIGH_RISK").
    + destruct (D1 eq_refl) as (_ & -> & _). split; discriminate.
    + destruct (is_str (riskLevel_of app) "MEDIUM_RISK").
      * destruct (D2 eq_refl) as (-> & _). split; discriminate.
      * destruct (is_str (riskLevel_of app) "LOW_RISK"); [tauto|].
        split; discriminate.
  - unfold getRiskClass, in_default_tier, in_highRisk, in_mediumRisk,
      in_lowRisk.
    destruct (is_str (riskLevel_of app) "HIGH_RISK"); [split; discriminate|].
    destruct (is_str (riskLevel_of app) "MEDIUM_RISK");
      [split; discriminate|].
    destruct (is_str (riskLevel_of app) "LOW_RISK"); [split; discriminate|].
    simpl. tauto.
  - intros apps. unfold calculateStatistics. cbn [highRisk].
    destruct (tally_closed_form apps tally0) as (H1 & _).
    rewrite H1. simpl. f_equal. apply filter_ext. intros a.
    symmetry. apply C.
  - intros i. split; [|split].
    + unfold inventoryRow. around (getRiskClass (riskLevel_of app)).
    + unfold detailPage. around (getRiskClass (riskLevel_of app)).
    + unfold priorityApp. around (getRiskClass (riskLevel_of app)).
Qed.

(* ================================================================== *)
(** * Further properties of the report request *)
(* ================================================================== *)

(** ** Storage permission *)

(** X10.  [requestStoragePermission] never rejects.  It answers true
    without asking on a platform other than Android and on Android 13 (API
    33) or later; below that it asks, and answers true exactly when the
    dialog resolves to granted: any other answer, and a dialog that
    rejects, give false. *)
Theorem requestStoragePermission_outcome (host : Host) :
  exists granted,
    requestStoragePermission host = inr granted /\
    (granted = true <->
       Platform_OS host <> "android" \/ (33 <= Platform_Version host)%Z \/
       PermissionsAndroid_request host = inr "granted") /\
    forall answer,
      Platform_OS host <> "android" \/ (33 <= Platform_Version host)%Z ->
      requestStoragePermission (with_request host answer) = inr true.
Proof.
  unfold requestStoragePermission. cbn [with_request Platform_OS Platform_Version].
  destruct (String.eqb (Platform_OS host) "android") eqn:EO; simpl.
  - apply String.eqb_eq in EO.
    destruct (33 <=? Platform_Version host)%Z eqn:EV; simpl.
    + apply Z.leb_le in EV. exists true. repeat split; auto.
    + apply Z.leb_gt in EV.
      destruct (PermissionsAndroid_request host) as [e|answer] eqn:ER; simpl.
      * exists false. split; [reflexivity|]. split.
        -- split; [discriminate|]. intros [H|[H|H]];
             [congruence|lia|discriminate].
        -- intros answer [H|H]; [congruence|lia].
      * exists (String.eqb answer "granted"). split; [reflexivity|]. split.
        -- rewrite String.eqb_eq. split.
           ++ intros ->. auto.
           ++ intros [H|[H|H]]; [congruence|lia|congruence].
        -- intros a [H|H]; [congruence|lia].
  - apply String.eqb_neq in EO. exists true. repeat split; auto.
Qed.

(** X11.  On Android below API 33, when the permission dialog does not
    resolve to granted, the report request fails with the message "PDF
    generation failed: Storage permission is required to generate PDF
    reports", whatever the apps, the storage and the PDF generator. *)
Theorem generateReport_permission_refused (host : Host) (apps : list App) :
  Platform_OS host = "android" ->
  (Platform_Version host < 33)%Z ->
  PermissionsAndroid_request host <> inr "granted" ->
  generateReport host apps
  = inl (Error
           "PDF generation failed: Storage permission is required to generate PDF reports").
Proof.
  intros EO EV ER. unfold generateReport, generateReport_body.
  assert (P : requestStoragePermission host = inr false).
  { unfold requestStoragePermission. rewrite EO. simpl.
    apply Z.leb_gt in EV. rewrite EV.
    destruct (PermissionsAndroid_request host) as [e|answer]; simpl;
      [reflexivity|].
    destruct (String.eqb answer "granted") eqn:E; [|reflexivity].
    apply String.eqb_eq in E. congruence. }
  rewrite P, EO. simpl. apply Z.ltb_lt in EV. rewrite EV. reflexivity.
Qed.

(** An Android 10 device on which the user refuses. *)
Lemma generateReport_permission_refused_witness :
  Platform_OS host_refused = "android" /\
  (Platform_Version host_refused < 33)%Z /\
  generateReport host_refused [appA; appB; appC]
  = inl (Error
           "PDF generation failed: Storage permission is required to generate PDF reports").
Proof.
  split; [reflexivity|]. split; [reflexivity|].
  apply generateReport_permission_refused;
    [reflexivity|reflexivity|discriminate].
Defined.

(** ** Errors *)

(** X12.  Every failure of the report request is an Error whose message
    is "PDF generation failed: " followed by the message of what failed;
    the class of the original error (a SyntaxError of JSON.parse, a
    TypeError of the Permission Analyzer) is not kept.  What failed is the
    refused storage permission, the construction of the report model, the
    PDF generator, or the copy of the file to the download directory. *)
Theorem generateReport_errors_wrapped (host : Host) (apps : list App)
    (e : Exn) :
  generateReport host apps = inl e ->
  exists cause,
    e = Error ("PDF generation failed: " ++ message cause)%string /\
    (cause = Error "Storage permission is required to generate PDF reports" \/
     prepareReportData host apps = inl cause \/
     exists model,
       prepareReportData host apps = inr model /\
       let options := report_options host (generateHTMLContent model) in
       (generatePDF host options = inl cause \/
        exists file,
          generatePDF host options = inr file /\
          Platform_OS host = "android" /\
          contains "/Download/" (file_filePath file) = false /\
          RNFS_copyFile host (file_filePath file)
            (RNFS_DownloadDirectoryPath host ++ "/" ++ report_fileName host)
          = inl cause)).
Proof.
  unfold generateReport. intros H.
  destruct (generateReport_body host apps) as [cause|r] eqn:B; simpl in H;
    [|discriminate].
  injection H as <-. exists cause. split; [reflexivity|].
  unfold generateReport_body in B.
  destruct (requestStoragePermission_returns host) as [granted G].
  rewrite G in B. cbn [bind] in B.
  destruct (negb granted && String.eqb (Platform_OS host) "android"
            && (Platform_Version host <? 33)%Z).
  { injection B as <-. left. reflexivity. }
  right.
  destruct (prepareReportData host apps) as [c1|model]; cbn [bind] in B.
  { injection B as <-. left. reflexivity. }
  right. exists model. split; [reflexivity|]. cbv zeta.
  change (generatePDF host _) with
    (generatePDF host (report_options host (generateHTMLContent model))) in B.
  destruct (generatePDF host (report_options host (generateHTMLContent model)))
    as [c2|file]; cbn [bind] in B.
  { injection B as <-. left. reflexivity. }
  right. exists file. split; [reflexivity|].
  destruct (String.eqb (Platform_OS host) "android") eqn:EO;
    cbn [andb] in B; [|discriminate].
  destruct (contains "/Download/" (file_filePath file)) eqn:EC;
    cbn [negb] in B; [discriminate|].
  apply String.eqb_eq in EO. split; [exact EO|]. split; [reflexivity|].
  unfold report_fileName.
  destruct (RNFS_copyFile host (file_filePath file) _) as [c3|u];
    cbn [bind] in B; [|discriminate].
  injection B as <-. reflexivity.
Qed.

(** A device whose storage cannot be read. *)
Lemma generateReport_errors_wrapped_witness :
  generateReport host_storage_down [appA]
  = inl (Error "PDF generation failed: storage unavailable") /\
  exists cause,
    Error "PDF generation failed: storage unavailable"
    = Error ("PDF generation failed: " ++ message cause)%string.
Proof.
  split; [reflexivity|].
  destruct (generateReport_errors_wrapped host_storage_down [appA] _ eq_refl)
    as (cause & E & _).
  exists cause. exact E.
Defined.

(** ** The file that is returned *)

(** X13.  When the report request succeeds, the report model was built,
    the PDF generator was given the rendered document, the file name
    MobileMonitor_Report_ followed by the date part of the ISO time and
    .pdf, the download directory on Android and the document directory
    elsewhere, and an A4 page of 595 by 842 points.  The path returned is
    the path of the generated file, except on Android when that path does
    not contain /Download/: the file was then copied into the download
    directory under the same file name, and the path of the copy is
    returned.  A missing page count is returned as 0 and a missing base64
    text as the empty text. *)
Theorem generateReport_success (host : Host) (apps : list App) (r : Report) :
  generateReport host apps = inr r ->
  exists model file,
    prepareReportData host apps = inr model /\
    generatePDF host
      {| html := generateHTMLContent model;
         fileName := report_fileName host;
         directory := (if String.eqb (Platform_OS host) "android"
                       then RNFS_DownloadDirectoryPath host
                       else RNFS_DocumentDirectoryPath host);
         base64 := false; width := 595; height := 842; padding := 40;
         bgColor := "#FFFFFF" |}
    = inr file /\
    numberOfPages r
    = match file_numberOfPages file with Some n => n | None => 0 end /\
    report_base64 r
    = match file_base64 file with Some b => b | None => EmptyString end /\
    (if String.eqb (Platform_OS host) "android"
        && negb (contains "/Download/" (file_filePath file))
     then
       filePath r
       = (RNFS_DownloadDirectoryPath host ++ "/" ++ report_fileName host)%string
       /\ RNFS_copyFile host (file_filePath file) (filePath r) = inr tt
     else filePath r = file_filePath file).
Proof.
  unfold generateReport. intros H.
  destruct (generateReport_body host apps) as [cause|r'] eqn:B; simpl in H;
    [discriminate|].
  injection H as ->.
  unfold generateReport_body in B.
  destruct (requestStoragePermission host) as [c0|granted]; cbn [bind] in B;
    [discriminate|].
  destruct (negb granted && String.eqb (Platform_OS host) "android"
            && (Platform_Version host <? 33)%Z); [discriminate|].
  destruct (prepareReportData host apps) as [c1|model]; cbn [bind] in B;
    [discriminate|].
  exists model.
  change (generatePDF host _) with
    (generatePDF host (report_options host (generateHTMLContent model))) in B.
  change (generatePDF host _) with
    (generatePDF host (report_options host (generateHTMLContent model))).
  destruct (generatePDF host (report_options host (generateHTMLContent model)))
    as [c2|file]; cbn [bind] in B; [discriminate|].
  exists file. split; [reflexivity|]. split; [reflexivity|].
  fold (report_fileName host) in B.
  destruct (String.eqb (Platform_OS host) "android"
            && negb (contains "/Download/" (file_filePath file))).
  - destruct (RNFS_copyFile host (file_filePath file) _) as [c3|[]] eqn:C;
      cbn [bind] in B; [discriminate|].
    injection B as <-. cbn [numberOfPages report_base64 filePath].
    split; [reflexivity|]. split; [|split; [reflexivity|exact C]].
    unfold or_str. destruct (file_base64 file) as [b|]; [|reflexivity].
    destruct (String.eqb b EmptyString) eqn:Eb; [|reflexivity].
    apply String.eqb_eq in Eb. congruence.
  - cbn [bind] in B. injection B as <-.
    cbn [numberOfPages report_base64 filePath].
    split; [reflexivity|]. split; [|reflexivity].
    unfold or_str. destruct (file_base64 file) as [b|]; [|reflexivity].
    destruct (String.eqb b EmptyString) eqn:Eb; [|reflexivity].
    apply String.eqb_eq in Eb. congruence.
Qed.

(** An Android device whose PDF generator writes to a cache directory:
    the report is copied to the download directory. *)
Lemma generateReport_success_witness :
  exists r,
    generateReport host_cache [appA; appB; appC] = inr r /\
    filePath r
    = "/storage/emulated/0/Downloads/MobileMonitor_Report_2026-11-02.pdf" /\
    numberOfPages r = 3.
Proof.
  destruct (generateReport host_cache [appA; appB; appC]) as [e|r] eqn:G.
  - exfalso. vm_compute in G. discriminate.
  - exists r. split; [reflexivity|].
    destruct (generateReport_success host_cache _ r G)
      as (model & file & _ & F & N & _ & P).
    cbn [host_cache generatePDF] in F. injection F as <-.
    cbn in N, P. destruct P as [P _]. split; [|exact N].
    rewrite P. reflexivity.
Defined.

(** ** What the platform decides *)

(** X14.  On a platform other than Android neither the permission dialog
    nor the file copy has any part in the report request: the outcome is
    the same whatever they would answer.  On Android 13 (API 33) or later
    the permission dialog has no part in it. *)
Theorem generateReport_platform (host : Host) (apps : list App)
    (answer : Result string) (copy : string -> string -> Result unit) :
  (Platform_OS host <> "android" ->
     generateReport (with_copyFile (with_request host answer) copy) apps
     = generateReport host apps) /\
  (Platform_OS host = "android" -> (33 <= Platform_Version host)%Z ->
     generateReport (with_request host answer) apps
     = generateReport host apps).
Proof.
  split.
  - intros EO. apply String.eqb_neq in EO.
    unfold generateReport, generateReport_body, requestStoragePermission,
      prepareReportData, getDownloadsDirectory.
    cbn [with_copyFile with_request Platform_OS Platform_Version
         PermissionsAndroid_request AsyncStorage_getItem Date_of_model
         Date_of_file RNFS_DownloadDirectoryPath RNFS_DocumentDirectoryPath
         RNFS_copyFile generatePDF].
    rewrite EO. reflexivity.
  - intros EO EV. apply Z.leb_le in EV.
    unfold generateReport, generateReport_body, requestStoragePermission,
      prepareReportData, getDownloadsDirectory.
    cbn [with_request Platform_OS Platform_Version
         PermissionsAndroid_request AsyncStorage_getItem Date_of_model
         Date_of_file RNFS_DownloadDirectoryPath RNFS_DocumentDirectoryPath
         RNFS_copyFile generatePDF].
    rewrite EO, EV. reflexivity.
Qed.

(** An iPhone, whatever the dialog and the copy would answer. *)
Lemma generateReport_platform_witness :
  Platform_OS host_ios <> "android" /\
  generateReport
    (with_copyFile (with_request host_ios (inr "denied")) (fun _ _ => inr tt))
    [appA; appB; appC]
  = generateReport host_ios [appA; appB; appC].
Proof.
  assert (H : Platform_OS host_ios <> "android") by discriminate.
  split; [exact H|].
  apply (proj1 (generateReport_platform host_ios [appA; appB; appC]
                  (inr "denied") (fun _ _ => inr tt))).
  exact H.
Defined.

(** ** What the document depends on *)

(** X15.  The document of a report model built by [prepareReportData] is
    determined by the apps, the time of the model and the name of the
    platform: it is the head and the pages rendered from the aggregates of
    the apps.  The persisted settings and scan results, the version of the
    platform and the groups of the Risk Categorizer are part of the model
    and appear nowhere in the document. *)
Theorem document_of_model (host : Host) (apps : list App)
    (model : ReportModel) :
  prepareReportData host apps = inr model ->
  exists permissionAnalysis,
    analyzePermissions apps = inr permissionAnalysis /\
    forall anyVersion : Z,
      let stats := calculateStatistics apps in
      let device :=
        {| platform := Platform_OS host; osVersion := anyVersion |} in
      generateHTMLContent model
      = (documentHead
         ++ coverPage (Date_of_model host) "1.0.0" device stats
         ++ overviewPage stats permissionAnalysis
         ++ priorityAppsSection (getTopRiskyApps apps (Some 10))
         ++ dataUsagePage (summarizeDataUsage apps)
         ++ inventoryPage apps
         ++ detailPages apps
         ++ recommendationsPage (Date_of_model host) "1.0.0" device stats
              permissionAnalysis)%string.
Proof.
  unfold prepareReportData. intros H.
  destruct (AsyncStorage_getItem host "appSettings") as [e1|b1];
    cbn [bind] in H; [discriminate|].
  destruct (AsyncStorage_getItem host "scanResults") as [e2|b2];
    cbn [bind] in H; [discriminate|].
  destruct (parse_blob b1) as [e3|v1]; cbn [bind] in H; [discriminate|].
  destruct (parse_blob b2) as [e4|v2]; cbn [bind] in H; [discriminate|].
  destruct (analyzePermissions apps) as [e5|pa]; cbn [bind] in H;
    [discriminate|].
  injection H as <-. exists pa. split; [reflexivity|].
  intros anyVersion. reflexivity.
Qed.

(** The scenario on two devices that differ in what they have stored. *)
Lemma document_of_model_witness :
  exists m1 m2,
    prepareReportData (host_with_blobs None None) [appA; appB; appC] = inr m1 /\
    prepareReportData
      (host_with_blobs (Some "{}") (Some "[1, 2]")) [appA; appB; appC]
    = inr m2 /\
    scanResults m1 <> scanResults m2 /\
    generateHTMLContent m1 = generateHTMLContent m2.
Proof.
  destruct (prepareReportData (host_with_blobs None None) [appA; appB; appC])
    as [e|m1] eqn:P1; [exfalso; vm_compute in P1; discriminate|].
  destruct (prepareReportData
              (host_with_blobs (Some "{}") (Some "[1, 2]")) [appA; appB; appC])
    as [e|m2] eqn:P2; [exfalso; vm_compute in P2; discriminate|].
  exists m1, m2. split; [reflexivity|]. split; [reflexivity|].
  destruct (document_of_model _ _ _ P1) as (pa1 & A1 & D1).
  destruct (document_of_model _ _ _ P2) as (pa2 & A2 & D2).
  split.
  - vm_compute in P1, P2. injection P1 as <-. injection P2 as <-.
    discriminate.
  - rewrite (D1 0%Z), (D2 0%Z). rewrite A1 in A2. injection A2 as <-.
    reflexivity.
Defined.

(** ** The name of the file *)

Lemma before_stops (c : ascii) (d t : string) :
  (forall x, In x (list_ascii_of_string d) -> x <> c) ->
  before c (d ++ String c t) = d.
Proof.
  induction d as [|x d IH]; simpl; intros H.
  - rewrite Ascii.eqb_refl. reflexivity.
  - destruct (Ascii.eqb x c) eqn:E.
    + apply Ascii.eqb_eq in E. exfalso. apply (H x); auto.
    + rewrite IH by auto. reflexivity.
Qed.

(** X27.  The file is named after the date part of the ISO time of the
    request: for a time written d T t, where d holds no T, the name given
    to the PDF generator is MobileMonitor_Report_d.pdf; the time of day t
    is not part of it, so two requests with the same date part ask for the
    same file name. *)
Theorem report_named_after_date (host host' : Host) (d t t' : string) :
  (forall x, In x (list_ascii_of_string d) -> x <> "T"%char) ->
  toISOString (Date_of_file host) = (d ++ "T" ++ t)%string ->
  toISOString (Date_of_file host') = (d ++ "T" ++ t')%string ->
  report_fileName host = ("MobileMonitor_Report_" ++ d ++ ".pdf")%string /\
  report_fileName host' = report_fileName host.
Proof.
  intros Hd E E'. unfold report_fileName. rewrite E, E'.
  change ("T" ++ t)%string with (String "T" t).
  change ("T" ++ t')%string with (String "T" t').
  rewrite !before_stops by exact Hd.
  split; reflexivity.
Qed.

(** Two requests of 2 November 2026. *)
Lemma report_named_after_date_witness :
  report_fileName host_sample = "MobileMonitor_Report_2026-11-02.pdf" /\
  report_fileName host_evening = report_fileName host_sample.
Proof.
  assert (Hd : forall x, In x (list_ascii_of_string "2026-11-02") ->
                 x <> "T"%char).
  { intros x H. simpl in H.
    repeat (destruct H as [<-|H]; [discriminate|]). contradiction. }
  destruct (report_named_after_date host_sample host_evening "2026-11-02"
              "10:00:00.000Z" "21:30:00.000Z" Hd eq_refl eq_refl)
    as (H1 & H2).
  split; [exact H1|exact H2].
Defined.

(* ================================================================== *)
(** * Further properties of the rankings *)
(* ================================================================== *)

Lemma sort_sorted_id {A} (key : A -> Z) (l : list A) :
  StronglySorted (ge_key key) l -> sort (desc key) l = l.
Proof.
  induction 1 as [|x l Hs IH Hx]; simpl; [reflexivity|].
  rewrite IH. destruct l as [|y l]; [reflexivity|].
  simpl. inversion Hx as [|? ? Hy _]; subst.
  unfold ge_key in Hy. unfold desc.
  destruct (key y - key x <=? 0)%Z eqn:E; [reflexivity|].
  apply Z.leb_gt in E. lia.
Qed.

Lemma filter_all {A} (f : A -> bool) (l : list A) :
  (forall x, In x l -> f x = true) -> filter f l = l.
Proof.
  induction l as [|x l IH]; simpl; intros H; [reflexivity|].
  rewrite (H x) by auto. rewrite IH by auto. reflexivity.
Qed.

Lemma filter_none {A} (f : A -> bool) (l : list A) :
  existsb f l = false -> filter f l = [].
Proof.
  induction l as [|x l IH]; simpl; [reflexivity|].
  destruct (f x); simpl; [discriminate|exact IH].
Qed.

Lemma ranked_analysed (apps : list App) (m : nat) (app : App) :
  In app (getTopRiskyApps apps (Some m)) ->
  In app apps /\ has_riskAnalysis app = true.
Proof.
  unfold getTopRiskyApps, slice0. intros H.
  apply In_firstn in H.
  eapply Permutation_in in H; [|apply sort_perm].
  apply filter_In in H. exact H.
Qed.

(** X16.  Ranking again changes nothing, and a shorter ranking is the
    beginning of a longer one: for n <= m, the top n of the apps are the
    first n of their top m, and also the top n of their top m.  A limit of
    0 gives no app, and so does an input in which no app carries a
    riskAnalysis. *)
Theorem getTopRiskyApps_prefix (apps : list App) (n m : nat) :
  n <= m ->
  getTopRiskyApps apps (Some n) = firstn n (getTopRiskyApps apps (Some m)) /\
  getTopRiskyApps (getTopRiskyApps apps (Some m)) (Some n)
  = getTopRiskyApps apps (Some n) /\
  getTopRiskyApps apps (Some 0) = [] /\
  (existsb has_riskAnalysis apps = false ->
     getTopRiskyApps apps (Some m) = []).
Proof.
  intros Hnm.
  assert (P : getTopRiskyApps apps (Some n)
              = firstn n (getTopRiskyApps apps (Some m))).
  { unfold getTopRiskyApps, slice0. rewrite firstn_firstn.
    rewrite Nat.min_l by exact Hnm. reflexivity. }
  split; [exact P|]. split; [|split].
  - rewrite P. unfold getTopRiskyApps at 1. unfold slice0. f_equal.
    rewrite filter_all by (intros x Hx; apply (ranked_analysed apps m x Hx)).
    apply sort_sorted_id. unfold getTopRiskyApps, slice0, by_score_desc.
    apply firstn_sorted, sort_sorted.
  - reflexivity.
  - intros H. unfold getTopRiskyApps, slice0.
    rewrite (filter_none _ _ H). simpl. apply firstn_nil.
Qed.

(** The first 5 of the 10 apps of the report model, in the scenario. *)
Lemma getTopRiskyApps_prefix_witness :
  5 <= 10 /\
  getTopRiskyApps [appC; appB; appA] (Some 5) = [appA; appB] /\
  getTopRiskyApps (getTopRiskyApps [appC; appB; appA] (Some 10)) (Some 5)
  = [appA; appB].
Proof.
  split; [lia|].
  destruct (getTopRiskyApps_prefix [appC; appB; appA] 5 10 ltac:(lia))
    as (_ & H & _).
  split; [reflexivity|]. rewrite H. reflexivity.
Defined.

(* ================================================================== *)
(** * Further properties of the pages *)
(* ================================================================== *)



(** ** High-priority apps *)

(** X17.  The page of high-priority apps is in the document exactly when
    some app carries a riskAnalysis.  It then shows one card for each of
    the first 5 apps of the ranking by descending riskScore, numbered
    from 1 in that order; the report model keeps 10. *)
Theorem priorityApps_cards (apps : list App) :
  let analysed := filter has_riskAnalysis apps in
  let top := getTopRiskyApps apps (Some 10) in
  (forall host model,
     prepareReportData host apps = inr model -> topRiskyApps model = top) /\
  priorityApps top = mapi priorityApp (getTopRiskyApps apps (Some 5)) /\
  List.length (priorityApps top) = Nat.min 5 (List.length analysed) /\
  (forall i,
     nth_error (priorityApps top) i
     = option_map (fun app => priorityApp app i)
         (nth_error (getTopRiskyApps apps (Some 5)) i)) /\
  (forall app i, occurs (string_of_nat (i + 1) ++ ". ") (priorityApp app i)) /\
  (if existsb has_riskAnalysis apps
   then occurs (priorityAppsPage top) (priorityAppsSection top)
   else priorityAppsSection top = priorityAppsSection []).
Proof.
  cbv zeta.
  assert (F : firstn 5 (getTopRiskyApps apps (Some 10))
              = getTopRiskyApps apps (Some 5)).
  { unfold getTopRiskyApps, slice0. rewrite firstn_firstn. reflexivity. }
  split; [|split; [|split; [|split; [|split]]]].
  - intros host model H. unfold prepareReportData in H.
    destruct (AsyncStorage_getItem host "appSettings") as [e1|b1];
      cbn [bind] in H; [discriminate|].
    destruct (AsyncStorage_getItem host "scanResults") as [e2|b2];
      cbn [bind] in H; [discriminate|].
    destruct (parse_blob b1) as [e3|v1]; cbn [bind] in H; [discriminate|].
    destruct (parse_blob b2) as [e4|v2]; cbn [bind] in H; [discriminate|].
    destruct (analyzePermissions apps) as [e5|pa]; cbn [bind] in H;
      [discriminate|].
    injection H as <-. reflexivity.
  - unfold priorityApps, slice0. rewrite F. reflexivity.
  - unfold priorityApps, slice0, mapi. rewrite F, mapi_from_length.
    unfold getTopRiskyApps, slice0, by_score_desc.
    rewrite length_firstn, sort_length. reflexivity.
  - intros i. unfold priorityApps, slice0, mapi. rewrite F, mapi_from_nth.
    reflexivity.
  - intros app i. unfold priorityApp.
    skip_to (string_of_nat (i + 1)).
    exists EmptyString. eexists. simpl. rewrite append_assoc. reflexivity.
  - destruct (existsb has_riskAnalysis apps) eqn:E.
    + unfold priorityAppsSection.
      assert (L : (0 <? List.length (getTopRiskyApps apps (Some 10)))%nat
                  = true).
      { apply Nat.ltb_lt. unfold getTopRiskyApps, slice0, by_score_desc.
        rewrite length_firstn, sort_length.
        apply existsb_exists in E. destruct E as (app & Ha & Hr).
        assert (In app (filter has_riskAnalysis apps))
          by (apply filter_In; auto).
        destruct (filter has_riskAnalysis apps); [contradiction|simpl; lia]. }
      rewrite L. apply occurs_app_r, occurs_app_l, occurs_refl.
    + unfold getTopRiskyApps, slice0. rewrite (filter_none _ _ E).
      reflexivity.
Qed.

(** ** Data usage *)

(** X18.  The figure that the data-usage page prints as "Apps with Data
    Usage" is the number of rows of its table: the number of apps with
    dataUsage.total > 0, and 10 when there are more than 10 of them.  The
    table is replaced by the text "No data usage information available."
    exactly when no app has a positive total. *)
Theorem dataUsagePage_consumers (apps : list App) :
  let summary := summarizeDataUsage apps in
  let users := filter has_usage apps in
  List.length (topDataConsumers summary) = Nat.min 10 (List.length users) /\
  List.length (consumerRows summary) = Nat.min 10 (List.length users) /\
  occurs (">" ++ string_of_nat (Nat.min 10 (List.length users)) ++ "</div>")
    (dataUsagePage summary) /\
  (if existsb has_usage apps
   then occurs (consumersTable summary) (dataUsagePage summary) /\
        occurs (join (consumerRows summary)) (consumersTable summary)
   else topDataConsumers summary = [] /\
        occurs "<p>No data usage information available.</p>"
          (dataUsagePage summary)).
Proof.
  cbv zeta.
  assert (L : List.length (topDataConsumers (summarizeDataUsage apps))
              = Nat.min 10 (List.length (filter has_usage apps))).
  { unfold summarizeDataUsage. rewrite add_usage_closed_form.
    cbn [topDataConsumers]. unfold slice0, by_total_desc.
    rewrite length_firstn, sort_length, length_map. reflexivity. }
  split; [exact L|]. split; [|split].
  - unfold consumerRows. rewrite length_map. exact L.
  - rewrite <- L. unfold dataUsagePage.
    around (string_of_nat
              (List.length (topDataConsumers (summarizeDataUsage apps)))).
  - destruct (existsb has_usage apps) eqn:E.
    + assert (P : (0 <? List.length
                           (topDataConsumers (summarizeDataUsage apps)))%nat
                  = true).
      { rewrite L. apply Nat.ltb_lt.
        apply existsb_exists in E. destruct E as (app & Ha & Hu).
        assert (In app (filter has_usage apps)) by (apply filter_In; auto).
        destruct (filter has_usage apps); [contradiction|simpl; lia]. }
      split.
      * unfold dataUsagePage. rewrite P.
        skip_to (consumersTable (summarizeDataUsage apps)).
        apply occurs_app_l, occurs_refl.
      * unfold consumersTable.
        skip_to (join (consumerRows (summarizeDataUsage apps))).
        apply occurs_app_l, occurs_refl.
    + assert (N : topDataConsumers (summarizeDataUsage apps) = []).
      { apply length_zero_iff_nil. rewrite L, (filter_none _ _ E).
        reflexivity. }
      split; [exact N|]. unfold dataUsagePage. rewrite N. simpl List.length.
      cbn [Nat.ltb Nat.leb].
      skip_to "<p>No data usage information available.</p>".
      apply occurs_app_l, occurs_refl.
Qed.

(** ** Detail pages *)


(** ** What is written without escaping *)

(** X20.  The category of an app is written into its inventory row and
    its detail page as it is, not through [escapeHtml], and so is the
    name of a permission in the table of most common permissions, whereas
    the permission rows of a detail page escape it.  A category <b>Games</b>
    is in the inventory row with its markup. *)
Theorem category_written_unescaped :
  (forall app i,
     occurs ("<td>" ++ or_str (category app) "Other" ++ "</td>")
       (inventoryRow app i) /\
     occurs (">" ++ or_str (category app) "Other" ++ "</div>")
       (detailPage app i)) /\
  (forall stats p,
     occurs ("<td><strong>" ++ mc_permission p ++ "</strong></td>")
       (commonPermissionRow stats p)) /\
  (forall perm i,
     occurs ("<td><strong>" ++ escapeHtml (Some perm) ++ "</strong></td>")
       (permissionRow perm i)) /\
  occurs "<td><b>Games</b></td>" (inventoryRow app_bold 0).
Proof.
  assert (H : forall app i,
            occurs ("<td>" ++ or_str (category app) "Other" ++ "</td>")
              (inventoryRow app i)).
  { intros app i. unfold inventoryRow. around (or_str (category app) "Other"). }
  split; [|split; [|split]].
  - intros app i. split; [apply H|].
    unfold detailPage. around (or_str (category app) "Other").
  - intros stats p. unfold commonPermissionRow. around (mc_permission p).
  - intros perm i. unfold permissionRow. cbv zeta.
    around (escapeHtml (Some perm)).
  - apply (H app_bold 0).
Qed.

(** ** The report of no app *)

(** X21.  For an empty app sequence, whenever the stored blobs can be
    read, the report model is built: all counters are 0, the two averages
    are 0 and not the outcome of a division by 0, and the totals are
    "0 Bytes".  The document has no page of high-priority apps, no row in
    the inventory, no detail page, the text "No data usage information
    available.", bars of width 0%, and the status "Good - No high-risk
    apps detected". *)
Theorem report_of_no_app (host : Host) (settingsBlob scanBlob : option string)
    (settings scanResults : Json) :
  AsyncStorage_getItem host "appSettings" = inr settingsBlob ->
  AsyncStorage_getItem host "scanResults" = inr scanBlob ->
  blob_reads settingsBlob settings -> blob_reads scanBlob scanResults ->
  exists model,
    prepareReportData host [] = inr model /\
    stats model
    = {| totalApps := 0; highRisk := 0; mediumRisk := 0; lowRisk := 0;
         noRisk := 0; riskPercentage := 0; averagePermissions := 0;
         totalDataUsage := "0 Bytes" |} /\
    permissionAnalysis model
    = {| permissionCount := []; mostCommon := []; highRiskPermissions := 0;
         mediumRiskPermissions := 0; lowRiskPermissions := 0 |} /\
    dataUsageSummary model
    = {| totalWifi := "0 Bytes"; totalMobile := "0 Bytes";
         totalCombined := "0 Bytes"; topDataConsumers := [] |} /\
    topRiskyApps model = [] /\
    priorityApps (topRiskyApps model) = [] /\
    inventoryRows (apps model) = [] /\
    inventoryClosing (apps model) = EmptyString /\
    detailPages (apps model) = detailPages [] /\
    occurs "<p>No data usage information available.</p>"
      (dataUsagePage (dataUsageSummary model)) /\
    (forall label value color,
       occurs "width: 0%;" (generateBarChart label value 0 color)) /\
    occurs "Good - No high-risk apps detected"
      (recommendationsPage (generatedDate model) (appVersion model)
         (deviceInfo model) (stats model) (permissionAnalysis model)).
Proof.
  intros G1 G2 R1 R2. unfold prepareReportData.
  rewrite G1, G2. cbn [bind].
  rewrite (parse_blob_reads _ _ R1), (parse_blob_reads _ _ R2). cbn [bind].
  eexists. split; [reflexivity|].
  cbn [stats permissionAnalysis dataUsageSummary topRiskyApps apps
       generatedDate appVersion deviceInfo].
  repeat (split; [reflexivity|]).
  split; [|split].
  - unfold dataUsagePage.
    assert (E : topDataConsumers (summarizeDataUsage []) = [])
      by reflexivity.
    rewrite E. cbn [List.length Nat.ltb Nat.leb].
    skip_to "<p>No data usage information available.</p>".
    apply occurs_app_l, occurs_refl.
  - intros label value color. unfold generateBarChart. cbv zeta.
    cbn [Nat.ltb Nat.leb].
    assert (E : Number_toString 0 = "0") by (vm_compute; reflexivity).
    rewrite E. change "width: 0%;" with ("width: " ++ "0" ++ "%;")%string.
    around "0".
  - unfold recommendationsPage.
    assert (E : highRisk (calculateStatistics []) = 0) by reflexivity.
    rewrite E. cbn [Nat.eqb].
    skip_to "✅ Good - No high-risk apps detected".
    apply occurs_app_l, contains_occurs. reflexivity.
Qed.

(** No app on a device with nothing stored. *)
Lemma report_of_no_app_witness :
  exists model,
    prepareReportData host_sample [] = inr model /\
    totalApps (stats model) = 0 /\
    totalDataUsage (stats model) = "0 Bytes" /\
    priorityApps (topRiskyApps model) = [].
Proof.
  destruct (report_of_no_app host_sample None None empty_object empty_object
              eq_refl eq_refl reads_absent reads_absent)
    as (model & P & S & _ & _ & T & _).
  exists model. split; [exact P|]. rewrite S, T. repeat split.
Defined.

(** ** Advice *)

(** Three pieces written between the end of one literal and the start of
    the next. *)
Lemma occurs_infix3 (x n1 n2 n3 y a b : string) :
  ends_with x a = true -> prefix y b = true ->
  occurs (x ++ n1 ++ n2 ++ n3 ++ y) (a ++ n1 ++ n2 ++ n3 ++ b).
Proof.
  intros Ha Hb.
  pose proof (occurs_infix x (n1 ++ n2 ++ n3) y a b Ha Hb) as H.
  rewrite !append_assoc in H. exact H.
Qed.

Ltac around3 :=
  first [ apply occurs_infix3; reflexivity | apply occurs_app_r; around3 ].

(** X22.  The advice of the report follows the number n of apps whose
    level is HIGH_RISK.  The status is "Good - No high-risk apps detected"
    for n = 0, "Fair - Some concerns to address" for n = 1 or 2 and "Needs
    Attention - Multiple high-risk apps" above; the next step is "Continue
    monitoring regularly" for n = 0 and "Review high-risk apps
    immediately" otherwise; and for n > 0 both the cover and the
    recommendations page name n, with "app" for n = 1 and "apps" above. *)
Theorem advice_follows_high_risk (apps : list App) (generatedDate : Date)
    (appVersion : string) (deviceInfo : DeviceInfo)
    (permissionAnalysis : PermissionAnalysis) :
  let n := List.length (filter in_highRisk apps) in
  let stats := calculateStatistics apps in
  let cover := coverPage generatedDate appVersion deviceInfo stats in
  let page :=
    recommendationsPage generatedDate appVersion deviceInfo stats
      permissionAnalysis in
  let plural := if (1 <? n)%nat then "s" else EmptyString in
  occurs (if (n =? 0)%nat then "Good - No high-risk apps detected"
          else if (n <=? 2)%nat then "Fair - Some concerns to address"
          else "Needs Attention - Multiple high-risk apps") page /\
  occurs (if (0 <? n)%nat then "Review high-risk apps immediately"
          else "Continue monitoring regularly") page /\
  (if (0 <? n)%nat
   then occurs ("You have " ++ string_of_nat n ++ " high-risk app" ++ plural
                ++ " installed") page /\
        occurs ("You have " ++ string_of_nat n ++ " high-risk app" ++ plural
                ++ " on your device") cover
   else True).
Proof.
  cbv zeta.
  assert (E : highRisk (calculateStatistics apps)
              = List.length (filter in_highRisk apps)).
  { unfold calculateStatistics. cbn [highRisk].
    destruct (tally_closed_form apps tally0) as (H1 & _).
    rewrite H1. reflexivity. }
  set (n := List.length (filter in_highRisk apps)) in *.
  split; [|split].
  - unfold recommendationsPage. rewrite E.
    destruct (n =? 0)%nat.
    { skip_to "✅ Good - No high-risk apps detected".
      apply occurs_app_l, contains_occurs. reflexivity. }
    destruct (n <=? 2)%nat.
    { skip_to "⚠️ Fair - Some concerns to address".
      apply occurs_app_l, contains_occurs. reflexivity. }
    skip_to "🔴 Needs Attention - Multiple high-risk apps".
    apply occurs_app_l, contains_occurs. reflexivity.
  - unfold recommendationsPage. rewrite E.
    destruct (0 <? n)%nat.
    { skip_to "Review high-risk apps immediately".
      apply occurs_app_l, occurs_refl. }
    skip_to "Continue monitoring regularly".
    apply occurs_app_l, occurs_refl.
  - destruct (0 <? n)%nat eqn:P; [|exact I]. split.
    + unfold recommendationsPage. rewrite E, P.
      skip_to (recommendHighRisk (calculateStatistics apps)).
      apply occurs_app_l. unfold recommendHighRisk. rewrite E.
      around3.
    + unfold coverPage. rewrite E, P.
      skip_to (coverRecommendation (calculateStatistics apps)).
      apply occurs_app_l. unfold coverRecommendation. rewrite E.
      around3.
Qed.

(* ================================================================== *)
(** * Further properties of the Byte Formatter *)
(* ================================================================== *)

(** X23.  A whole number n of units, 0 < n < 1024, of any of the five
    units is printed as n and the unit: n bytes as "n Bytes", n * 1024
    bytes as "n KB", and so on up to "n TB".  One byte less than 1024 KB,
    MB or GB is not printed as 1 of the next unit but as 1024 of its own:
    1048575 bytes are "1024 KB". *)
Theorem formatBytes_whole_units (n : N) (i : nat) :
  (0 < n < 1024)%N -> i < 5 ->
  formatBytes (n * 1024 ^ N.of_nat i)
  = (numeral n ++ " " ++ nth i sizes EmptyString)%string /\
  formatBytes 1048575 = "1024 KB" /\
  formatBytes 1073741823 = "1024 MB" /\
  formatBytes 1099511627775 = "1024 GB".
Proof.
  intros Hn Hi. split; [|repeat split; vm_compute; reflexivity].
  assert (F : forallb (fun i =>
                forallb (fun k =>
                  String.eqb
                    (formatBytes (N.of_nat k * 1024 ^ N.of_nat i))
                    (numeral (N.of_nat k) ++ " " ++ nth i sizes EmptyString))
                  (seq 1 1023))
                (seq 0 5) = true) by (vm_compute; reflexivity).
  rewrite forallb_forall in F.
  assert (Ii : In i (seq 0 5)) by (apply in_seq; lia).
  specialize (F i Ii). rewrite forallb_forall in F.
  assert (In : In (N.to_nat n) (seq 1 1023)) by (apply in_seq; lia).
  specialize (F _ In). rewrite N2Nat.id in F.
  apply String.eqb_eq in F. exact F.
Qed.

(** 512 MB. *)
Lemma formatBytes_whole_units_witness :
  (0 < 512 < 1024)%N /\ 2 < 5 /\ formatBytes 536870912 = "512 MB".
Proof.
  split; [split; reflexivity|]. split; [lia|].
  apply (proj1 (formatBytes_whole_units 512 2 ltac:(split; reflexivity)
                  ltac:(lia))).
Defined.

(** X24.  The table of units ends at TB: every count of 1024^5 bytes or
    more is printed with the text "undefined" in the place of the unit. *)
Theorem formatBytes_beyond_TB (bytes : N) :
  (1024 ^ 5 <= bytes)%N ->
  5 <= floor_log1024 bytes /\
  nth_error sizes (floor_log1024 bytes) = None /\
  exists digits, formatBytes bytes = (digits ++ " undefined")%string.
Proof.
  intros H.
  assert (L : 5 <= floor_log1024 bytes).
  { unfold floor_log1024.
    assert (50 <= N.log2 bytes)%N.
    { change 50%N with (N.log2 (1024 ^ 5)). apply N.log2_le_mono. exact H. }
    assert (5 <= N.log2 bytes / 10)%N
      by (apply N.div_le_lower_bound; lia).
    lia. }
  assert (E : nth_error sizes (floor_log1024 bytes) = None)
    by (apply nth_error_None; exact L).
  split; [exact L|]. split; [exact E|].
  unfold formatBytes.
  destruct (bytes =? 0)%N eqn:Z; [apply N.eqb_eq in Z; subst; simpl in H; lia|].
  rewrite E. eexists. reflexivity.
Qed.

(** Three pebibytes. *)
Lemma formatBytes_beyond_TB_witness :
  (1024 ^ 5 <= 3377699720527872)%N /\
  nth_error sizes (floor_log1024 3377699720527872) = None /\
  formatBytes 3377699720527872 = "3 undefined".
Proof.
  assert (H : (1024 ^ 5 <= 3377699720527872)%N) by (vm_compute; discriminate).
  split; [exact H|].
  destruct (formatBytes_beyond_TB _ H) as (_ & E & _).
  split; [exact E|]. vm_compute. reflexivity.
Defined.

(* ================================================================== *)
(** * The aggregates and the order of the apps *)
(* ================================================================== *)









